(** * Financial report analyzer: file parsing, AI response parsing and
      dashboard derivation

    A shallow embedding of the pure core of the repository:

    - [GeminiAnalysisService.parseAnalysisResponse] and
      [GeminiAnalysisService.validateContent]   (src/lib/gemini.ts)
    - [FileParsingService.parseCSV]                (file parser)
    - [DashboardService.generateDashboard] with its helpers
      [generateChartData], [generateInsights], [extractNumericValue],
      [extractPercentageValue]                     (dashboard service)

    ECMAScript strings are sequences of UTF-16 code units; numbers are
    IEEE-754 binary64 values.  Both are modelled as such: a string is a
    list of code units, a number is a [spec_float] of precision 53. *)

From Stdlib Require Import List NArith ZArith Bool Lia String Ascii.
From Stdlib Require Import DecimalString.
From Stdlib Require Import Floats.SpecFloat.
Import ListNotations.

Set Implicit Arguments.

(* ================================================================== *)
(** * 1. The ECMAScript built-ins the sources rely on              *)
(* ================================================================== *)

Module JS.

Local Open Scope N_scope.

(** ** Strings *)

(** A code unit and a string.  Both are notations, so that a string is
    syntactically a list wherever it occurs. *)
Abbreviation char := N (only parsing).
Abbreviation jsstring := (list N) (only parsing).

(** An ASCII literal as a string of code units. *)
Definition str (s : string) : jsstring :=
  map N_of_ascii (list_ascii_of_string s).
Arguments str s%_string.

(** The code unit of a one-character ASCII literal. *)
Definition code (s : string) : char := hd 0 (str s).
Arguments code s%_string.

(** A literal in which the apostrophe stands for the quotation mark
    (code unit 34), for writing JSON texts. *)
Definition strq (s : string) : jsstring :=
  map (fun c => if c =? 39 then 34 else c) (str s).
Arguments strq s%_string.

(** [a === b] on strings. *)
Fixpoint eqb (a b : jsstring) : bool :=
  match a, b with
  | [], [] => true
  | x :: a', y :: b' => (x =? y) && eqb a' b'
  | _, _ => false
  end.

(** [s.length] *)
Definition length (s : jsstring) : Z := Z.of_nat (List.length s).

(** WhiteSpace and LineTerminator code points: what [trim], the regular
    expression class [\s] and [parseFloat] skip. *)
Definition isWhiteSpace (c : char) : bool :=
  (c =? 9) || (c =? 10) || (c =? 11) || (c =? 12) || (c =? 13)
  || (c =? 32) || (c =? 160) || (c =? 5760)
  || ((8192 <=? c) && (c <=? 8202))
  || (c =? 8232) || (c =? 8233) || (c =? 8239) || (c =? 8287)
  || (c =? 12288) || (c =? 65279).

Fixpoint dropWhile (p : char -> bool) (s : jsstring) : jsstring :=
  match s with
  | [] => []
  | c :: r => if p c then dropWhile p r else s
  end.

Fixpoint span (p : char -> bool) (s : jsstring) : jsstring * jsstring :=
  match s with
  | [] => ([], [])
  | c :: r =>
      if p c then let '(a, b) := span p r in (c :: a, b) else ([], s)
  end.

Definition trimStart (s : jsstring) : jsstring := dropWhile isWhiteSpace s.
Fixpoint trimEnd (s : jsstring) : jsstring :=
  match s with
  | [] => []
  | c :: r =>
      match trimEnd r with
      | [] => if isWhiteSpace c then [] else [c]
      | t => c :: t
      end
  end.

(** [s.trim()] *)
Definition trim (s : jsstring) : jsstring := trimEnd (trimStart s).

(** [s.includes(c)] for a one-character needle. *)
Definition includes (c : char) (s : jsstring) : bool :=
  existsb (N.eqb c) s.

(** [s.replace(/[...]/g, '')]: delete every code unit of a class. *)
Definition remove (p : char -> bool) (s : jsstring) : jsstring :=
  filter (fun c => negb (p c)) s.

(** [c.repeat(n)] for a one-character string. *)
Definition repeat (c : char) (n : N) : jsstring :=
  List.repeat c (N.to_nat n).

(** The ASCII letters. *)
Definition isLetter (c : char) : bool :=
  ((65 <=? c) && (c <=? 90)) || ((97 <=? c) && (c <=? 122)).

(** [s.split(sep)] for a one-character separator: always at least one
    piece. *)
Fixpoint split (sep : char) (s : jsstring) : list jsstring :=
  match s with
  | [] => [[]]
  | c :: r =>
      if c =? sep then [] :: split sep r
      else match split sep r with
           | [] => [[c]]
           | p :: ps => (c :: p) :: ps
           end
  end.

(** [a.join(sep)] *)
Fixpoint join (sep : jsstring) (l : list jsstring) : jsstring :=
  match l with
  | [] => []
  | [x] => x
  | x :: r => x ++ sep ++ join sep r
  end.

Fixpoint isPrefix (p s : jsstring) : bool :=
  match p, s with
  | [], _ => true
  | a :: p', b :: s' => (a =? b) && isPrefix p' s'
  | _ :: _, [] => false
  end.

(** ** Numbers *)

Definition number := spec_float.

Definition prec : Z := 53.
Definition emax : Z := 1024.

Definition NaN : number := S754_nan.
Definition zero : number := S754_zero false.

Definition isNaN (x : number) : bool :=
  match x with S754_nan => true | _ => false end.

(** [x > y], [x < y]; false as soon as one side is NaN. *)
Definition gt (x y : number) : bool := SFltb y x.
Definition lt (x y : number) : bool := SFltb x y.

Definition neg (x : number) : number := SFopp x.
Definition sub (x y : number) : number := SFsub prec emax x y.

(** [Math.max(x, y)]: NaN if either is NaN, and +0 is larger than -0. *)
Definition Math_max (x y : number) : number :=
  match x, y with
  | S754_nan, _ | _, S754_nan => S754_nan
  | S754_zero sx, S754_zero sy => S754_zero (sx && sy)
  | _, _ => if SFltb x y then y else x
  end.

(** The Number value of the decimal [(-1)^sign * m * 10^e], rounded to
    nearest, ties to even. *)
Definition ofDecimal (sign : bool) (m : N) (e : Z) : number :=
  match m with
  | N0 => S754_zero sign
  | Npos p =>
      match e with
      | Z0 => binary_round prec emax sign p 0
      | Zpos k => binary_round prec emax sign (p * Pos.pow 10 k) 0
      | Zneg k =>
          SFdiv prec emax (S754_finite sign p 0)
                (S754_finite false (Pos.pow 10 k) 0)
      end
  end.

Definition ofZ (z : Z) : number :=
  binary_normalize prec emax z 0 false.

(** ToNumber on [number | null]: null is +0. *)
Definition toNumber (v : option number) : number :=
  match v with Some x => x | None => zero end.

Definition isDigit (c : char) : bool := (48 <=? c) && (c <=? 57).

Definition digitsValue (ds : jsstring) : N :=
  fold_left (fun acc c => 10 * acc + (c - 48)) ds 0.

(** An optional sign: minus (45) or plus (43). *)
Definition takeSign (s : jsstring) : bool * jsstring :=
  match s with
  | c :: r =>
      if c =? 45 then (true, r)
      else if c =? 43 then (false, r)
      else (false, s)
  | [] => (false, [])
  end.

(** The exponent part of a decimal literal: [e] or [E], an optional sign
    and at least one digit; 0 when there is none. *)
Definition exponentPart (s : jsstring) : Z :=
  match s with
  | c :: r =>
      if (c =? 101) || (c =? 69) then
        let '(eneg, r') := takeSign r in
        match fst (span isDigit r') with
        | [] => 0%Z
        | ds => if eneg then (- Z.of_N (digitsValue ds))%Z
                else Z.of_N (digitsValue ds)
        end
      else 0%Z
  | [] => 0%Z
  end.

(** The fraction of a decimal literal: a point (46) and the digits after
    it, which may be none. *)
Definition fractionPart (s : jsstring) : jsstring * jsstring :=
  match s with
  | c :: r => if c =? 46 then span isDigit r else ([], s)
  | [] => ([], [])
  end.

(** The longest prefix that is an unsigned StrDecimalLiteral: Infinity,
    or digits with an optional fraction and exponent, at least one digit
    before the exponent. *)
Definition strDecimalLiteral (sign : bool) (s : jsstring) : number :=
  if isPrefix (str "Infinity") s then S754_infinity sign
  else
    let '(ip, r1) := span isDigit s in
    let '(fp, r2) := fractionPart r1 in
    match ip ++ fp with
    | [] => NaN
    | ds => ofDecimal sign (digitsValue ds)
              (exponentPart r2 - Z.of_nat (List.length fp))
    end.

(** [parseFloat(s)]: skip leading white space, then read the longest
    prefix that is a StrDecimalLiteral; NaN when there is none. *)
Definition parseFloat (s : jsstring) : number :=
  let '(sign, s1) := takeSign (trimStart s) in
  strDecimalLiteral sign s1.

(** Number::toString for an integer such as an array length or a loop
    index, as a template literal interpolates it. *)
Definition showZ (z : Z) : jsstring :=
  str (NilEmpty.string_of_int (Z.to_int z)).

End JS.

(* ================================================================== *)
(** * 2. The data model (src/types/index.ts)                       *)
(* ================================================================== *)

Import JS.

(** [KPIs]: four required strings and six optional ones ([None] is a
    property that is [undefined]). *)
Module KPIs.
Record t := {
  revenue : jsstring;
  expenses : jsstring;
  netProfit : jsstring;
  growthRate : jsstring;
  totalAssets : option jsstring;
  totalLiabilities : option jsstring;
  cashFlow : option jsstring;
  debtToEquityRatio : option jsstring;
  returnOnInvestment : option jsstring;
  profitMargin : option jsstring
}.
End KPIs.

(** [Analysis], without its two timestamps. *)
Module Analysis.
Record t := {
  id : jsstring;
  fileId : jsstring;
  summary : jsstring;
  kpis : KPIs.t;
  risks : list jsstring;
  opportunities : list jsstring;
  recommendations : list jsstring
}.
End Analysis.

(** The objects pushed into [ChartData.data] (declared [any[]]), one
    constructor per object shape the dashboard service builds. *)
Inductive Datum :=
| CategoryDatum (category : jsstring) (value : option number)
                (formatted : jsstring)
| NameDatum (name : jsstring) (value : option number)
            (formatted : option jsstring)
| MetricDatum (metric : jsstring) (value : option number)
              (formatted : option jsstring)
| CountDatum (category : jsstring) (value : Z) (items : list jsstring).

Module ChartData.
Inductive ChartType := line | bar | pie | area.

Record t := {
  type : ChartType;
  title : jsstring;
  data : list Datum;
  xAxisKey : option jsstring;
  yAxisKey : option jsstring;
  dataKey : option jsstring
}.
End ChartData.

Inductive InsightType := positive | negative | neutral.
Inductive Importance := high | medium | low.

Module Insight.
Record t := {
  id : jsstring;
  title : jsstring;
  description : jsstring;
  type : InsightType;
  importance : Importance
}.
End Insight.

(* ================================================================== *)
(** * 3. DashboardService                                          *)
(* ================================================================== *)

Module DashboardService.

Local Open Scope N_scope.

Record DashboardGenerationResult := {
  chartData : list ChartData.t;
  insights : list Insight.t
}.

(** [value !== 'N/A'] on a possibly undefined property. *)
Definition isNotNA (value : option jsstring) : bool :=
  match value with
  | None => true
  | Some v => negb (JS.eqb v (str "N/A"))
  end.

(** A property interpolated by a template literal. *)
Definition interpolate (value : option jsstring) : jsstring :=
  match value with
  | None => str "undefined"
  | Some v => v
  end.

(** The class [[$,\s%]]. *)
Definition isCurrencyNoise (c : char) : bool :=
  (c =? 36) || (c =? 44) || isWhiteSpace c || (c =? 37).

(** The class [[()]]. *)
Definition isParen (c : char) : bool := (c =? 40) || (c =? 41).

(** The class [[%\s]]. *)
Definition isPercentNoise (c : char) : bool :=
  (c =? 37) || isWhiteSpace c.

(** [extractNumericValue]: [None] is [null]. *)
Definition extractNumericValue (value : option jsstring) : option number :=
  match value with
  | None => None
  | Some v =>
      match v with
      | [] => None
      | _ =>
          if JS.eqb v (str "N/A") then None
          else
            let cleaned := remove isCurrencyNoise v in
            let isNegative := includes 40 cleaned && includes 41 cleaned in
            let numericString := remove isParen cleaned in
            let number := parseFloat numericString in
            if isNaN number then None
            else Some (if isNegative then neg number else number)
      end
  end.

(** [extractPercentageValue] *)
Definition extractPercentageValue (value : option jsstring)
  : option number :=
  match value with
  | None => None
  | Some v =>
      match v with
      | [] => None
      | _ =>
          if JS.eqb v (str "N/A") then None
          else
            let cleaned := remove isPercentNoise v in
            let number := parseFloat cleaned in
            if isNaN number then None else Some number
      end
  end.

Definition hasValue (d : Datum) : bool :=
  match d with
  | CategoryDatum _ v _ | NameDatum _ v _ | MetricDatum _ v _ =>
      match v with Some _ => true | None => false end
  | CountDatum _ _ _ => true
  end.

Section WithIntl.

(** [formatCurrency] delegates to [Intl.NumberFormat('en-US', {style:
    'currency', currency: 'USD', notation: 'compact'}).format], a
    function of the host's internationalisation library. *)
Variable formatCurrency : number -> jsstring.

(** The chart pushed unconditionally first. *)
Definition financialOverview (kpis : KPIs.t) : ChartData.t :=
  {| ChartData.type := ChartData.bar;
     ChartData.title := str "Financial Overview";
     ChartData.data :=
       [ CategoryDatum (str "Revenue")
           (extractNumericValue (Some (KPIs.revenue kpis)))
           (KPIs.revenue kpis);
         CategoryDatum (str "Expenses")
           (extractNumericValue (Some (KPIs.expenses kpis)))
           (KPIs.expenses kpis);
         CategoryDatum (str "Net Profit")
           (extractNumericValue (Some (KPIs.netProfit kpis)))
           (KPIs.netProfit kpis) ];
     ChartData.xAxisKey := Some (str "category");
     ChartData.yAxisKey := Some (str "value");
     ChartData.dataKey := None |}.

(** What the statement [if (kpis.totalAssets !== 'N/A' && ...)] pushes:
    the pie chart or nothing.  In [assetValue - liabilityValue] and
    [assetValue > 0] a [null] operand is converted to +0. *)
Definition balanceSheet (kpis : KPIs.t) : list ChartData.t :=
  if isNotNA (KPIs.totalAssets kpis)
     && isNotNA (KPIs.totalLiabilities kpis)
  then
    let assetValue := extractNumericValue (KPIs.totalAssets kpis) in
    let liabilityValue :=
      extractNumericValue (KPIs.totalLiabilities kpis) in
    let equity := sub (toNumber assetValue) (toNumber liabilityValue) in
    if gt (toNumber assetValue) zero then
      [ {| ChartData.type := ChartData.pie;
           ChartData.title := str "Balance Sheet Composition";
           ChartData.data :=
             [ NameDatum (str "Assets") assetValue
                 (KPIs.totalAssets kpis);
               NameDatum (str "Liabilities") liabilityValue
                 (KPIs.totalLiabilities kpis);
               NameDatum (str "Equity") (Some (Math_max zero equity))
                 (Some (formatCurrency equity)) ];
           ChartData.xAxisKey := None;
           ChartData.yAxisKey := None;
           ChartData.dataKey := Some (str "value") |} ]
    else []
  else [].

Definition performanceMetrics (kpis : KPIs.t) : ChartData.t :=
  {| ChartData.type := ChartData.area;
     ChartData.title := str "Performance Metrics";
     ChartData.data :=
       filter hasValue
         [ MetricDatum (str "Growth Rate")
             (extractPercentageValue (Some (KPIs.growthRate kpis)))
             (Some (KPIs.growthRate kpis));
           MetricDatum (str "Profit Margin")
             (extractPercentageValue (KPIs.profitMargin kpis))
             (KPIs.profitMargin kpis);
           MetricDatum (str "ROI")
             (extractPercentageValue (KPIs.returnOnInvestment kpis))
             (KPIs.returnOnInvestment kpis) ];
     ChartData.xAxisKey := Some (str "metric");
     ChartData.yAxisKey := Some (str "value");
     ChartData.dataKey := None |}.

Definition riskOpportunityData (analysis : Analysis.t) : ChartData.t :=
  {| ChartData.type := ChartData.bar;
     ChartData.title := str "Risk vs Opportunity Analysis";
     ChartData.data :=
       [ CountDatum (str "Risks Identified")
           (Z.of_nat (List.length (Analysis.risks analysis)))
           (Analysis.risks analysis);
         CountDatum (str "Opportunities Found")
           (Z.of_nat (List.length (Analysis.opportunities analysis)))
           (Analysis.opportunities analysis);
         CountDatum (str "Recommendations")
           (Z.of_nat (List.length (Analysis.recommendations analysis)))
           (Analysis.recommendations analysis) ];
     ChartData.xAxisKey := Some (str "category");
     ChartData.yAxisKey := Some (str "value");
     ChartData.dataKey := None |}.

(** [generateChartData]: the local array [charts] and the pushes onto
    it, in order. *)
Definition generateChartData (analysis : Analysis.t)
  : list ChartData.t :=
  let charts : list ChartData.t := [] in
  let kpis := Analysis.kpis analysis in
  let charts := charts ++ [financialOverview kpis] in
  let charts := charts ++ balanceSheet kpis in
  let charts :=
    if (0 <? List.length (ChartData.data (performanceMetrics kpis)))%nat
    then charts ++ [performanceMetrics kpis] else charts in
  let charts := charts ++ [riskOpportunityData analysis] in
  charts.

(** The thresholds 5, 1 and 1.5 of the insight rules. *)
Definition five : number := ofZ 5.
Definition one : number := ofZ 1.
Definition one_and_a_half : number := ofDecimal false 15 (-1).

(** Each of the six conditional statements of [generateInsights]
    pushes one insight or none. *)
Definition profitabilityInsight (kpis : KPIs.t) : list Insight.t :=
  match extractNumericValue (Some (KPIs.netProfit kpis)) with
  | Some netProfitValue =>
      [ {| Insight.id := str "profitability";
           Insight.title := str "Profitability Analysis";
           Insight.description :=
             if gt netProfitValue zero
             then str "Company shows positive profitability with net profit of "
                  ++ KPIs.netProfit kpis
             else str "Company has negative profitability with net loss of "
                  ++ KPIs.netProfit kpis;
           Insight.type :=
             if gt netProfitValue zero then positive else negative;
           Insight.importance := high |} ]
  | None => []
  end.

Definition growthInsight (kpis : KPIs.t) : list Insight.t :=
  match extractPercentageValue (Some (KPIs.growthRate kpis)) with
  | Some growthRate =>
      [ {| Insight.id := str "growth";
           Insight.title := str "Growth Performance";
           Insight.description :=
             if gt growthRate zero
             then str "Strong growth trajectory with "
                  ++ KPIs.growthRate kpis ++ str " growth rate"
             else str "Declining performance with "
                  ++ KPIs.growthRate kpis ++ str " growth rate";
           Insight.type :=
             if gt growthRate five then positive
             else if lt growthRate zero then negative else neutral;
           Insight.importance := high |} ]
  | None => []
  end.

Definition cashFlowInsight (kpis : KPIs.t) : list Insight.t :=
  if isNotNA (KPIs.cashFlow kpis) then
    match extractNumericValue (KPIs.cashFlow kpis) with
    | Some cashFlowValue =>
        [ {| Insight.id := str "cashflow";
             Insight.title := str "Cash Flow Status";
             Insight.description :=
               if gt cashFlowValue zero
               then str "Healthy cash flow from operations: "
                    ++ interpolate (KPIs.cashFlow kpis)
               else str "Negative cash flow requiring attention: "
                    ++ interpolate (KPIs.cashFlow kpis);
             Insight.type :=
               if gt cashFlowValue zero then positive else negative;
             Insight.importance := high |} ]
    | None => []
    end
  else [].

Definition riskInsight (analysis : Analysis.t) : list Insight.t :=
  let n := Z.of_nat (List.length (Analysis.risks analysis)) in
  if (n >? 0)%Z then
    [ {| Insight.id := str "risks";
         Insight.title := str "Risk Assessment";
         Insight.description :=
           showZ n ++
           str " potential risks identified that require management attention";
         Insight.type := if (n >? 3)%Z then negative else neutral;
         Insight.importance := if (n >? 3)%Z then high else medium |} ]
  else [].

Definition opportunityInsight (analysis : Analysis.t) : list Insight.t :=
  let n := Z.of_nat (List.length (Analysis.opportunities analysis)) in
  if (n >? 0)%Z then
    [ {| Insight.id := str "opportunities";
         Insight.title := str "Growth Opportunities";
         Insight.description :=
           showZ n ++
           str " growth opportunities identified for business expansion";
         Insight.type := positive;
         Insight.importance := medium |} ]
  else [].

Definition leverageInsight (kpis : KPIs.t) : list Insight.t :=
  if isNotNA (KPIs.debtToEquityRatio kpis) then
    match extractNumericValue (KPIs.debtToEquityRatio kpis) with
    | Some debtRatio =>
        [ {| Insight.id := str "leverage";
             Insight.title := str "Financial Leverage";
             Insight.description :=
               if gt debtRatio one
               then str "High leverage with debt-to-equity ratio of "
                    ++ interpolate (KPIs.debtToEquityRatio kpis)
               else str "Conservative leverage with debt-to-equity ratio of "
                    ++ interpolate (KPIs.debtToEquityRatio kpis);
             Insight.type :=
               if gt debtRatio one_and_a_half then negative
               else if gt debtRatio one then neutral else positive;
             Insight.importance :=
               if gt debtRatio one_and_a_half then high else medium |} ]
    | None => []
    end
  else [].

(** [generateInsights]: the local array [insights] and the pushes onto
    it, in order. *)
Definition generateInsights (analysis : Analysis.t) : list Insight.t :=
  let insights : list Insight.t := [] in
  let kpis := Analysis.kpis analysis in
  let insights := insights ++ profitabilityInsight kpis in
  let insights := insights ++ growthInsight kpis in
  let insights := insights ++ cashFlowInsight kpis in
  let insights := insights ++ riskInsight analysis in
  let insights := insights ++ opportunityInsight analysis in
  let insights := insights ++ leverageInsight kpis in
  insights.

Definition generateDashboard (analysis : Analysis.t)
  : DashboardGenerationResult :=
  let chartData := generateChartData analysis in
  let insights := generateInsights analysis in
  {| chartData := chartData; insights := insights |}.

End WithIntl.

End DashboardService.

(* ================================================================== *)
(** * 4. JSON.parse and the values it produces                     *)
(* ================================================================== *)

(** An ECMAScript value as far as [JSON.parse] and property access can
    produce one. *)
#[local] Unset Elimination Schemes.
Inductive value :=
| VUndefined
| VNull
| VBool (b : bool)
| VNum (n : number)
| VStr (s : jsstring)
| VArr (elems : list value)
| VObj (props : list (jsstring * value)).
#[local] Set Elimination Schemes.

Module JSON.

Local Open Scope N_scope.

Inductive token :=
| TLBrace | TRBrace | TLBracket | TRBracket | TComma | TColon
| TString (s : jsstring) | TNumber (n : number)
| TTrue | TFalse | TNull.

(** JSON white space: tab, line feed, carriage return, space. *)
Definition isJSONWhiteSpace (c : char) : bool :=
  (c =? 9) || (c =? 10) || (c =? 13) || (c =? 32).

Definition punct (c : char) : option token :=
  if c =? 123 then Some TLBrace
  else if c =? 125 then Some TRBrace
  else if c =? 91 then Some TLBracket
  else if c =? 93 then Some TRBracket
  else if c =? 44 then Some TComma
  else if c =? 58 then Some TColon
  else None.

(** The characters a number lexeme is made of: digits, sign, point,
    exponent marker. *)
Definition isNumChar (c : char) : bool :=
  isDigit c || (c =? 45) || (c =? 43) || (c =? 46) || (c =? 101)
  || (c =? 69).

Definition hexDigit (c : char) : option N :=
  if (48 <=? c) && (c <=? 57) then Some (c - 48)
  else if (97 <=? c) && (c <=? 102) then Some (c - 87)
  else if (65 <=? c) && (c <=? 70) then Some (c - 55)
  else None.

Definition hex4 (a b c d : char) : option char :=
  match hexDigit a, hexDigit b, hexDigit c, hexDigit d with
  | Some x, Some y, Some z, Some w => Some (4096 * x + 256 * y + 16 * z + w)
  | _, _, _, _ => None
  end.

(** The single-character escapes after a backslash. *)
Definition escape (c : char) : option char :=
  if c =? 34 then Some 34          (* quotation mark *)
  else if c =? 92 then Some 92     (* reverse solidus *)
  else if c =? 47 then Some 47     (* solidus *)
  else if c =? 98 then Some 8      (* b: backspace *)
  else if c =? 102 then Some 12    (* f: form feed *)
  else if c =? 110 then Some 10    (* n: line feed *)
  else if c =? 114 then Some 13    (* r: carriage return *)
  else if c =? 116 then Some 9     (* t: tab *)
  else None.

(** A complete lexeme against the JSON number grammar: an optional
    minus; an integer part that is 0 or starts with a non-zero digit; an
    optional fraction of a point and at least one digit; an optional
    exponent of e or E, an optional sign and at least one digit. *)
Definition numberToken (s : jsstring) : option number :=
  let '(sign, s1) := match s with
                     | c :: r => if c =? 45 then (true, r) else (false, s)
                     | [] => (false, [])
                     end in
  let '(ip, r1) := span isDigit s1 in
  match ip with
  | [] => None
  | d :: ds =>
      if (d =? 48) && (match ds with [] => false | _ => true end) then None
      else
        let frac :=
          match r1 with
          | c :: r =>
              if c =? 46 then
                let '(fp, r2) := span isDigit r in
                match fp with [] => None | _ => Some (fp, r2) end
              else Some ([], r1)
          | [] => Some ([], [])
          end in
        match frac with
        | None => None
        | Some (fp, r2) =>
            let ex :=
              match r2 with
              | [] => Some 0%Z
              | c :: r =>
                  if (c =? 101) || (c =? 69) then
                    let '(eneg, r3) := takeSign r in
                    let '(ed, r4) := span isDigit r3 in
                    match ed, r4 with
                    | _ :: _, [] =>
                        Some (if eneg then (- Z.of_N (digitsValue ed))%Z
                              else Z.of_N (digitsValue ed))
                    | _, _ => None
                    end
                  else None
              end in
            match ex with
            | None => None
            | Some e =>
                Some (ofDecimal sign (digitsValue (ip ++ fp))
                        (e - Z.of_nat (List.length fp)))
            end
        end
  end.

Inductive mode :=
| MTop
| MString (acc : jsstring)
| MNumber (acc : jsstring).

(** The lexer, one code unit at a time.  The literals are [true] (after t:
    114 117 101), [false] (after f: 97 108 115 101) and [null] (after n:
    117 108 108).  A number lexeme ends at white space or at a punctuator;
    any other follower is a syntax error. *)
Fixpoint lex (m : mode) (toks : list token) (s : jsstring) {struct s}
  : option (list token) :=
  match s with
  | [] =>
      match m with
      | MTop => Some (rev toks)
      | MString _ => None
      | MNumber acc =>
          match numberToken (rev acc) with
          | Some n => Some (rev (TNumber n :: toks))
          | None => None
          end
      end
  | c :: r =>
      match m with
      | MTop =>
          if isJSONWhiteSpace c then lex MTop toks r
          else
            match punct c with
            | Some t => lex MTop (t :: toks) r
            | None =>
                if c =? 34 then lex (MString []) toks r
                else if (c =? 45) || isDigit c then lex (MNumber [c]) toks r
                else if c =? 116 then
                  match r with
                  | c1 :: c2 :: c3 :: r' =>
                      if (c1 =? 114) && (c2 =? 117) && (c3 =? 101)
                      then lex MTop (TTrue :: toks) r' else None
                  | _ => None
                  end
                else if c =? 102 then
                  match r with
                  | c1 :: c2 :: c3 :: c4 :: r' =>
                      if (c1 =? 97) && (c2 =? 108) && (c3 =? 115)
                         && (c4 =? 101)
                      then lex MTop (TFalse :: toks) r' else None
                  | _ => None
                  end
                else if c =? 110 then
                  match r with
                  | c1 :: c2 :: c3 :: r' =>
                      if (c1 =? 117) && (c2 =? 108) && (c3 =? 108)
                      then lex MTop (TNull :: toks) r' else None
                  | _ => None
                  end
                else None
            end
      | MString acc =>
          if c =? 34 then lex MTop (TString (rev acc) :: toks) r
          else if c =? 92 then
            match r with
            | e :: r' =>
                if e =? 117 then
                  match r' with
                  | h1 :: h2 :: h3 :: h4 :: r'' =>
                      match hex4 h1 h2 h3 h4 with
                      | Some u => lex (MString (u :: acc)) toks r''
                      | None => None
                      end
                  | _ => None
                  end
                else
                  match escape e with
                  | Some u => lex (MString (u :: acc)) toks r'
                  | None => None
                  end
            | [] => None
            end
          else if c <? 32 then None
          else lex (MString (c :: acc)) toks r
      | MNumber acc =>
          if isNumChar c then lex (MNumber (c :: acc)) toks r
          else
            match numberToken (rev acc) with
            | None => None
            | Some n =>
                if isJSONWhiteSpace c then lex MTop (TNumber n :: toks) r
                else
                  match punct c with
                  | Some t => lex MTop (t :: TNumber n :: toks) r
                  | None => None
                  end
            end
      end
  end.

(** [CreateDataProperty(obj, k, v)] on the members read so far, latest
    first: a name that is already there keeps its place and takes the new
    value, so an object holds one property per name, with the value of the
    last member of that name. *)
Definition defineProperty (k : jsstring) (v : value)
           (done : list (jsstring * value)) : list (jsstring * value) :=
  if existsb (fun kv => JS.eqb (fst kv) k) done
  then map (fun kv => if JS.eqb (fst kv) k then (fst kv, v) else kv) done
  else (k, v) :: done.

(** The parser, a pushdown automaton over the tokens. *)
Inductive frame :=
| FArr (done : list value)
| FObj (done : list (jsstring * value)) (key : jsstring).

Inductive pstate :=
| PValue (stk : list frame)
| PArrStart (stk : list frame)
| PObjStart (stk : list frame)
| PKey (done : list (jsstring * value)) (stk : list frame)
| PColon (done : list (jsstring * value)) (key : jsstring)
         (stk : list frame)
| PAfter (v : value) (stk : list frame).

Definition valueStep (stk : list frame) (t : token) : option pstate :=
  match t with
  | TString s => Some (PAfter (VStr s) stk)
  | TNumber n => Some (PAfter (VNum n) stk)
  | TTrue => Some (PAfter (VBool true) stk)
  | TFalse => Some (PAfter (VBool false) stk)
  | TNull => Some (PAfter VNull stk)
  | TLBracket => Some (PArrStart stk)
  | TLBrace => Some (PObjStart stk)
  | _ => None
  end.

Definition step (st : pstate) (t : token) : option pstate :=
  match st with
  | PValue stk => valueStep stk t
  | PArrStart stk =>
      match t with
      | TRBracket => Some (PAfter (VArr []) stk)
      | _ => valueStep (FArr [] :: stk) t
      end
  | PObjStart stk =>
      match t with
      | TRBrace => Some (PAfter (VObj []) stk)
      | TString k => Some (PColon [] k stk)
      | _ => None
      end
  | PKey done stk =>
      match t with
      | TString k => Some (PColon done k stk)
      | _ => None
      end
  | PColon done k stk =>
      match t with
      | TColon => Some (PValue (FObj done k :: stk))
      | _ => None
      end
  | PAfter v (FArr done :: stk) =>
      match t with
      | TComma => Some (PValue (FArr (v :: done) :: stk))
      | TRBracket => Some (PAfter (VArr (rev (v :: done))) stk)
      | _ => None
      end
  | PAfter v (FObj done k :: stk) =>
      match t with
      | TComma => Some (PKey (defineProperty k v done) stk)
      | TRBrace => Some (PAfter (VObj (rev (defineProperty k v done))) stk)
      | _ => None
      end
  | PAfter _ [] => None
  end.

Fixpoint run (st : pstate) (toks : list token) : option pstate :=
  match toks with
  | [] => Some st
  | t :: r =>
      match step st t with
      | Some st' => run st' r
      | None => None
      end
  end.

(** The bottom frame of the stack is that of an object. *)
Fixpoint bottomIsObject (stk : list frame) : bool :=
  match stk with
  | [] => false
  | [FObj _ _] => true
  | [FArr _] => false
  | _ :: r => bottomIsObject r
  end.

Definition isObject (v : value) : bool :=
  match v with VObj _ => true | _ => false end.

(** The parser states reachable after an opening brace as first token:
    whatever is completed on the empty stack is an object. *)
Definition objectRooted (st : pstate) : Prop :=
  match st with
  | PValue stk | PArrStart stk => bottomIsObject stk = true
  | PObjStart stk | PKey _ stk | PColon _ _ stk =>
      stk = [] \/ bottomIsObject stk = true
  | PAfter v stk =>
      (stk = [] /\ isObject v = true) \/ bottomIsObject stk = true
  end.

(** [JSON.parse(text)]; [None] is a SyntaxError. *)
Definition parse (text : jsstring) : option value :=
  match lex MTop [] text with
  | None => None
  | Some toks =>
      match run (PValue []) toks with
      | Some (PAfter v []) => Some v
      | _ => None
      end
  end.

End JSON.

(* ================================================================== *)
(** * 5. GeminiAnalysisService (src/lib/gemini.ts)                 *)
(* ================================================================== *)

(** The KPI object as [parseAnalysisResponse] builds it.  The interface
    declares strings, but the values come out of [JSON.parse] and are
    stored as they are, so each field holds an arbitrary value. *)
Module ParsedKPIs.
Record t := {
  revenue : value;
  expenses : value;
  netProfit : value;
  growthRate : value;
  totalAssets : value;
  totalLiabilities : value;
  cashFlow : value;
  debtToEquityRatio : value;
  returnOnInvestment : value;
  profitMargin : value
}.
End ParsedKPIs.

(** [AnalysisResult] as it exists at run time. *)
Module AnalysisResult.
Record t := {
  summary : value;
  kpis : ParsedKPIs.t;
  risks : value;
  opportunities : value;
  recommendations : value
}.
End AnalysisResult.

Module GeminiAnalysisService.

Local Open Scope N_scope.

(** Exceptions raised inside the [try] block. *)
Inductive exn :=
| Error (message : jsstring)
| SyntaxError
| TypeError.

Inductive result (A : Type) :=
| Ok (a : A)
| Throw (e : exn).
Arguments Ok {A} a.
Arguments Throw {A} e.

Definition bind {A B} (m : result A) (k : A -> result B) : result B :=
  match m with
  | Ok a => k a
  | Throw e => Throw e
  end.

Notation "x <- m ;; k" := (bind m (fun x => k))
  (at level 61, m at next level, right associativity).

(** ToBoolean *)
Definition truthy (v : value) : bool :=
  match v with
  | VUndefined | VNull => false
  | VBool b => b
  | VNum (S754_zero _) | VNum S754_nan => false
  | VNum _ => true
  | VStr [] => false
  | VStr _ => true
  | VArr _ | VObj _ => true
  end.

(** [a || b] *)
Definition or (a b : value) : value := if truthy a then a else b.

(** The value of the property [k] of an object literal: with duplicate
    names the last one wins. *)
Definition lookup (k : jsstring) (props : list (jsstring * value))
  : option value :=
  fold_left (fun acc kv => if JS.eqb k (fst kv) then Some (snd kv) else acc)
            props None.

(** The value of [v.k] where the access does not throw, for one of the
    property names this service reads (summary, kpis, risks, ..., the ten
    KPI names).  None of them is defined on a built-in prototype, so on
    anything but an object with that own property the result is
    [undefined]. *)
Definition prop (v : value) (k : jsstring) : value :=
  match v with
  | VObj props =>
      match lookup k props with Some x => x | None => VUndefined end
  | _ => VUndefined
  end.

(** [v.k]: on [null] and [undefined] the access throws. *)
Definition get (v : value) (k : jsstring) : result value :=
  match v with
  | VUndefined | VNull => Throw TypeError
  | _ => Ok (prop v k)
  end.

(** [v?.k] *)
Definition getOpt (v : value) (k : jsstring) : result value :=
  match v with
  | VUndefined | VNull => Ok VUndefined
  | _ => get v k
  end.

(** [Array.isArray(v) ? v : []] *)
Definition arrayOrEmpty (v : value) : value :=
  match v with
  | VArr _ => v
  | _ => VArr []
  end.

(** The prefix of [s] that ends with the last occurrence of [c]; empty
    when [c] does not occur. *)
Fixpoint upToLast (c : char) (s : jsstring) : jsstring :=
  match s with
  | [] => []
  | x :: r =>
      match upToLast c r with
      | [] => if x =? c then [x] else []
      | t => x :: t
      end
  end.

(** [text.match(/\{[\s\S]*\}/)]: the match starts at the leftmost opening
    brace and, the star being greedy, ends at the last closing brace
    after it.  [None] when there is no such pair. *)
Definition matchJsonObject (text : jsstring) : option jsstring :=
  match dropWhile (fun c => negb (c =? 123)) text with
  | [] => None
  | open :: rest =>
      match upToLast 125 rest with
      | [] => None
      | body => Some (open :: body)
      end
  end.

Definition jsonParse (s : jsstring) : result value :=
  match JSON.parse s with
  | Some v => Ok v
  | None => Throw SyntaxError
  end.

Definition NA : value := VStr (str "N/A").

Definition advisory : value :=
  VStr (str "Analysis unavailable - please review the report manually").

(** The object returned from the [catch] block. *)
Definition fallback : AnalysisResult.t :=
  {| AnalysisResult.summary :=
       VStr (str "Unable to generate detailed analysis. Please try again or contact support.");
     AnalysisResult.kpis :=
       {| ParsedKPIs.revenue := NA;
          ParsedKPIs.expenses := NA;
          ParsedKPIs.netProfit := NA;
          ParsedKPIs.growthRate := NA;
          ParsedKPIs.totalAssets := NA;
          ParsedKPIs.totalLiabilities := NA;
          ParsedKPIs.cashFlow := NA;
          ParsedKPIs.debtToEquityRatio := NA;
          ParsedKPIs.returnOnInvestment := NA;
          ParsedKPIs.profitMargin := NA |};
     AnalysisResult.risks := VArr [advisory];
     AnalysisResult.opportunities := VArr [advisory];
     AnalysisResult.recommendations := VArr [advisory] |}.

(** [parsed.kpis?.name || 'N/A'] *)
Definition kpi (parsed : value) (name : jsstring) : result value :=
  k <- get parsed (str "kpis") ;;
  v <- getOpt k name ;;
  Ok (or v NA).

(** The [return] statement of the [try] block: the object literal built
    from the parsed response. *)
Definition structure (parsed : value) : result AnalysisResult.t :=
  summary <- get parsed (str "summary") ;;
  revenue <- kpi parsed (str "revenue") ;;
  expenses <- kpi parsed (str "expenses") ;;
  netProfit <- kpi parsed (str "netProfit") ;;
  growthRate <- kpi parsed (str "growthRate") ;;
  totalAssets <- kpi parsed (str "totalAssets") ;;
  totalLiabilities <- kpi parsed (str "totalLiabilities") ;;
  cashFlow <- kpi parsed (str "cashFlow") ;;
  debtToEquityRatio <- kpi parsed (str "debtToEquityRatio") ;;
  returnOnInvestment <- kpi parsed (str "returnOnInvestment") ;;
  profitMargin <- kpi parsed (str "profitMargin") ;;
  risks <- get parsed (str "risks") ;;
  opportunities <- get parsed (str "opportunities") ;;
  recommendations <- get parsed (str "recommendations") ;;
  Ok {| AnalysisResult.summary :=
          or summary (VStr (str "Analysis summary not available"));
        AnalysisResult.kpis :=
          {| ParsedKPIs.revenue := revenue;
             ParsedKPIs.expenses := expenses;
             ParsedKPIs.netProfit := netProfit;
             ParsedKPIs.growthRate := growthRate;
             ParsedKPIs.totalAssets := totalAssets;
             ParsedKPIs.totalLiabilities := totalLiabilities;
             ParsedKPIs.cashFlow := cashFlow;
             ParsedKPIs.debtToEquityRatio := debtToEquityRatio;
             ParsedKPIs.returnOnInvestment := returnOnInvestment;
             ParsedKPIs.profitMargin := profitMargin |};
        AnalysisResult.risks := arrayOrEmpty risks;
        AnalysisResult.opportunities := arrayOrEmpty opportunities;
        AnalysisResult.recommendations := arrayOrEmpty recommendations |}.

(** The object the [return] statement builds from a parsed response that
    is neither [null] nor [undefined]. *)
Definition structured (parsed : value) : AnalysisResult.t :=
  let k := prop parsed (str "kpis") in
  {| AnalysisResult.summary :=
       or (prop parsed (str "summary"))
          (VStr (str "Analysis summary not available"));
     AnalysisResult.kpis :=
       {| ParsedKPIs.revenue := or (prop k (str "revenue")) NA;
          ParsedKPIs.expenses := or (prop k (str "expenses")) NA;
          ParsedKPIs.netProfit := or (prop k (str "netProfit")) NA;
          ParsedKPIs.growthRate := or (prop k (str "growthRate")) NA;
          ParsedKPIs.totalAssets := or (prop k (str "totalAssets")) NA;
          ParsedKPIs.totalLiabilities :=
            or (prop k (str "totalLiabilities")) NA;
          ParsedKPIs.cashFlow := or (prop k (str "cashFlow")) NA;
          ParsedKPIs.debtToEquityRatio :=
            or (prop k (str "debtToEquityRatio")) NA;
          ParsedKPIs.returnOnInvestment :=
            or (prop k (str "returnOnInvestment")) NA;
          ParsedKPIs.profitMargin := or (prop k (str "profitMargin")) NA |};
     AnalysisResult.risks := arrayOrEmpty (prop parsed (str "risks"));
     AnalysisResult.opportunities :=
       arrayOrEmpty (prop parsed (str "opportunities"));
     AnalysisResult.recommendations :=
       arrayOrEmpty (prop parsed (str "recommendations")) |}.

(** The body of the [try] block. *)
Definition tryParse (text : jsstring) : result AnalysisResult.t :=
  jsonStr <- match matchJsonObject text with
             | None => Throw (Error (str "No JSON found in response"))
             | Some m => Ok m
             end ;;
  parsed <- jsonParse jsonStr ;;
  structure parsed.

(** [parseAnalysisResponse]: the [try] block, and the fallback object
    whatever it throws. *)
Definition parseAnalysisResponse (text : jsstring) : AnalysisResult.t :=
  match tryParse text with
  | Ok r => r
  | Throw _ => fallback
  end.

(** The ten KPI names of the prompt's schema, each with the field of the
    result it fills. *)
Definition kpiFields : list (jsstring * (ParsedKPIs.t -> value)) :=
  [ (str "revenue", ParsedKPIs.revenue);
    (str "expenses", ParsedKPIs.expenses);
    (str "netProfit", ParsedKPIs.netProfit);
    (str "growthRate", ParsedKPIs.growthRate);
    (str "totalAssets", ParsedKPIs.totalAssets);
    (str "totalLiabilities", ParsedKPIs.totalLiabilities);
    (str "cashFlow", ParsedKPIs.cashFlow);
    (str "debtToEquityRatio", ParsedKPIs.debtToEquityRatio);
    (str "returnOnInvestment", ParsedKPIs.returnOnInvestment);
    (str "profitMargin", ParsedKPIs.profitMargin) ].

(** A JSON value [k] supplies the KPI record [vals]: under each of the ten
    names it holds the corresponding field of [vals], a non-empty
    string. *)
Definition suppliesKPIs (k : value) (vals : ParsedKPIs.t) : Prop :=
  forall name proj,
    In (name, proj) kpiFields ->
    prop k name = proj vals /\ exists s, proj vals = VStr s /\ s <> [].

(** The result of [validateContent]: [{ isValid, error? }]. *)
Record Validation := {
  isValid : bool;
  error : option jsstring
}.

Definition EmptyContentError : jsstring := str "Content is empty".
Definition ContentTooShortError : jsstring :=
  str "Content too short for meaningful analysis".
Definition ContentTooLongError : jsstring :=
  str "Content too long - please upload a smaller file".

Definition validateContent (content : jsstring) : Validation :=
  if (match content with [] => true | _ => false end)
     || (JS.length (trim content) =? 0)%Z
  then {| isValid := false; error := Some EmptyContentError |}
  else if (JS.length content <? 100)%Z
  then {| isValid := false; error := Some ContentTooShortError |}
  else if (JS.length content >? 100000)%Z
  then {| isValid := false; error := Some ContentTooLongError |}
  else {| isValid := true; error := None |}.

End GeminiAnalysisService.

(* ================================================================== *)
(** * 6. FileParsingService.parseCSV                               *)
(* ================================================================== *)

Module FileParsingService.

Local Open Scope N_scope.

(** [ParsedFileContent], without the extraction timestamp. *)
Record ParsedFileContent := {
  text : jsstring;
  fileName : jsstring;
  fileType : jsstring
}.

(** [text.split('\n').filter(line => line.trim())] *)
Definition nonBlankLines (text : jsstring) : list jsstring :=
  filter (fun line => match trim line with [] => false | _ => true end)
         (split 10 text).

(** [lines[0]?.split(',').map(h => h.trim()) || []] *)
Definition headersOf (lines : list jsstring) : list jsstring :=
  match lines with
  | [] => []
  | l :: _ => map trim (split 44 l)
  end.

(** What one iteration of the row loop appends, for index [i] and
    [lines[i]]: a row, or nothing when the line is blank. *)
Definition rowText (i : nat) (line : jsstring) : list jsstring :=
  match trim line with
  | [] => []
  | t => [str "Row " ++ showZ (Z.of_nat i + 1) ++ str ": " ++ t ++ [10]]
  end.

(** The loop [for (let i = 0; i < maxRows; i++)], from index [i] on, over
    the lines not yet visited: the rows appended, in order. *)
Fixpoint rowLoop (i : nat) (maxRows : nat) (lines : list jsstring)
  : list jsstring :=
  match lines with
  | [] => []
  | line :: rest =>
      if (i <? maxRows)%nat
      then rowText i line ++ rowLoop (S i) maxRows rest
      else []
  end.

(** The three header lines of the extracted text. *)
Definition preamble (name : jsstring) (lines : list jsstring) : jsstring :=
  let extractedText := str "CSV File: " ++ name ++ [10] in
  let extractedText :=
    extractedText ++ str "Headers: " ++ join (str " | ") (headersOf lines)
                  ++ [10] in
  extractedText ++ str "Total Rows: "
                ++ showZ (Z.of_nat (List.length lines) - 1) ++ [10; 10].

(** The truncation notice, appended when [lines.length > 100]. *)
Definition notice (lines : list jsstring) : jsstring :=
  if (100 <? List.length lines)%nat
  then [10] ++ str "... and " ++ showZ (Z.of_nat (List.length lines) - 100)
            ++ str " more rows" ++ [10]
  else [].

(** [parseCSV], from the decoded text of the file on. *)
Definition parseCSV (content : jsstring) (name : jsstring)
  : ParsedFileContent :=
  let lines := nonBlankLines content in
  let extractedText := preamble name lines in
  let maxRows := Nat.min 100 (List.length lines) in
  let extractedText :=
    extractedText ++ List.concat (rowLoop 0 maxRows lines) in
  let extractedText := extractedText ++ notice lines in
  {| text := extractedText; fileName := name; fileType := str "csv" |}.

(** The lines of an extracted text that begin with [Row k:] for a
    decimal number k. *)
Definition isRowLine (line : jsstring) : bool :=
  isPrefix (str "Row ") line &&
  (let '(ds, rest) := span isDigit (skipn 4 line) in
   match ds, rest with
   | _ :: _, 58 :: _ => true
   | _, _ => false
   end).

Definition rowLines (extracted : jsstring) : list jsstring :=
  filter isRowLine (split 10 extracted).

End FileParsingService.

(* ================================================================== *)
(** * 6a. Request authentication, tiers and rate limiting (auth.ts)    *)
(* ================================================================== *)

Module JSStrings.

Local Open Scope N_scope.

(** [s.replace(pattern, replacement)] for a string pattern and a
    replacement without dollar sign: the first occurrence is replaced. *)
Fixpoint replaceFirst (pattern replacement s : jsstring) : jsstring :=
  if isPrefix pattern s then replacement ++ skipn (List.length pattern) s
  else match s with
       | [] => []
       | c :: r => c :: replaceFirst pattern replacement r
       end.

End JSStrings.

(** A row of the [users] table. *)
Module UserProfile.
Record t := {
  id : jsstring;
  email : jsstring;
  name : jsstring;
  role : jsstring;
  subscription_tier : jsstring;
  upload_count : Z
}.
End UserProfile.

Module AuthUser.
Record t := {
  id : jsstring;
  email : jsstring;
  name : jsstring;
  role : jsstring
}.
End AuthUser.

(** The value stored per identifier in [requestCounts]. *)
Module RateRecord.
Record t := {
  count : Z;
  resetTime : Z
}.
End RateRecord.

(** What [checkRateLimit] returns. *)
Module RateLimit.
Record t := {
  allowed : bool;
  remaining : Z;
  resetTime : Z
}.
End RateLimit.

Module Auth.

Local Open Scope Z_scope.

(** [extractToken], on the value of [request.headers.get('authorization')]
    ([None] is [null]). *)
Definition extractToken (authHeader : option jsstring) : option jsstring :=
  match authHeader with
  | None => None
  | Some h =>
      if (match h with [] => true | _ => false end)
         || negb (isPrefix (str "Bearer ") h)
      then None
      else Some (JSStrings.replaceFirst (str "Bearer ") [] h)
  end.

(** What [authenticateRequest] resolves to. *)
Record AuthResult := {
  success : bool;
  user : option AuthUser.t;
  error : option jsstring
}.

(** [requireAdmin] *)
Definition requireAdmin (user : AuthUser.t) : bool :=
  JS.eqb (AuthUser.role user) (str "admin").

(** The type ['free' | 'pro' | 'enterprise']. *)
Inductive Tier := Free | Pro | Enterprise.

Definition tierName (t : Tier) : jsstring :=
  match t with
  | Free => str "free"
  | Pro => str "pro"
  | Enterprise => str "enterprise"
  end.

(** The own key of the object literals [tierLevels] and [limits] a string
    names, if any.  Looking up any other string gives [undefined] or a
    property inherited from [Object.prototype], in both cases not a
    number. *)
Definition ownKey (tier : jsstring) : option Tier :=
  if JS.eqb tier (str "free") then Some Free
  else if JS.eqb tier (str "pro") then Some Pro
  else if JS.eqb tier (str "enterprise") then Some Enterprise
  else None.

(** [tierLevels] *)
Definition tierLevels (t : Tier) : Z :=
  match t with
  | Free => 0
  | Pro => 1
  | Enterprise => 2
  end.

(** [limits] *)
Definition limits (t : Tier) : Z :=
  match t with
  | Free => 3
  | Pro => -1
  | Enterprise => -1
  end.

(** The [limit] field of the answer of [checkUploadLimit]: [Infinity], a
    number, or what [limits[tier]] is for a string that is no own key,
    which is no number. *)
Inductive Limit :=
| Infinity
| Finite (n : Z)
| NoEntry.

Record UploadCheck := {
  canUpload : bool;
  currentCount : Z;
  limit : Limit
}.

Section WithSupabase.

(** [supabase.auth.getUser(token)]: the id of the user, or [None] for an
    error, a missing user or an exception. *)
Variable getUser : jsstring -> option jsstring.

(** [supabase.from('users').select(...).eq('id', id).single()]: the row,
    or [None] for an error, a missing row or an exception. *)
Variable userProfile : jsstring -> option UserProfile.t.

(** [verifyToken] *)
Definition verifyToken (token : jsstring) : option AuthUser.t :=
  match getUser token with
  | None => None
  | Some uid =>
      match userProfile uid with
      | None => None
      | Some p =>
          Some {| AuthUser.id := UserProfile.id p;
                  AuthUser.email := UserProfile.email p;
                  AuthUser.name := UserProfile.name p;
                  AuthUser.role := UserProfile.role p |}
      end
  end.

(** [authenticateRequest], on the authorization header of the request. *)
Definition authenticateRequest (authHeader : option jsstring) : AuthResult :=
  let token := extractToken authHeader in
  match token with
  | None | Some [] =>
      {| success := false; user := None;
         error := Some (str "No authorization token provided") |}
  | Some token =>
      match verifyToken token with
      | None =>
          {| success := false; user := None;
             error := Some (str "Invalid or expired token") |}
      | Some u => {| success := true; user := Some u; error := None |}
      end
  end.

(** [checkSubscriptionTier].  [requiredLevel] is a number; [userLevel] is
    one when the stored tier is an own key of [tierLevels], and otherwise
    [>=] compares a non-number with a number, which is false. *)
Definition checkSubscriptionTier (userId : jsstring) (requiredTier : Tier)
  : bool :=
  match userProfile userId with
  | None => false
  | Some p =>
      let userLevel :=
        option_map tierLevels (ownKey (UserProfile.subscription_tier p)) in
      let requiredLevel := tierLevels requiredTier in
      match userLevel with
      | Some userLevel => userLevel >=? requiredLevel
      | None => false
      end
  end.

(** [checkUploadLimit].  For a stored tier that is no own key of [limits],
    [limit === -1] and [upload_count < limit] are both false. *)
Definition checkUploadLimit (userId : jsstring) : UploadCheck :=
  match userProfile userId with
  | None => {| canUpload := false; currentCount := 0; limit := Finite 0 |}
  | Some p =>
      let limit :=
        option_map limits (ownKey (UserProfile.subscription_tier p)) in
      let canUpload :=
        match limit with
        | Some l => (l =? -1) || (UserProfile.upload_count p <? l)
        | None => false
        end in
      {| canUpload := canUpload;
         currentCount := UserProfile.upload_count p;
         limit := match limit with
                  | Some l => if l =? -1 then Infinity else Finite l
                  | None => NoEntry
                  end |}
  end.

End WithSupabase.

(** ** The rate limiter

    Request counts, limits and times in milliseconds are integers far
    inside the range in which the arithmetic of JavaScript numbers is
    exact; they are integers here. *)

(** [requestCounts], a [Map] from identifier to record, in insertion
    order. *)
Definition Store := list (jsstring * RateRecord.t).

(** [requestCounts.get(k)] *)
Fixpoint get (k : jsstring) (m : Store) : option RateRecord.t :=
  match m with
  | [] => None
  | (k', v) :: r => if JS.eqb k k' then Some v else get k r
  end.

(** [requestCounts.set(k, v)], also the effect of mutating the record
    stored under [k]: an existing key keeps its place. *)
Fixpoint set (k : jsstring) (v : RateRecord.t) (m : Store) : Store :=
  match m with
  | [] => [(k, v)]
  | (k', v') :: r =>
      if JS.eqb k k' then (k, v) :: r else (k', v') :: set k v r
  end.

(** [requestCounts.delete(k)] *)
Fixpoint delete (k : jsstring) (m : Store) : Store :=
  match m with
  | [] => []
  | (k', v) :: r => if JS.eqb k k' then r else (k', v) :: delete k r
  end.

(** The default arguments of [checkRateLimit]. *)
Definition defaultMaxRequests : Z := 100.
Definition defaultWindowMs : Z := 15 * 60 * 1000.

(** [checkRateLimit] at the time [now] = [Date.now()], on the map
    [requestCounts]: the answer and the map afterwards. *)
Definition checkRateLimit (identifier : jsstring) (maxRequests windowMs : Z)
           (now : Z) (requestCounts : Store) : RateLimit.t * Store :=
  let record := get identifier requestCounts in
  match record with
  | Some record =>
      if now >? RateRecord.resetTime record then
        let resetTime := now + windowMs in
        ({| RateLimit.allowed := true;
            RateLimit.remaining := maxRequests - 1;
            RateLimit.resetTime := resetTime |},
         set identifier
             {| RateRecord.count := 1; RateRecord.resetTime := resetTime |}
             requestCounts)
      else if RateRecord.count record >=? maxRequests then
        ({| RateLimit.allowed := false;
            RateLimit.remaining := 0;
            RateLimit.resetTime := RateRecord.resetTime record |},
         requestCounts)
      else
        let count := RateRecord.count record + 1 in
        ({| RateLimit.allowed := true;
            RateLimit.remaining := maxRequests - count;
            RateLimit.resetTime := RateRecord.resetTime record |},
         set identifier
             {| RateRecord.count := count;
                RateRecord.resetTime := RateRecord.resetTime record |}
             requestCounts)
  | None =>
      let resetTime := now + windowMs in
      ({| RateLimit.allowed := true;
          RateLimit.remaining := maxRequests - 1;
          RateLimit.resetTime := resetTime |},
       set identifier
           {| RateRecord.count := 1; RateRecord.resetTime := resetTime |}
           requestCounts)
  end.

(** [cleanupRateLimitRecords] at the time [now]: the loop over the
    entries of the map, deleting the key of every expired record. *)
Definition cleanupRateLimitRecords (now : Z) (requestCounts : Store)
  : Store :=
  fold_left
    (fun m entry =>
       let '(key, record) := entry in
       if now >? RateRecord.resetTime record then delete key m else m)
    requestCounts requestCounts.

(** One call of [checkRateLimit] with its arguments and its time. *)
Record Call := {
  identifier : jsstring;
  maxRequests : Z;
  windowMs : Z;
  at_time : Z
}.

(** A series of calls, each on the map the one before left: the answers
    in order, and the final map. *)
Fixpoint serve (calls : list Call) (requestCounts : Store)
  : list RateLimit.t * Store :=
  match calls with
  | [] => ([], requestCounts)
  | c :: rest =>
      let '(r, m) := checkRateLimit (identifier c) (maxRequests c)
                                    (windowMs c) (at_time c) requestCounts in
      let '(rs, m') := serve rest m in
      (r :: rs, m')
  end.

(** The calls of one client with fixed limits at the given times. *)
Definition requestsAt (id : jsstring) (max window : Z) (times : list Z)
  : list Call :=
  map (fun t => {| identifier := id; maxRequests := max;
                   windowMs := window; at_time := t |}) times.

(** A map has one entry per key. *)
Definition uniqueKeys (m : Store) : Prop := NoDup (map fst m).

(** [cleaned] is [full] without some of the records that had expired by
    the time [now0]. *)
Definition cleanedView (now0 : Z) (cleaned full : Store) : Prop :=
  forall k,
    get k cleaned = get k full
    \/ (get k cleaned = None
        /\ exists r, get k full = Some r /\ RateRecord.resetTime r < now0).

(** How many of the answers let the call through in the window that
    ends at [T]. *)
Definition allowedInWindow (T : Z) (answers : list RateLimit.t) : nat :=
  List.length
    (filter (fun r => RateLimit.allowed r && (RateLimit.resetTime r =? T))
            answers).

(** The answers given to the calls of one identifier. *)
Definition answersTo (id : jsstring) (calls : list Call)
           (answers : list RateLimit.t) : list RateLimit.t :=
  map snd (filter (fun ca => JS.eqb (identifier (fst ca)) id)
                  (combine calls answers)).

End Auth.

(** Sample data for the authentication helpers and the rate limiter. *)
Module AuthSamples.

Local Open Scope Z_scope.

Definition alice : UserProfile.t :=
  {| UserProfile.id := str "u1";
     UserProfile.email := str "alice@example.com";
     UserProfile.name := str "Alice";
     UserProfile.role := str "user";
     UserProfile.subscription_tier := str "free";
     UserProfile.upload_count := 2 |}.

Definition getUser (token : jsstring) : option jsstring :=
  if JS.eqb token (str "tok-1") then Some (str "u1") else None.

Definition userProfile (id : jsstring) : option UserProfile.t :=
  if JS.eqb id (str "u1") then Some alice else None.

(** Two clients calling the upload route, which allows 10 requests per
    minute. *)
Definition traffic : list Auth.Call :=
  [ {| Auth.identifier := str "10.0.0.1"; Auth.maxRequests := 10;
       Auth.windowMs := 60000; Auth.at_time := 1000 |};
    {| Auth.identifier := str "10.0.0.2"; Auth.maxRequests := 10;
       Auth.windowMs := 60000; Auth.at_time := 1200 |};
    {| Auth.identifier := str "10.0.0.1"; Auth.maxRequests := 10;
       Auth.windowMs := 60000; Auth.at_time := 70000 |} ].

End AuthSamples.

(* ================================================================== *)
(** * 6b. FileParsingService: validation, dispatch, PDF and Excel      *)
(* ================================================================== *)

Module FileParsing.

Import FileParsingService GeminiAnalysisService.
Local Open Scope N_scope.

(** What a [File] shows to [validateFile]. *)
Record File := {
  size : Z;
  type : jsstring
}.

(** The result of [validateFile]: [{ isValid, error? }]. *)
Definition maxSize : Z := 10 * 1024 * 1024.

Definition allowedTypes : list jsstring :=
  [ str "application/pdf";
    str "application/vnd.openxmlformats-officedocument.spreadsheetml.sheet";
    str "application/vnd.ms-excel";
    str "text/csv" ].

Definition FileTooLargeError : jsstring :=
  str "File too large. Maximum size is "
      ++ showZ (maxSize / 1024 / 1024) ++ str "MB".

Definition InvalidFileTypeError : jsstring :=
  str "Invalid file type. Only PDF, Excel, and CSV files are supported".

(** [validateFile] *)
Definition validateFile (file : File) : Validation :=
  if (size file >? maxSize)%Z
  then {| isValid := false; error := Some FileTooLargeError |}
  else if negb (existsb (JS.eqb (type file)) allowedTypes)
  then {| isValid := false; error := Some InvalidFileTypeError |}
  else {| isValid := true; error := None |}.

(** [getFileType]: [None] is [null]. *)
Definition getFileType (mimeType : jsstring) : option jsstring :=
  if JS.eqb mimeType (str "application/pdf") then Some (str "pdf")
  else if JS.eqb mimeType
            (str "application/vnd.openxmlformats-officedocument.spreadsheetml.sheet")
          || JS.eqb mimeType (str "application/vnd.ms-excel")
  then Some (str "excel")
  else if JS.eqb mimeType (str "text/csv") then Some (str "csv")
  else None.

(** [ParsedFileContent] with the optional counts of its metadata. *)
Record Parsed := {
  content : ParsedFileContent;
  pageCount : option Z;
  sheetCount : option Z
}.

(** A call that returns, or throws an [Error] with a message. *)
Inductive outcome (A : Type) :=
| Returns (a : A)
| Throws (message : jsstring).
Arguments Returns {A} a.
Arguments Throws {A} message.

(** What a library call may throw: an [Error] or any other value. *)
Inductive Thrown :=
| AnError (message : jsstring)
| NotAnError.

(** [error instanceof Error ? error.message : 'Unknown error'] *)
Definition messageOf (e : Thrown) : jsstring :=
  match e with
  | AnError m => m
  | NotAnError => str "Unknown error"
  end.

(** [parsePDF]: the placeholder text; the bytes of the file are copied
    into a buffer and not read. *)
Definition pdfText (fileName : jsstring) : jsstring :=
  str "PDF content extraction is not fully implemented yet. " ++ [10]
  ++ str "      This is a placeholder for PDF file: " ++ fileName ++ [10]
  ++ str "      " ++ [10]
  ++ str "      Sample financial data for demonstration:" ++ [10]
  ++ str "      Revenue: $1,200,000" ++ [10]
  ++ str "      Expenses: $800,000" ++ [10]
  ++ str "      Net Income: $400,000" ++ [10]
  ++ str "      Total Assets: $2,500,000" ++ [10]
  ++ str "      Total Liabilities: $1,000,000" ++ [10]
  ++ str "      Cash Flow from Operations: $350,000" ++ [10]
  ++ str "      " ++ [10]
  ++ str "      Note: Implement proper PDF parsing using libraries like pdf-parse or PDF.js for production use.".

Section WithLibraries.

(** The bytes of an uploaded file. *)
Variable Bytes : Type.

(** [file.toString('utf-8')] *)
Variable toStringUtf8 : Bytes -> jsstring.

(** A cell of a sheet, and the text [Array.prototype.join] gives it
    (empty for [null] and [undefined]). *)
Variable Cell : Type.
Variable cellText : Cell -> jsstring.

(** A workbook as [parseExcel] reads it: [SheetNames], and for a sheet
    name the array [XLSX.utils.sheet_to_json(workbook.Sheets[name],
    { header: 1 })], whose rows are arrays of cells. *)
Record Workbook := {
  SheetNames : list jsstring;
  sheetRows : jsstring -> list (list Cell)
}.

(** [XLSX.read(buffer, { type: 'buffer' })] *)
Variable XLSX_read : Bytes -> Thrown + Workbook.

Definition parsePDF (file : Bytes) (fileName : jsstring) : outcome Parsed :=
  Returns {| content := {| text := pdfText fileName;
                           FileParsingService.fileName := fileName;
                           fileType := str "pdf" |};
             pageCount := Some 1%Z;
             sheetCount := None |}.

(** What the callback of [jsonData.forEach] appends for the row at
    [rowIndex]. *)
Definition excelRow (rowIndex : nat) (row : list Cell) : jsstring :=
  if (rowIndex <? 50)%nat then
    let rowText := join (str " | ") (map cellText row) in
    match trim rowText with
    | [] => []
    | _ => str "Row " ++ showZ (Z.of_nat rowIndex + 1) ++ str ": "
               ++ rowText ++ [10]
    end
  else [].

(** [jsonData.forEach((row, rowIndex) => ...)], from [rowIndex] on. *)
Fixpoint excelRows (rowIndex : nat) (jsonData : list (list Cell))
  : jsstring :=
  match jsonData with
  | [] => []
  | row :: rest => excelRow rowIndex row ++ excelRows (S rowIndex) rest
  end.

(** What the callback of [sheetNames.forEach] appends for the sheet at
    [index]. *)
Definition excelSheet (workbook : Workbook) (index : nat)
           (sheetName : jsstring) : jsstring :=
  let jsonData := sheetRows workbook sheetName in
  str "Sheet " ++ showZ (Z.of_nat index + 1) ++ str ": " ++ sheetName
      ++ [10]
      ++ str "Rows: " ++ showZ (Z.of_nat (List.length jsonData)) ++ [10]
      ++ excelRows 0 jsonData
      ++ [10].

(** [sheetNames.forEach((sheetName, index) => ...)], from [index] on. *)
Fixpoint excelSheets (workbook : Workbook) (index : nat)
         (sheetNames : list jsstring) : jsstring :=
  match sheetNames with
  | [] => []
  | sheetName :: rest =>
      excelSheet workbook index sheetName
      ++ excelSheets workbook (S index) rest
  end.

Definition excelText (workbook : Workbook) (fileName : jsstring)
  : jsstring :=
  let sheetNames := SheetNames workbook in
  let extractedText := str "Excel Workbook: " ++ fileName ++ [10] in
  let extractedText :=
    extractedText ++ str "Sheets: " ++ join (str ", ") sheetNames
                  ++ [10; 10] in
  extractedText ++ excelSheets workbook 0 sheetNames.

Definition parseExcel (file : Bytes) (fileName : jsstring)
  : outcome Parsed :=
  match XLSX_read file with
  | inl e => Throws (str "Excel parsing failed: " ++ messageOf e)
  | inr workbook =>
      Returns {| content := {| text := excelText workbook fileName;
                               FileParsingService.fileName := fileName;
                               fileType := str "excel" |};
                 pageCount := None;
                 sheetCount :=
                   Some (Z.of_nat (List.length (SheetNames workbook))) |}
  end.

(** [parseCSV], from the bytes of the file. *)
Definition parseCSVFile (file : Bytes) (fileName : jsstring)
  : outcome Parsed :=
  Returns {| content := parseCSV (toStringUtf8 file) fileName;
             pageCount := None;
             sheetCount := None |}.

(** [parseFile]: the [switch], and the [catch] that wraps every error. *)
Definition parseFile (file : Bytes) (fileName fileType : jsstring)
  : outcome Parsed :=
  let attempt :=
    if JS.eqb fileType (str "pdf") then parsePDF file fileName
    else if JS.eqb fileType (str "excel") then parseExcel file fileName
    else if JS.eqb fileType (str "csv") then parseCSVFile file fileName
    else Throws (str "Unsupported file type: " ++ fileType) in
  match attempt with
  | Returns p => Returns p
  | Throws message =>
      Throws (str "Failed to parse " ++ fileType ++ str " file: "
                  ++ message)
  end.

End WithLibraries.

End FileParsing.

(* ================================================================== *)
(** * 6c. From the parsed response to the dashboard                    *)
(* ================================================================== *)

Module Stored.

(** The analysis route stores the summary, KPIs and three lists of the
    parsed response in an analysis record, and the dashboard routes hand
    that record to [generateDashboard].  [resultOf a] is the
    [AnalysisResult] a record [a] holds, as JSON values. *)
Definition ofOptional (s : option jsstring) : value :=
  match s with
  | Some s => VStr s
  | None => VUndefined
  end.

Definition resultOf (a : Analysis.t) : AnalysisResult.t :=
  let k := Analysis.kpis a in
  {| AnalysisResult.summary := VStr (Analysis.summary a);
     AnalysisResult.kpis :=
       {| ParsedKPIs.revenue := VStr (KPIs.revenue k);
          ParsedKPIs.expenses := VStr (KPIs.expenses k);
          ParsedKPIs.netProfit := VStr (KPIs.netProfit k);
          ParsedKPIs.growthRate := VStr (KPIs.growthRate k);
          ParsedKPIs.totalAssets := ofOptional (KPIs.totalAssets k);
          ParsedKPIs.totalLiabilities := ofOptional (KPIs.totalLiabilities k);
          ParsedKPIs.cashFlow := ofOptional (KPIs.cashFlow k);
          ParsedKPIs.debtToEquityRatio :=
            ofOptional (KPIs.debtToEquityRatio k);
          ParsedKPIs.returnOnInvestment :=
            ofOptional (KPIs.returnOnInvestment k);
          ParsedKPIs.profitMargin := ofOptional (KPIs.profitMargin k) |};
     AnalysisResult.risks := VArr (map VStr (Analysis.risks a));
     AnalysisResult.opportunities :=
       VArr (map VStr (Analysis.opportunities a));
     AnalysisResult.recommendations :=
       VArr (map VStr (Analysis.recommendations a)) |}.

End Stored.

(* ================================================================== *)
(** * 6d. KPI values with letters appended, and what a dashboard plots *)
(* ================================================================== *)

(** One string per KPI, to be appended to its value: a magnitude suffix
    such as K, M or B, or nothing. *)
Module Suffixes.
Record t := {
  revenue : jsstring;
  expenses : jsstring;
  netProfit : jsstring;
  growthRate : jsstring;
  totalAssets : jsstring;
  totalLiabilities : jsstring;
  cashFlow : jsstring;
  debtToEquityRatio : jsstring;
  returnOnInvestment : jsstring;
  profitMargin : jsstring
}.
End Suffixes.

Module Suffixed.

Import DashboardService.

(** An optional KPI with a suffix; an undefined KPI stays undefined. *)
Definition appendTo (value : option jsstring) (suffix : jsstring)
  : option jsstring :=
  match value with
  | Some v => Some (v ++ suffix)
  | None => None
  end.

Definition withSuffixes (k : KPIs.t) (s : Suffixes.t) : KPIs.t :=
  {| KPIs.revenue := KPIs.revenue k ++ Suffixes.revenue s;
     KPIs.expenses := KPIs.expenses k ++ Suffixes.expenses s;
     KPIs.netProfit := KPIs.netProfit k ++ Suffixes.netProfit s;
     KPIs.growthRate := KPIs.growthRate k ++ Suffixes.growthRate s;
     KPIs.totalAssets :=
       appendTo (KPIs.totalAssets k) (Suffixes.totalAssets s);
     KPIs.totalLiabilities :=
       appendTo (KPIs.totalLiabilities k) (Suffixes.totalLiabilities s);
     KPIs.cashFlow := appendTo (KPIs.cashFlow k) (Suffixes.cashFlow s);
     KPIs.debtToEquityRatio :=
       appendTo (KPIs.debtToEquityRatio k) (Suffixes.debtToEquityRatio s);
     KPIs.returnOnInvestment :=
       appendTo (KPIs.returnOnInvestment k) (Suffixes.returnOnInvestment s);
     KPIs.profitMargin :=
       appendTo (KPIs.profitMargin k) (Suffixes.profitMargin s) |}.

(** The analysis with its KPI values suffixed. *)
Definition suffixed (a : Analysis.t) (s : Suffixes.t) : Analysis.t :=
  {| Analysis.id := Analysis.id a;
     Analysis.fileId := Analysis.fileId a;
     Analysis.summary := Analysis.summary a;
     Analysis.kpis := withSuffixes (Analysis.kpis a) s;
     Analysis.risks := Analysis.risks a;
     Analysis.opportunities := Analysis.opportunities a;
     Analysis.recommendations := Analysis.recommendations a |}.

(** A suffix of letters on a KPI read with [extractNumericValue], or with
    [extractPercentageValue]: nothing, or letters after a value that
    extracts to a number. *)
Definition numericSuffix (value : option jsstring) (suffix : jsstring)
  : Prop :=
  forallb isLetter suffix = true
  /\ (suffix = [] \/ extractNumericValue value <> None).

Definition percentSuffix (value : option jsstring) (suffix : jsstring)
  : Prop :=
  forallb isLetter suffix = true
  /\ (suffix = [] \/ extractPercentageValue value <> None).

Definition admissible (k : KPIs.t) (s : Suffixes.t) : Prop :=
  numericSuffix (Some (KPIs.revenue k)) (Suffixes.revenue s)
  /\ numericSuffix (Some (KPIs.expenses k)) (Suffixes.expenses s)
  /\ numericSuffix (Some (KPIs.netProfit k)) (Suffixes.netProfit s)
  /\ percentSuffix (Some (KPIs.growthRate k)) (Suffixes.growthRate s)
  /\ numericSuffix (KPIs.totalAssets k) (Suffixes.totalAssets s)
  /\ numericSuffix (KPIs.totalLiabilities k) (Suffixes.totalLiabilities s)
  /\ numericSuffix (KPIs.cashFlow k) (Suffixes.cashFlow s)
  /\ numericSuffix (KPIs.debtToEquityRatio k)
                   (Suffixes.debtToEquityRatio s)
  /\ percentSuffix (KPIs.returnOnInvestment k)
                   (Suffixes.returnOnInvestment s)
  /\ percentSuffix (KPIs.profitMargin k) (Suffixes.profitMargin s).

(** What a chart plots: for each entry its label and its [value] (a
    count as the number it is). *)
Definition plotted (d : Datum) : jsstring * option number :=
  match d with
  | CategoryDatum label value _ => (label, value)
  | NameDatum label value _ => (label, value)
  | MetricDatum label value _ => (label, value)
  | CountDatum label value _ => (label, Some (ofZ value))
  end.

Definition chartValues (c : ChartData.t)
  : jsstring * list (jsstring * option number) :=
  (ChartData.title c, map plotted (ChartData.data c)).

(** What the rules decide for an insight. *)
Definition verdict (i : Insight.t) : jsstring * InsightType * Importance :=
  (Insight.id i, Insight.type i, Insight.importance i).

End Suffixed.

(* ================================================================== *)
(** * 6e. The dashboard service and the state of the host             *)
(* ================================================================== *)

(** What a function of this application can read or change besides its
    arguments: the clock behind [Date], the module-level map
    [requestCounts] of the rate limiter, and the formatters of the host. *)
Module Host.

Record t := {
  (** [Date.now()], in milliseconds *)
  clock : Z;
  (** [Date.prototype.toISOString], on a time value *)
  toISOString : Z -> jsstring;
  (** the map [requestCounts] *)
  requestCounts : Auth.Store;
  (** [new Intl.NumberFormat('en-US', { style: 'currency', currency:
      'USD', notation: 'compact' }).format] *)
  compactCurrency : number -> jsstring
}.

(** A computation that runs on the host: its result and the host
    afterwards. *)
Definition M (A : Type) : Type := t -> A * t.

Definition ret {A} (a : A) : M A := fun h => (a, h).

Definition bind {A B} (m : M A) (k : A -> M B) : M B :=
  fun h => let '(a, h') := m h in k a h'.

(** [new Date().toISOString()] *)
Definition Date_now_toISOString : M jsstring :=
  fun h => (toISOString h (clock h), h).

(** [new Intl.NumberFormat(...).format(value)] *)
Definition Intl_NumberFormat_format (value : number) : M jsstring :=
  fun h => (compactCurrency h value, h).

(** [checkRateLimit], on the map of the host. *)
Definition checkRateLimit (identifier : jsstring) (maxRequests windowMs : Z)
  : M RateLimit.t :=
  fun h =>
    let '(answer, m) :=
      Auth.checkRateLimit identifier maxRequests windowMs (clock h)
                          (requestCounts h) in
    (answer, {| clock := clock h; toISOString := toISOString h;
                requestCounts := m;
                compactCurrency := compactCurrency h |}).

End Host.

(** [DashboardService] with every call into the host written out. *)
Module DashboardServiceOnHost.

Import DashboardService.
Local Open Scope N_scope.

Notation "x <- m ;; k" := (Host.bind m (fun x => k))
  (at level 61, m at next level, right associativity).

(** [formatCurrency] *)
Definition formatCurrency (value : number) : Host.M jsstring :=
  Host.Intl_NumberFormat_format value.

(** [generateChartData]: the pushes onto [charts], in order; the pie
    chart is the one that needs the formatter. *)
Definition generateChartData (analysis : Analysis.t)
  : Host.M (list ChartData.t) :=
  let charts : list ChartData.t := [] in
  let kpis := Analysis.kpis analysis in
  let charts := charts ++ [financialOverview kpis] in
  charts <-
    (if isNotNA (KPIs.totalAssets kpis)
        && isNotNA (KPIs.totalLiabilities kpis)
     then
       let assetValue := extractNumericValue (KPIs.totalAssets kpis) in
       let liabilityValue :=
         extractNumericValue (KPIs.totalLiabilities kpis) in
       let equity := sub (toNumber assetValue) (toNumber liabilityValue) in
       if gt (toNumber assetValue) zero then
         formatted <- formatCurrency equity ;;
         Host.ret
           (charts ++
            [ {| ChartData.type := ChartData.pie;
                 ChartData.title := str "Balance Sheet Composition";
                 ChartData.data :=
                   [ NameDatum (str "Assets") assetValue
                       (KPIs.totalAssets kpis);
                     NameDatum (str "Liabilities") liabilityValue
                       (KPIs.totalLiabilities kpis);
                     NameDatum (str "Equity") (Some (Math_max zero equity))
                       (Some formatted) ];
                 ChartData.xAxisKey := None;
                 ChartData.yAxisKey := None;
                 ChartData.dataKey := Some (str "value") |} ])
       else Host.ret charts
     else Host.ret charts) ;;
  let charts :=
    if (0 <? List.length (ChartData.data (performanceMetrics kpis)))%nat
    then charts ++ [performanceMetrics kpis] else charts in
  let charts := charts ++ [riskOpportunityData analysis] in
  Host.ret charts.

(** [generateInsights] calls nothing of the host. *)
Definition generateInsights (analysis : Analysis.t)
  : Host.M (list Insight.t) :=
  Host.ret (DashboardService.generateInsights analysis).

(** [generateDashboard] *)
Definition generateDashboard (analysis : Analysis.t)
  : Host.M DashboardGenerationResult :=
  chartData <- generateChartData analysis ;;
  insights <- generateInsights analysis ;;
  Host.ret {| chartData := chartData; insights := insights |}.

(** The [metadata] of the export data. *)
Record Metadata := {
  generatedAt : jsstring;
  analysisId : jsstring;
  dashboardId : jsstring
}.

(** What [generateExportData] returns. *)
Record ExportData := {
  title : jsstring;
  summary : jsstring;
  kpis : KPIs.t;
  charts : list ChartData.t;
  exportInsights : list Insight.t;
  risks : list jsstring;
  opportunities : list jsstring;
  recommendations : list jsstring;
  metadata : Metadata
}.

(** [generateExportData], on the id, charts and insights of the stored
    dashboard: the one function of the class that reads the clock. *)
Definition generateExportData (analysis : Analysis.t)
           (dashboard_id : jsstring)
           (dashboard : DashboardGenerationResult) : Host.M ExportData :=
  generatedAt <- Host.Date_now_toISOString ;;
  Host.ret
    {| title := str "Financial Analysis Report";
       summary := Analysis.summary analysis;
       kpis := Analysis.kpis analysis;
       charts := chartData dashboard;
       exportInsights := insights dashboard;
       risks := Analysis.risks analysis;
       opportunities := Analysis.opportunities analysis;
       recommendations := Analysis.recommendations analysis;
       metadata := {| generatedAt := generatedAt;
                      analysisId := Analysis.id analysis;
                      dashboardId := dashboard_id |} |}.

End DashboardServiceOnHost.

(* ================================================================== *)
(** * 7. Sample inputs                                             *)
(* ================================================================== *)

Module Samples.

(** A stand-in for the host's compact currency formatter. *)
Definition plainCurrency (x : number) : jsstring :=
  match x with
  | S754_finite true _ _ | S754_infinity true => str "-$"
  | _ => str "$"
  end.

Definition kpis : KPIs.t :=
  {| KPIs.revenue := str "$1,200,000";
     KPIs.expenses := str "$800,000";
     KPIs.netProfit := str "$400,000";
     KPIs.growthRate := str "15%";
     KPIs.totalAssets := Some (str "$500,000");
     KPIs.totalLiabilities := Some (str "$200,000");
     KPIs.cashFlow := Some (str "(500)");
     KPIs.debtToEquityRatio := Some (str "0.4");
     KPIs.returnOnInvestment := None;
     KPIs.profitMargin := Some (str "N/A") |}.

Definition analysis : Analysis.t :=
  {| Analysis.id := str "a-1";
     Analysis.fileId := str "f-1";
     Analysis.summary := str "S";
     Analysis.kpis := kpis;
     Analysis.risks := [str "a"];
     Analysis.opportunities := [];
     Analysis.recommendations := [str "b"] |}.

(** The JSON object the prompt asks for: what stands between its braces,
    and the object itself. *)
Definition jsonBody : jsstring :=
  strq "'summary':'S','kpis':{'revenue':'$1M','expenses':'$2','netProfit':'$3','growthRate':'4%','totalAssets':'$5','totalLiabilities':'$6','cashFlow':'$7','debtToEquityRatio':'0.8','returnOnInvestment':'9%','profitMargin':'10%'},'risks':['a'],'opportunities':[],'recommendations':['b']".

Definition json : jsstring := str "{" ++ jsonBody ++ str "}".

(** A model response: the object wrapped in prose. *)
Definition response : jsstring :=
  str "Here is the analysis: " ++ str "{" ++ jsonBody ++ str "}"
      ++ str " Hope this helps.".

(** The same object followed by a remark that itself contains braces. *)
Definition responseWithBracedNote : jsstring :=
  str "Here is the analysis: " ++ json
      ++ str " (figures in {braces} are estimates)".

(** The KPI values of [json]. *)
Definition jsonKPIs : ParsedKPIs.t :=
  {| ParsedKPIs.revenue := VStr (str "$1M");
     ParsedKPIs.expenses := VStr (str "$2");
     ParsedKPIs.netProfit := VStr (str "$3");
     ParsedKPIs.growthRate := VStr (str "4%");
     ParsedKPIs.totalAssets := VStr (str "$5");
     ParsedKPIs.totalLiabilities := VStr (str "$6");
     ParsedKPIs.cashFlow := VStr (str "$7");
     ParsedKPIs.debtToEquityRatio := VStr (str "0.8");
     ParsedKPIs.returnOnInvestment := VStr (str "9%");
     ParsedKPIs.profitMargin := VStr (str "10%") |}.

(** An object whose expenses KPI is the empty string. *)
Definition jsonEmptyExpenses : jsstring :=
  strq "{'summary':'S','kpis':{'revenue':'$1M','expenses':'','netProfit':'$3','growthRate':'4%','totalAssets':'$5','totalLiabilities':'$6','cashFlow':'$7','debtToEquityRatio':'0.8','returnOnInvestment':'9%','profitMargin':'10%'},'risks':['a'],'opportunities':[],'recommendations':['b']}".


(** A CSV file of a header line and one data row. *)
Definition csv : jsstring := str "a,b" ++ [10%N] ++ str "1,2" ++ [10%N].

(** A CSV file of the header line [id] and the 100 data rows 1 to 100. *)
Definition csv100 : jsstring :=
  str "id" ++ [10%N]
      ++ List.concat (map (fun i => showZ (Z.of_nat i) ++ [10%N]) (seq 1 100)).

End Samples.

(* ================================================================== *)
(** * 7a. Further sample inputs                                        *)
(* ================================================================== *)

Module MoreSamples.

(** [Samples.analysis] with another growth rate, debt-to-equity ratio and
    list of risks. *)
Definition analysisWith (growthRate : jsstring)
           (debtToEquityRatio : option jsstring) (risks : list jsstring)
  : Analysis.t :=
  {| Analysis.id := str "a-2";
     Analysis.fileId := str "f-1";
     Analysis.summary := str "S";
     Analysis.kpis :=
       {| KPIs.revenue := str "$1,200,000";
          KPIs.expenses := str "$800,000";
          KPIs.netProfit := str "$400,000";
          KPIs.growthRate := growthRate;
          KPIs.totalAssets := Some (str "$500,000");
          KPIs.totalLiabilities := Some (str "$200,000");
          KPIs.cashFlow := Some (str "(500)");
          KPIs.debtToEquityRatio := debtToEquityRatio;
          KPIs.returnOnInvestment := None;
          KPIs.profitMargin := Some (str "N/A") |};
     Analysis.risks := risks;
     Analysis.opportunities := [str "o"];
     Analysis.recommendations := [str "b"] |}.

(** Slow growth, a leverage between 1 and 1.5, four risks. *)
Definition cautious : Analysis.t :=
  analysisWith (str "3%") (Some (str "1.2"))
               [str "a"; str "b"; str "c"; str "d"].

(** The record stored for a response that could not be read. *)
Definition unreadable : Analysis.t :=
  {| Analysis.id := str "a-3";
     Analysis.fileId := str "f-1";
     Analysis.summary :=
       str "Unable to generate detailed analysis. Please try again or contact support.";
     Analysis.kpis :=
       {| KPIs.revenue := str "N/A";
          KPIs.expenses := str "N/A";
          KPIs.netProfit := str "N/A";
          KPIs.growthRate := str "N/A";
          KPIs.totalAssets := Some (str "N/A");
          KPIs.totalLiabilities := Some (str "N/A");
          KPIs.cashFlow := Some (str "N/A");
          KPIs.debtToEquityRatio := Some (str "N/A");
          KPIs.returnOnInvestment := Some (str "N/A");
          KPIs.profitMargin := Some (str "N/A") |};
     Analysis.risks :=
       [str "Analysis unavailable - please review the report manually"];
     Analysis.opportunities :=
       [str "Analysis unavailable - please review the report manually"];
     Analysis.recommendations :=
       [str "Analysis unavailable - please review the report manually"] |}.

(** An analysis whose amounts are written with K, M and B. *)
Definition abbreviated : Analysis.t :=
  {| Analysis.id := str "a-4";
     Analysis.fileId := str "f-1";
     Analysis.summary := str "S";
     Analysis.kpis :=
       {| KPIs.revenue := str "$1.2M";
          KPIs.expenses := str "$800K";
          KPIs.netProfit := str "$400K";
          KPIs.growthRate := str "15%";
          KPIs.totalAssets := Some (str "$2.5B");
          KPIs.totalLiabilities := Some (str "$900M");
          KPIs.cashFlow := Some (str "$350K");
          KPIs.debtToEquityRatio := Some (str "0.4");
          KPIs.returnOnInvestment := Some (str "12%");
          KPIs.profitMargin := Some (str "33%") |};
     Analysis.risks := [str "a"];
     Analysis.opportunities := [];
     Analysis.recommendations := [str "b"] |}.

(** The same amounts without the letters, and the letters. *)
Definition unabbreviated : Analysis.t :=
  {| Analysis.id := str "a-4";
     Analysis.fileId := str "f-1";
     Analysis.summary := str "S";
     Analysis.kpis :=
       {| KPIs.revenue := str "$1.2";
          KPIs.expenses := str "$800";
          KPIs.netProfit := str "$400";
          KPIs.growthRate := str "15%";
          KPIs.totalAssets := Some (str "$2.5");
          KPIs.totalLiabilities := Some (str "$900");
          KPIs.cashFlow := Some (str "$350");
          KPIs.debtToEquityRatio := Some (str "0.4");
          KPIs.returnOnInvestment := Some (str "12%");
          KPIs.profitMargin := Some (str "33%") |};
     Analysis.risks := [str "a"];
     Analysis.opportunities := [];
     Analysis.recommendations := [str "b"] |}.

Definition magnitudes : Suffixes.t :=
  {| Suffixes.revenue := str "M";
     Suffixes.expenses := str "K";
     Suffixes.netProfit := str "K";
     Suffixes.growthRate := [];
     Suffixes.totalAssets := str "B";
     Suffixes.totalLiabilities := str "M";
     Suffixes.cashFlow := str "K";
     Suffixes.debtToEquityRatio := [];
     Suffixes.returnOnInvestment := [];
     Suffixes.profitMargin := [] |}.

(** Two hosts that differ in the clock and in the map of the rate
    limiter. *)
Definition host (now : Z) (requestCounts : Auth.Store) : Host.t :=
  {| Host.clock := now;
     Host.toISOString := showZ;
     Host.requestCounts := requestCounts;
     Host.compactCurrency := Samples.plainCurrency |}.

End MoreSamples.

Module FileSamples.

Import FileParsing.

(** A CSV upload of 2 KB. *)
Definition csvFile : File := {| size := 2048; type := str "text/csv" |}.

(** Stand-ins for the libraries: bytes are code units, a cell is its text,
    and no buffer is a workbook. *)
Definition noWorkbook (file : jsstring) : Thrown + Workbook jsstring :=
  inl (AnError (str "File is password-protected")).

(** A sheet of 51 rows with one cell each, the last one being [cell]. *)
Definition tallWorkbook (cell : jsstring) : Workbook jsstring :=
  {| SheetNames := [str "Q1"];
     sheetRows := fun _ => List.repeat [str "x"] 50 ++ [[cell]] |}.

End FileSamples.

(* ================================================================== *)
(** * 8. Facts about strings and parseFloat                        *)
(* ================================================================== *)

Module JSFacts.

Local Open Scope N_scope.

Lemma eqb_eq (a b : jsstring) : JS.eqb a b = true <-> a = b.
Proof.
  revert b; induction a as [|x a IH]; intros [|y b]; simpl;
    try (split; [discriminate | congruence]); [tauto|].
  rewrite andb_true_iff, N.eqb_eq, IH.
  split; [intros [-> ->]; reflexivity | intros H; inversion H; auto].
Qed.

Lemma eqb_refl (a : jsstring) : JS.eqb a a = true.
Proof. apply eqb_eq; reflexivity. Qed.

Lemma eqb_neq (a b : jsstring) : JS.eqb a b = false <-> a <> b.
Proof.
  rewrite <- eqb_eq. destruct (JS.eqb a b); split; congruence.
Qed.

Lemma dropWhile_app_cons p s l c t :
  dropWhile p s = c :: t -> dropWhile p (s ++ l) = c :: t ++ l.
Proof.
  induction s as [|a s IH]; simpl; [discriminate|].
  destruct (p a); [exact IH|].
  intros H; inversion H; subst; reflexivity.
Qed.

Lemma span_app_stop p s l :
  (forall x, In x l -> p x = false) ->
  span p (s ++ l) = (fst (span p s), snd (span p s) ++ l).
Proof.
  intros Hl. induction s as [|a s IH]; simpl.
  - destruct l as [|x l]; simpl; [reflexivity|].
    rewrite (Hl x) by (left; reflexivity). reflexivity.
  - destruct (p a); [|reflexivity].
    rewrite IH. destruct (span p s); reflexivity.
Qed.

Lemma span_stop_head p x l : p x = false -> span p (x :: l) = ([], x :: l).
Proof. intros H; simpl; rewrite H; reflexivity. Qed.

Lemma isPrefix_app p s l : isPrefix p s = true -> isPrefix p (s ++ l) = true.
Proof.
  revert s; induction p as [|a p IH]; intros [|b s]; simpl; auto;
    [discriminate|].
  rewrite !andb_true_iff; intros [H1 H2]; auto.
Qed.

Lemma remove_app p a b : remove p (a ++ b) = remove p a ++ remove p b.
Proof. apply filter_app. Qed.

Lemma remove_none p l :
  (forall x, In x l -> p x = false) -> remove p l = l.
Proof.
  induction l as [|x l IH]; simpl; intros H; [reflexivity|].
  rewrite (H x) by (left; reflexivity); simpl.
  rewrite IH; [reflexivity | intros y Hy; apply H; right; exact Hy].
Qed.


Lemma includes_app c a b : includes c (a ++ b) = includes c a || includes c b.
Proof. apply existsb_app. Qed.

Lemma includes_none c l :
  (forall x, In x l -> x <> c) -> includes c l = false.
Proof.
  induction l as [|x l IH]; simpl; intros H; [reflexivity|].
  rewrite IH by (intros y Hy; apply H; right; exact Hy).
  rewrite orb_false_r. apply N.eqb_neq. intros ->.
  apply (H x); [left|]; reflexivity.
Qed.

(** *** Letters are neither digits nor any other character that
        [parseFloat] or the cleaning expressions look at *)

Ltac letter_facts :=
  unfold isLetter, isDigit, isWhiteSpace;
  rewrite orb_true_iff, !andb_true_iff, !N.leb_le; intros H;
  rewrite ?orb_false_iff, ?andb_false_iff, ?N.eqb_neq, ?N.leb_gt; lia.

Lemma letter_not_digit c : isLetter c = true -> isDigit c = false.
Proof. letter_facts. Qed.

Lemma letter_not_space c : isLetter c = true -> isWhiteSpace c = false.
Proof. letter_facts. Qed.

Lemma letter_neq c (k : N) :
  isLetter c = true -> k < 65 -> (c =? k) = false.
Proof.
  unfold isLetter.
  rewrite orb_true_iff, !andb_true_iff, !N.leb_le, N.eqb_neq; lia.
Qed.

Lemma takeSign_letter x l :
  isLetter x = true -> takeSign (x :: l) = (false, x :: l).
Proof.
  intros H; unfold takeSign.
  rewrite !(letter_neq _ H) by lia. reflexivity.
Qed.

Lemma takeSign_app s l :
  s <> [] ->
  takeSign (s ++ l) = (fst (takeSign s), snd (takeSign s) ++ l).
Proof.
  destruct s as [|c r]; [congruence|]; intros _; simpl.
  destruct (c =? 45); [reflexivity|].
  destruct (c =? 43); reflexivity.
Qed.

(** *** Trailing letters never extend a decimal literal *)

Section TrailingLetters.

Variable l : jsstring.
Hypothesis letters : forall x, In x l -> isLetter x = true.

Let not_digits : forall x, In x l -> isDigit x = false.
Proof. intros x Hx; apply letter_not_digit, letters, Hx. Qed.

Lemma exponentPart_letters : exponentPart l = 0%Z.
Proof.
  destruct l as [|x l'] eqn:El; [reflexivity|]. simpl.
  destruct ((x =? 101) || (x =? 69)); [|reflexivity].
  destruct l' as [|y l'']; [reflexivity|].
  rewrite takeSign_letter by (apply letters; right; left; reflexivity).
  rewrite span_stop_head by (apply not_digits; right; left; reflexivity).
  reflexivity.
Qed.

Lemma takeSign_letters : takeSign l = (false, l).
Proof.
  destruct l as [|x l'] eqn:El; [reflexivity|].
  apply takeSign_letter, letters; left; reflexivity.
Qed.

Lemma span_digits_letters : fst (span isDigit l) = [].
Proof.
  destruct l as [|x l'] eqn:El; [reflexivity|].
  rewrite span_stop_head by (apply not_digits; left; reflexivity).
  reflexivity.
Qed.

Lemma exponentPart_app_letters r :
  exponentPart (r ++ l) = exponentPart r.
Proof.
  destruct r as [|c r]; [exact exponentPart_letters|]. simpl.
  destruct ((c =? 101) || (c =? 69)); [|reflexivity].
  destruct r as [|d r'].
  - simpl app. rewrite takeSign_letters, span_digits_letters.
    reflexivity.
  - rewrite takeSign_app by discriminate.
    destruct (takeSign (d :: r')) as [sg r3]. simpl fst; simpl snd.
    rewrite span_app_stop by exact not_digits. reflexivity.
Qed.

Lemma fractionPart_app_letters r :
  fractionPart (r ++ l)
  = (fst (fractionPart r), snd (fractionPart r) ++ l).
Proof.
  destruct r as [|c r]; simpl.
  - destruct l as [|x l'] eqn:El; [reflexivity|]. simpl.
    rewrite (@letter_neq x 46) by
      (try lia; apply letters; left; reflexivity).
    reflexivity.
  - destruct (c =? 46); [|reflexivity].
    apply span_app_stop, not_digits.
Qed.

Lemma strDecimalLiteral_app_letters sign s :
  isNaN (strDecimalLiteral sign s) = false ->
  strDecimalLiteral sign (s ++ l) = strDecimalLiteral sign s.
Proof.
  unfold strDecimalLiteral.
  destruct (isPrefix (str "Infinity") s) eqn:Ei.
  - intros _. rewrite isPrefix_app by exact Ei. reflexivity.
  - rewrite span_app_stop by exact not_digits.
    destruct (span isDigit s) as [ip r1] eqn:Es. simpl fst; simpl snd.
    rewrite fractionPart_app_letters.
    destruct (fractionPart r1) as [fp r2] eqn:Ef. simpl fst; simpl snd.
    rewrite exponentPart_app_letters.
    intros Hnan.
    assert (Hi : isPrefix (str "Infinity") (s ++ l) = false).
    { destruct s as [|c r].
      - simpl in Es. inversion Es; subst. simpl in Ef.
        inversion Ef; subst. discriminate Hnan.
      - change (isPrefix (str "Infinity") ((c :: r) ++ l))
          with ((73 =? c) && isPrefix (str "nfinity") (r ++ l)).
        destruct (73 =? c) eqn:Ec; [|reflexivity].
        apply N.eqb_eq in Ec; subst c.
        simpl in Es. inversion Es; subst. simpl in Ef.
        inversion Ef; subst. discriminate Hnan. }
    rewrite Hi. reflexivity.
Qed.

Lemma parseFloat_app_letters s :
  isNaN (parseFloat s) = false -> parseFloat (s ++ l) = parseFloat s.
Proof.
  unfold parseFloat, trimStart.
  destruct (dropWhile isWhiteSpace s) as [|c t] eqn:E.
  - intros H; discriminate H.
  - rewrite (dropWhile_app_cons _ _ l E).
    change (c :: t ++ l) with ((c :: t) ++ l).
    rewrite takeSign_app by discriminate.
    destruct (takeSign (c :: t)) as [sg s1]. simpl fst; simpl snd.
    apply strDecimalLiteral_app_letters.
Qed.

End TrailingLetters.

End JSFacts.

(* ================================================================== *)
(** * 9. Facts about JSON.parse                                    *)
(* ================================================================== *)

Module JSONFacts.

Import JSON.
Local Open Scope N_scope.

(** The lexer only ever adds tokens to those it has accumulated. *)
Lemma lex_extends (n : nat) :
  forall s m acc toks,
    (List.length s <= n)%nat ->
    lex m acc s = Some toks ->
    exists t, toks = rev acc ++ t.
Proof.
  assert (base : forall m acc toks,
             lex m acc [] = Some toks -> exists t, toks = rev acc ++ t).
  { intros m acc toks H. destruct m; cbn [lex] in H.
    - injection H as <-. exists []. rewrite app_nil_r. reflexivity.
    - discriminate H.
    - destruct (numberToken (rev acc0)); [|discriminate H].
      injection H as <-. eexists. reflexivity. }
  induction n as [|n IH]; intros s m acc toks Hlen H.
  - destruct s; [exact (base _ _ _ H) | simpl in Hlen; lia].
  - destruct s as [|c r]; [exact (base _ _ _ H)|].
    cbn [List.length] in Hlen.
    assert (step : forall m' acc' r' t0,
               (List.length r' <= List.length r)%nat ->
               rev acc' = rev acc ++ t0 ->
               lex m' acc' r' = Some toks ->
               exists t, toks = rev acc ++ t).
    { intros m' acc' r' t0 Hr Hacc H'.
      apply IH in H'; [|lia]. destruct H' as [t ->].
      rewrite Hacc, <- app_assoc. eexists. reflexivity. }
    cbn [lex] in H. destruct m.
    + destruct (isJSONWhiteSpace c).
      { apply (step _ _ _ [] (le_n _)) in H; [exact H|].
        rewrite app_nil_r. reflexivity. }
      destruct (punct c) as [t0|].
      { apply (step _ _ _ [t0] (le_n _)) in H; [exact H | reflexivity]. }
      destruct (c =? 34).
      { apply (step _ _ _ [] (le_n _)) in H; [exact H|].
        rewrite app_nil_r. reflexivity. }
      destruct ((c =? 45) || isDigit c).
      { apply (step _ _ _ [] (le_n _)) in H; [exact H|].
        rewrite app_nil_r. reflexivity. }
      destruct (c =? 116).
      { destruct r as [|c1 [|c2 [|c3 r']]]; try discriminate H.
        destruct (_ && _); [|discriminate H].
        apply (step _ _ _ [TTrue]) in H;
          [exact H | cbn [List.length]; lia | reflexivity]. }
      destruct (c =? 102).
      { destruct r as [|c1 [|c2 [|c3 [|c4 r']]]]; try discriminate H.
        destruct (_ && _); [|discriminate H].
        apply (step _ _ _ [TFalse]) in H;
          [exact H | cbn [List.length]; lia | reflexivity]. }
      destruct (c =? 110); [|discriminate H].
      destruct r as [|c1 [|c2 [|c3 r']]]; try discriminate H.
      destruct (_ && _); [|discriminate H].
      apply (step _ _ _ [TNull]) in H;
        [exact H | cbn [List.length]; lia | reflexivity].
    + destruct (c =? 34).
      { apply (step _ _ _ [TString (rev acc0)] (le_n _)) in H;
          [exact H | reflexivity]. }
      destruct (c =? 92).
      { destruct r as [|e r']; [discriminate H|].
        destruct (e =? 117).
        - destruct r' as [|h1 [|h2 [|h3 [|h4 r'']]]]; try discriminate H.
          destruct (hex4 h1 h2 h3 h4); [|discriminate H].
          apply (step _ _ _ []) in H;
            [exact H | cbn [List.length]; lia
             | rewrite app_nil_r; reflexivity].
        - destruct (escape e); [|discriminate H].
          apply (step _ _ _ []) in H;
            [exact H | cbn [List.length]; lia
             | rewrite app_nil_r; reflexivity]. }
      destruct (c <? 32); [discriminate H|].
      apply (step _ _ _ [] (le_n _)) in H; [exact H|].
      rewrite app_nil_r. reflexivity.
    + destruct (isNumChar c).
      { apply (step _ _ _ [] (le_n _)) in H; [exact H|].
        rewrite app_nil_r. reflexivity. }
      destruct (numberToken (rev acc0)) as [x|]; [|discriminate H].
      destruct (isJSONWhiteSpace c).
      { apply (step _ _ _ [TNumber x] (le_n _)) in H;
          [exact H | reflexivity]. }
      destruct (punct c) as [t0|]; [|discriminate H].
      apply (step _ _ _ [TNumber x; t0] (le_n _)) in H; [exact H|].
      cbn [rev]. rewrite <- app_assoc. reflexivity.
Qed.

(** A text that starts with an opening brace lexes, if at all, to tokens
    that start with [TLBrace]. *)
Lemma lex_brace_first s toks :
  lex MTop [] (123 :: s) = Some toks -> exists t, toks = TLBrace :: t.
Proof.
  change (lex MTop [] (123 :: s)) with (lex MTop [TLBrace] s).
  intros H.
  exact (@lex_extends (List.length s) s MTop [TLBrace] toks (le_n _) H).
Qed.

Lemma bottomIsObject_cons f stk :
  bottomIsObject stk = true -> bottomIsObject (f :: stk) = true.
Proof.
  destruct stk as [|g stk]; [discriminate|].
  intros H. destruct f; exact H.
Qed.

Lemma bottomIsObject_under_array done stk :
  bottomIsObject (FArr done :: stk) = true -> bottomIsObject stk = true.
Proof. destruct stk; [discriminate | intros H; exact H]. Qed.

Lemma bottomIsObject_under_object done k stk :
  bottomIsObject (FObj done k :: stk) = true ->
  stk = [] \/ bottomIsObject stk = true.
Proof. destruct stk; [left; reflexivity | intros H; right; exact H]. Qed.

Lemma bottomIsObject_push_object done k stk :
  stk = [] \/ bottomIsObject stk = true ->
  bottomIsObject (FObj done k :: stk) = true.
Proof.
  intros [->|H]; [reflexivity | apply bottomIsObject_cons, H].
Qed.

Lemma valueStep_rooted stk t st :
  bottomIsObject stk = true -> valueStep stk t = Some st -> objectRooted st.
Proof.
  intros Hs H. destruct t; cbn [valueStep] in H; try discriminate H;
    injection H as <-; cbn [objectRooted]; auto.
Qed.

Lemma step_rooted st t st' :
  objectRooted st -> step st t = Some st' -> objectRooted st'.
Proof.
  intros Hinv H. destruct st as [stk|stk|stk|done stk|done k stk|v stk];
    cbn [step objectRooted] in *.
  - exact (@valueStep_rooted stk t st' Hinv H).
  - destruct t; cbn [valueStep] in H;
      first [ discriminate H
            | injection H as <-; cbn [objectRooted];
              auto using bottomIsObject_cons ].
  - destruct t; try discriminate H; injection H as <-;
      cbn [objectRooted]; [|exact Hinv].
    destruct Hinv as [->|Hinv]; [left; split; reflexivity | right; exact Hinv].
  - destruct t; try discriminate H. injection H as <-. exact Hinv.
  - destruct t; try discriminate H. injection H as <-.
    cbn [objectRooted]. apply bottomIsObject_push_object, Hinv.
  - destruct stk as [|[done|done k] stk].
    + discriminate H.
    + destruct Hinv as [[E _]|Hinv]; [discriminate E|].
      destruct t; try discriminate H; injection H as <-; cbn [objectRooted].
      * right. apply bottomIsObject_under_array in Hinv. exact Hinv.
      * exact Hinv.
    + destruct Hinv as [[E _]|Hinv]; [discriminate E|].
      apply bottomIsObject_under_object in Hinv.
      destruct t; try discriminate H; injection H as <-; cbn [objectRooted].
      * destruct Hinv as [->|Hinv];
          [left; split; reflexivity | right; exact Hinv].
      * exact Hinv.
Qed.

Lemma run_rooted toks st st' :
  objectRooted st -> run st toks = Some st' -> objectRooted st'.
Proof.
  revert st. induction toks as [|t toks IH]; intros st Hinv H; cbn [run] in H.
  - injection H as <-. exact Hinv.
  - destruct (step st t) as [st1|] eqn:E; [|discriminate H].
    exact (IH st1 (@step_rooted st t st1 Hinv E) H).
Qed.

(** [JSON.parse] of a text that starts with an opening brace yields an
    object or a SyntaxError. *)
Lemma parse_brace_object s v :
  JSON.parse (123 :: s) = Some v -> exists props, v = VObj props.
Proof.
  unfold JSON.parse. destruct (lex MTop [] (123 :: s)) as [toks|] eqn:El;
    [|discriminate].
  apply lex_brace_first in El. destruct El as [t ->].
  cbn [run step valueStep].
  destruct (run (PObjStart []) t) as [st|] eqn:Er; [|discriminate].
  apply run_rooted in Er; [|left; reflexivity].
  destruct st as [| | | | |v' [|f stk]]; try discriminate.
  intros H. injection H as <-. cbn [objectRooted] in Er.
  destruct Er as [[_ Hv]|Hb]; [|discriminate Hb].
  destruct v'; try discriminate Hv. eexists. reflexivity.
Qed.

End JSONFacts.

(* ================================================================== *)
(** * 10. The built-ins on known inputs                            *)
(* ================================================================== *)

Module BuiltinExamples.

Local Open Scope N_scope.

(** 1.2 is the double 0x3FF3333333333333, 0.1 the double
    0x3FB999999999999A. *)
Example parseFloat_1_2 :
  parseFloat (str "1.2") = S754_finite false 5404319552844595 (-52).
Proof. vm_compute. reflexivity. Qed.

Example parseFloat_0_1 :
  parseFloat (str "0.1") = S754_finite false 7205759403792794 (-56).
Proof. vm_compute. reflexivity. Qed.

(** Ties round to even: 2^53 + 1 is read as 2^53. *)
Example parseFloat_tie :
  parseFloat (str "9007199254740993") = ofZ 9007199254740992.
Proof. vm_compute. reflexivity. Qed.

Example parseFloat_prefix :
  parseFloat (str "  -.5e3x") = ofZ (-500)
  /\ parseFloat (str "1.") = ofZ 1
  /\ parseFloat (str "1e") = ofZ 1
  /\ parseFloat (str "0x10") = zero
  /\ parseFloat (str "-0") = S754_zero true.
Proof. repeat split; vm_compute; reflexivity. Qed.

Example parseFloat_not_a_number :
  parseFloat (str "") = NaN /\ parseFloat (str ".") = NaN
  /\ parseFloat (str "-") = NaN /\ parseFloat (str "N/A") = NaN
  /\ parseFloat (str "e5") = NaN.
Proof. repeat split; vm_compute; reflexivity. Qed.

Example parseFloat_range :
  parseFloat (str "1e400") = S754_infinity false
  /\ parseFloat (str "-Infinity") = S754_infinity true
  /\ parseFloat (str "1e-400") = zero
  /\ parseFloat (str "1.7976931348623157e308")
     = S754_finite false 9007199254740991 971
  /\ parseFloat (str "5e-324") = S754_finite false 1 (-1074).
Proof. repeat split; vm_compute; reflexivity. Qed.

(** The thresholds of the insight rules are the doubles 5, 1 and 1.5. *)
Example thresholds :
  parseFloat (str "5") = DashboardService.five
  /\ parseFloat (str "1") = DashboardService.one
  /\ parseFloat (str "1.5") = DashboardService.one_and_a_half
  /\ gt (parseFloat (str "5.01")) DashboardService.five = true
  /\ gt (parseFloat (str "5")) DashboardService.five = false
  /\ gt zero (S754_zero true) = false
  /\ gt NaN zero = false /\ lt NaN zero = false.
Proof. repeat split; vm_compute; reflexivity. Qed.

Example Math_max_examples :
  Math_max zero (ofZ (-3)) = zero
  /\ Math_max zero (ofZ 3) = ofZ 3
  /\ Math_max zero (S754_zero true) = zero
  /\ Math_max zero NaN = NaN
  /\ sub (S754_infinity false) (S754_infinity false) = NaN.
Proof. repeat split; vm_compute; reflexivity. Qed.

Example trim_examples :
  trim (str "  a b  ") = str "a b"
  /\ trim ([9; 10; 13; 160; 65279] ++ str "x" ++ [8232; 12288]) = str "x"
  /\ trim (str "   ") = [].
Proof. repeat split; vm_compute; reflexivity. Qed.

Example split_examples :
  split 10 [] = [[]]
  /\ split 44 (str "a,,b") = [str "a"; []; str "b"]
  /\ split 10 (str "a" ++ [10]) = [str "a"; []].
Proof. repeat split; vm_compute; reflexivity. Qed.

Example showZ_examples :
  showZ 0 = str "0" /\ showZ 100 = str "100" /\ showZ (-1) = str "-1".
Proof. repeat split; vm_compute; reflexivity. Qed.

Example JSON_parse_values :
  JSON.parse (strq "{'a': [1, true, null, 'x'], 'b': {}}")
  = Some (VObj [ (str "a", VArr [VNum (ofZ 1); VBool true; VNull;
                                 VStr (str "x")]);
                 (str "b", VObj []) ])
  /\ JSON.parse (str " [ ] ") = Some (VArr [])
  /\ JSON.parse (str "-1.5E+2") = Some (VNum (ofZ (-150)))
  /\ JSON.parse (strq "'A\n\\'") = Some (VStr [65; 10; 92]).
Proof. repeat split; vm_compute; reflexivity. Qed.

Example JSON_parse_syntax_errors :
  JSON.parse (str "") = None
  /\ JSON.parse (str "[1,]") = None
  /\ JSON.parse (strq "{'a':1,}") = None
  /\ JSON.parse (strq "{'a' 1}") = None
  /\ JSON.parse (strq "{a:1}") = None
  /\ JSON.parse (str "01") = None
  /\ JSON.parse (str "1.") = None
  /\ JSON.parse (str ".5") = None
  /\ JSON.parse (str "+1") = None
  /\ JSON.parse (str "tru") = None
  /\ JSON.parse (str "[1 2]") = None
  /\ JSON.parse (str "[1]]") = None
  /\ JSON.parse (str "{} }") = None
  /\ JSON.parse (strq "'a") = None
  /\ JSON.parse (strq "'\x'") = None
  /\ JSON.parse (str "NaN") = None.
Proof. repeat split; vm_compute; reflexivity. Qed.

(** With a repeated name the last value is the one a property access
    sees. *)
Example duplicate_key :
  option_map (fun v => GeminiAnalysisService.prop v (str "a"))
             (JSON.parse (strq "{'a': 1, 'a': 'z'}"))
  = Some (VStr (str "z")).
Proof. vm_compute. reflexivity. Qed.

(** The object holds one property per name, at the place of the first
    member of that name and with the value of the last. *)
Example duplicate_key_object :
  JSON.parse (strq "{'a': 1, 'b': true, 'a': 'z'}")
  = Some (VObj [(str "a", VStr (str "z")); (str "b", VBool true)])
  /\ JSON.parse (strq "[{'a': 1, 'a': 2}]")
     = Some (VArr [VObj [(str "a", VNum (ofZ 2))]]).
Proof. split; vm_compute; reflexivity. Qed.

End BuiltinExamples.

(* ================================================================== *)
(** * 11. The numeric extraction helper                            *)
(* ================================================================== *)

Module ExtractFacts.

Import DashboardService JSFacts.
Local Open Scope N_scope.

Lemma letter_not_noise c : isLetter c = true -> isCurrencyNoise c = false.
Proof.
  intros H. unfold isCurrencyNoise.
  rewrite (letter_not_space _ H), !(letter_neq _ H) by lia. reflexivity.
Qed.

Lemma letter_not_paren c : isLetter c = true -> isParen c = false.
Proof.
  intros H. unfold isParen. rewrite !(letter_neq _ H) by lia. reflexivity.
Qed.

(** The string the helper hands to [parseFloat]. *)
Lemma numericString_app_letters v l :
  (forall x, In x l -> isLetter x = true) ->
  remove isParen (remove isCurrencyNoise (v ++ l))
  = remove isParen (remove isCurrencyNoise v) ++ l.
Proof.
  intros Hl. rewrite !remove_app. f_equal.
  rewrite (@remove_none isCurrencyNoise l)
    by (intros x Hx; apply letter_not_noise, Hl, Hx).
  apply remove_none. intros x Hx; apply letter_not_paren, Hl, Hx.
Qed.

Lemma includes_paren_app_letters k v l :
  k < 65 ->
  (forall x, In x l -> isLetter x = true) ->
  includes k (remove isCurrencyNoise (v ++ l))
  = includes k (remove isCurrencyNoise v).
Proof.
  intros Hk Hl. rewrite remove_app, includes_app.
  rewrite (@remove_none isCurrencyNoise l)
    by (intros x Hx; apply letter_not_noise, Hl, Hx).
  rewrite (@includes_none k l), orb_false_r; [reflexivity|].
  intros x Hx ->. specialize (Hl _ Hx).
  pose proof (letter_neq _ Hl Hk) as Hn.
  rewrite N.eqb_refl in Hn. discriminate Hn.
Qed.

(** A value that starts with the letter N never extracts to a number. *)
Lemma extract_N r : extractNumericValue (Some (78 :: r)) = None.
Proof.
  unfold extractNumericValue.
  destruct (JS.eqb (78 :: r) (str "N/A")); [reflexivity|].
  change (remove isCurrencyNoise (78 :: r))
    with (78 :: remove isCurrencyNoise r).
  change (remove isParen (78 :: remove isCurrencyNoise r))
    with (78 :: remove isParen (remove isCurrencyNoise r)).
  reflexivity.
Qed.

Lemma extractNumericValue_app_letters v l x :
  (forall c, In c l -> isLetter c = true) ->
  extractNumericValue (Some v) = Some x ->
  extractNumericValue (Some (v ++ l)) = Some x.
Proof.
  intros Hl Hv.
  destruct v as [|c v']; [discriminate Hv|].
  assert (Hna : JS.eqb ((c :: v') ++ l) (str "N/A") = false).
  { apply eqb_neq. intros E. injection E as Ec _. subst c.
    rewrite extract_N in Hv. discriminate Hv. }
  unfold extractNumericValue in *.
  change ((c :: v') ++ l) with (c :: (v' ++ l)) in *.
  rewrite Hna.
  destruct (JS.eqb (c :: v') (str "N/A")); [discriminate Hv|].
  change (c :: (v' ++ l)) with ((c :: v') ++ l).
  rewrite numericString_app_letters by exact Hl.
  rewrite !includes_paren_app_letters by (try lia; exact Hl).
  destruct (isNaN (parseFloat (remove isParen
              (remove isCurrencyNoise (c :: v'))))) eqn:En;
    [discriminate Hv|].
  rewrite parseFloat_app_letters by assumption.
  rewrite En. exact Hv.
Qed.


End ExtractFacts.

(** Rounding an integer never gives NaN, and a string of digits parses
    to the Number nearest to the integer it denotes. *)
Module NumberFacts.

Import DashboardService JSFacts.
Local Open Scope Z_scope.








Local Open Scope N_scope.




End NumberFacts.

(* ================================================================== *)
(** * 12. The shape of the dashboard                               *)
(* ================================================================== *)

Module DashboardFacts.

Import DashboardService JSFacts.
Local Open Scope N_scope.

Section WithIntl.

Variable formatCurrency : number -> jsstring.

Lemma generateChartData_eq (a : Analysis.t) :
  generateChartData formatCurrency a
  = financialOverview (Analysis.kpis a)
    :: balanceSheet formatCurrency (Analysis.kpis a)
    ++ (if (0 <? List.length
              (ChartData.data (performanceMetrics (Analysis.kpis a))))%nat
        then [performanceMetrics (Analysis.kpis a)] else [])
    ++ [riskOpportunityData a].
Proof.
  unfold generateChartData. cbv zeta.
  destruct (0 <? _)%nat; cbn [app]; rewrite <- ?app_assoc; reflexivity.
Qed.

(** The pie chart is the only chart with its title. *)
Lemma balanceSheet_title (k : KPIs.t) (c : ChartData.t) :
  In c (balanceSheet formatCurrency k) ->
  ChartData.title c = str "Balance Sheet Composition".
Proof.
  unfold balanceSheet.
  destruct (_ && _); [|intros []].
  destruct (gt _ _); [|intros []].
  intros [<-|[]]; reflexivity.
Qed.

Lemma balanceSheet_only (a : Analysis.t) (c : ChartData.t) :
  In c (generateChartData formatCurrency a) ->
  ChartData.title c = str "Balance Sheet Composition" ->
  In c (balanceSheet formatCurrency (Analysis.kpis a)).
Proof.
  rewrite generateChartData_eq. intros Hin Ht.
  destruct Hin as [<-|Hin]; [discriminate Ht|].
  apply in_app_or in Hin. destruct Hin as [Hin|Hin]; [exact Hin|].
  apply in_app_or in Hin. destruct Hin as [Hin|Hin].
  - destruct (0 <? _)%nat; [|destruct Hin].
    destruct Hin as [<-|[]]. discriminate Ht.
  - destruct Hin as [<-|[]]. discriminate Ht.
Qed.

Lemma balanceSheet_sub (a : Analysis.t) (c : ChartData.t) :
  In c (balanceSheet formatCurrency (Analysis.kpis a)) ->
  In c (generateChartData formatCurrency a).
Proof.
  rewrite generateChartData_eq. intros H.
  right. apply in_or_app. left. exact H.
Qed.

End WithIntl.

Lemma generateInsights_eq (a : Analysis.t) :
  generateInsights a
  = profitabilityInsight (Analysis.kpis a)
    ++ growthInsight (Analysis.kpis a)
    ++ cashFlowInsight (Analysis.kpis a)
    ++ riskInsight a
    ++ opportunityInsight a
    ++ leverageInsight (Analysis.kpis a).
Proof.
  unfold generateInsights. cbv zeta. cbn [app].
  rewrite <- !app_assoc. reflexivity.
Qed.

Lemma growthInsight_id k i :
  In i (growthInsight k) -> Insight.id i = str "growth".
Proof.
  unfold growthInsight. destruct (extractPercentageValue _); [|intros []].
  intros [<-|[]]; reflexivity.
Qed.

Lemma cashFlowInsight_id k i :
  In i (cashFlowInsight k) -> Insight.id i = str "cashflow".
Proof.
  unfold cashFlowInsight. destruct (isNotNA _); [|intros []].
  destruct (extractNumericValue _); [|intros []].
  intros [<-|[]]; reflexivity.
Qed.

Lemma riskInsight_id a i :
  In i (riskInsight a) -> Insight.id i = str "risks".
Proof.
  unfold riskInsight. cbv zeta. destruct (_ >? 0)%Z; [|intros []].
  intros [<-|[]]; reflexivity.
Qed.

Lemma opportunityInsight_id a i :
  In i (opportunityInsight a) -> Insight.id i = str "opportunities".
Proof.
  unfold opportunityInsight. cbv zeta. destruct (_ >? 0)%Z; [|intros []].
  intros [<-|[]]; reflexivity.
Qed.

Lemma leverageInsight_id k i :
  In i (leverageInsight k) -> Insight.id i = str "leverage".
Proof.
  unfold leverageInsight. destruct (isNotNA _); [|intros []].
  destruct (extractNumericValue _); [|intros []].
  intros [<-|[]]; reflexivity.
Qed.

(** The profitability block is the only source of an insight with the
    id "profitability". *)
Lemma profitability_only (a : Analysis.t) (i : Insight.t) :
  In i (generateInsights a) ->
  Insight.id i = str "profitability" ->
  In i (profitabilityInsight (Analysis.kpis a)).
Proof.
  rewrite generateInsights_eq. intros Hin Hid.
  repeat (apply in_app_or in Hin; destruct Hin as [Hin|Hin]);
    try exact Hin; exfalso.
  - apply growthInsight_id in Hin. rewrite Hin in Hid. discriminate Hid.
  - apply cashFlowInsight_id in Hin. rewrite Hin in Hid. discriminate Hid.
  - apply riskInsight_id in Hin. rewrite Hin in Hid. discriminate Hid.
  - apply opportunityInsight_id in Hin. rewrite Hin in Hid.
    discriminate Hid.
  - apply leverageInsight_id in Hin. rewrite Hin in Hid. discriminate Hid.
Qed.

Lemma profitability_sub (a : Analysis.t) (i : Insight.t) :
  In i (profitabilityInsight (Analysis.kpis a)) ->
  In i (generateInsights a).
Proof.
  rewrite generateInsights_eq. intros H. apply in_or_app. left. exact H.
Qed.

(** [Math.max(0, x)] floors at zero. *)
Lemma Math_max_zero_pos x : gt x zero = true -> Math_max zero x = x.
Proof.
  unfold gt, zero, Math_max. destruct x as [s|s| |s m e]; simpl;
    try discriminate; intros H; try rewrite H; reflexivity.
Qed.

Lemma Math_max_zero_nonpos x :
  isNaN x = false -> gt x zero = false -> Math_max zero x = zero.
Proof.
  unfold gt, zero, Math_max. destruct x as [s|s| |s m e]; simpl;
    try discriminate; intros _ H; try rewrite H; reflexivity.
Qed.

End DashboardFacts.

(** Letters appended to a KPI value change neither what is extracted
    from it nor the test against "N/A". *)
Module SuffixFacts.

Import DashboardService JSFacts ExtractFacts DashboardFacts Suffixed.
Local Open Scope N_scope.

Lemma letter_not_percent_noise c :
  isLetter c = true -> isPercentNoise c = false.
Proof.
  intros H. unfold isPercentNoise.
  rewrite (letter_not_space _ H), !(letter_neq _ H) by lia. reflexivity.
Qed.

Lemma percentage_N r : extractPercentageValue (Some (78 :: r)) = None.
Proof.
  unfold extractPercentageValue.
  destruct (JS.eqb (78 :: r) (str "N/A")); [reflexivity|].
  change (remove isPercentNoise (78 :: r))
    with (78 :: remove isPercentNoise r).
  reflexivity.
Qed.

Lemma extractPercentageValue_app_letters v l x :
  (forall c, In c l -> isLetter c = true) ->
  extractPercentageValue (Some v) = Some x ->
  extractPercentageValue (Some (v ++ l)) = Some x.
Proof.
  intros Hl Hv.
  destruct v as [|c v']; [discriminate Hv|].
  assert (Hna : JS.eqb ((c :: v') ++ l) (str "N/A") = false).
  { apply eqb_neq. intros E. injection E as Ec _. subst c.
    rewrite percentage_N in Hv. discriminate Hv. }
  unfold extractPercentageValue in *.
  change ((c :: v') ++ l) with (c :: (v' ++ l)) in *.
  rewrite Hna.
  destruct (JS.eqb (c :: v') (str "N/A")); [discriminate Hv|].
  change (c :: (v' ++ l)) with ((c :: v') ++ l).
  rewrite remove_app.
  rewrite (@remove_none isPercentNoise l)
    by (intros y Hy; apply letter_not_percent_noise, Hl, Hy).
  destruct (isNaN (parseFloat (remove isPercentNoise (c :: v')))) eqn:En;
    [discriminate Hv|].
  rewrite parseFloat_app_letters by assumption.
  rewrite En. exact Hv.
Qed.

Lemma numeric_suffixed value suffix :
  numericSuffix value suffix ->
  extractNumericValue (appendTo value suffix) = extractNumericValue value.
Proof.
  intros [Hl [->|Hv]]; destruct value as [v|]; cbn [appendTo];
    try reflexivity.
  - rewrite app_nil_r. reflexivity.
  - destruct (extractNumericValue (Some v)) as [x|] eqn:E; [|congruence].
    apply extractNumericValue_app_letters; [|exact E].
    intros c Hc. rewrite forallb_forall in Hl. apply Hl, Hc.
Qed.

Lemma percent_suffixed value suffix :
  percentSuffix value suffix ->
  extractPercentageValue (appendTo value suffix)
  = extractPercentageValue value.
Proof.
  intros [Hl [->|Hv]]; destruct value as [v|]; cbn [appendTo];
    try reflexivity.
  - rewrite app_nil_r. reflexivity.
  - destruct (extractPercentageValue (Some v)) as [x|] eqn:E; [|congruence].
    apply extractPercentageValue_app_letters; [|exact E].
    intros c Hc. rewrite forallb_forall in Hl. apply Hl, Hc.
Qed.

Lemma isNotNA_suffixed value suffix :
  numericSuffix value suffix ->
  isNotNA (appendTo value suffix) = isNotNA value.
Proof.
  intros H. pose proof (numeric_suffixed H) as He.
  destruct H as [Hl [->|Hv]]; destruct value as [v|]; cbn [appendTo] in *;
    try reflexivity.
  - rewrite app_nil_r. reflexivity.
  - cbn [isNotNA].
    destruct (JS.eqb (v ++ suffix) (str "N/A")) eqn:E1.
    + apply eqb_eq in E1. rewrite E1 in He.
      elim Hv. rewrite <- He. reflexivity.
    + destruct (JS.eqb v (str "N/A")) eqn:E2; [|reflexivity].
      apply eqb_eq in E2. subst v. elim Hv. reflexivity.
Qed.

Section WithIntl.

Variable formatCurrency : number -> jsstring.

(** The charts plot the same values. *)
Lemma chartValues_suffixed a s :
  admissible (Analysis.kpis a) s ->
  map chartValues (generateChartData formatCurrency (suffixed a s))
  = map chartValues (generateChartData formatCurrency a).
Proof.
  intros [Hrev [Hexp [Hnet [Hgro [Hta [Htl [Hcf [Hde [Hroi Hpm]]]]]]]]].
  rewrite !generateChartData_eq.
  set (k := Analysis.kpis a) in *.
  change (Analysis.kpis (suffixed a s)) with (withSuffixes k s).
  cbn [map]. rewrite !map_app. f_equal; [|f_equal; [|f_equal]].
  - unfold chartValues, financialOverview.
    cbn [ChartData.title ChartData.data map plotted withSuffixes
         KPIs.revenue KPIs.expenses KPIs.netProfit].
    pose proof (numeric_suffixed Hrev) as E1.
    pose proof (numeric_suffixed Hexp) as E2.
    pose proof (numeric_suffixed Hnet) as E3.
    cbn [appendTo] in E1, E2, E3. fold k in E1, E2, E3.
    rewrite E1, E2, E3. reflexivity.
  - unfold balanceSheet.
    cbn [withSuffixes KPIs.totalAssets KPIs.totalLiabilities].
    rewrite (isNotNA_suffixed Hta), (isNotNA_suffixed Htl).
    rewrite (numeric_suffixed Hta), (numeric_suffixed Htl).
    fold k.
    destruct (isNotNA (KPIs.totalAssets k)
              && isNotNA (KPIs.totalLiabilities k)); [|reflexivity].
    cbv zeta. destruct (gt _ zero); reflexivity.
  - assert (Hdata :
      map plotted (ChartData.data (performanceMetrics (withSuffixes k s)))
      = map plotted (ChartData.data (performanceMetrics k))).
    { unfold performanceMetrics.
      cbn [ChartData.data withSuffixes KPIs.growthRate KPIs.profitMargin
           KPIs.returnOnInvestment].
      pose proof (percent_suffixed Hgro) as E1.
      cbn [appendTo] in E1. fold k in E1.
      rewrite E1, (percent_suffixed Hpm), (percent_suffixed Hroi).
      fold k.
      destruct (extractPercentageValue (Some (KPIs.growthRate k)));
        destruct (extractPercentageValue (KPIs.profitMargin k));
        destruct (extractPercentageValue (KPIs.returnOnInvestment k));
        reflexivity. }
    assert (Hlen :
      List.length (ChartData.data (performanceMetrics (withSuffixes k s)))
      = List.length (ChartData.data (performanceMetrics k))).
    { rewrite <- (length_map plotted), Hdata, length_map. reflexivity. }
    rewrite Hlen.
    destruct (0 <? _)%nat; [|reflexivity].
    cbn [map]. f_equal. unfold chartValues. rewrite Hdata. reflexivity.
Qed.

End WithIntl.

(** The rules reach the same verdicts. *)
Lemma verdicts_suffixed a s :
  admissible (Analysis.kpis a) s ->
  map verdict (generateInsights (suffixed a s))
  = map verdict (generateInsights a).
Proof.
  intros [Hrev [Hexp [Hnet [Hgro [Hta [Htl [Hcf [Hde [Hroi Hpm]]]]]]]]].
  rewrite !generateInsights_eq.
  set (k := Analysis.kpis a) in *.
  change (Analysis.kpis (suffixed a s)) with (withSuffixes k s).
  assert (P1 : map verdict (profitabilityInsight (withSuffixes k s))
               = map verdict (profitabilityInsight k)).
  { unfold profitabilityInsight. cbn [withSuffixes KPIs.netProfit].
    pose proof (numeric_suffixed Hnet) as E. cbn [appendTo] in E.
    rewrite E.
    destruct (extractNumericValue (Some (KPIs.netProfit k)));
      reflexivity. }
  assert (P2 : map verdict (growthInsight (withSuffixes k s))
               = map verdict (growthInsight k)).
  { unfold growthInsight. cbn [withSuffixes KPIs.growthRate].
    pose proof (percent_suffixed Hgro) as E. cbn [appendTo] in E.
    rewrite E.
    destruct (extractPercentageValue (Some (KPIs.growthRate k)));
      reflexivity. }
  assert (P3 : map verdict (cashFlowInsight (withSuffixes k s))
               = map verdict (cashFlowInsight k)).
  { unfold cashFlowInsight. cbn [withSuffixes KPIs.cashFlow].
    rewrite (isNotNA_suffixed Hcf), (numeric_suffixed Hcf).
    destruct (isNotNA (KPIs.cashFlow k)); [|reflexivity].
    destruct (extractNumericValue (KPIs.cashFlow k)); reflexivity. }
  assert (P6 : map verdict (leverageInsight (withSuffixes k s))
               = map verdict (leverageInsight k)).
  { unfold leverageInsight. cbn [withSuffixes KPIs.debtToEquityRatio].
    rewrite (isNotNA_suffixed Hde), (numeric_suffixed Hde).
    destruct (isNotNA (KPIs.debtToEquityRatio k)); [|reflexivity].
    destruct (extractNumericValue (KPIs.debtToEquityRatio k));
      reflexivity. }
  rewrite !map_app, P1, P2, P3, P6. reflexivity.
Qed.

End SuffixFacts.

(* ================================================================== *)
(** * 13. The dashboard generator's specification                  *)
(* ================================================================== *)

Module DashboardSpec.

Import DashboardService JSFacts ExtractFacts DashboardFacts.
Local Open Scope N_scope.





(** C10.  The helper ignores magnitude suffixes: [extract("$1.2M")] is
    1.2 and not 1200000, [extract("$3K")] is 3, [extract("2.5B")] is 2.5;
    in general, letters appended to a value that extracts to a number
    leave the result unchanged.  The under-scaled number is what the
    Financial Overview chart plots and what the profitability rule
    tests.  More generally the dashboard of an analysis whose KPI values
    carry such letters plots, in every chart, the values of the analysis
    without the letters, and every insight has the same id, type and
    importance: with revenue "$1.2M", assets "$2.5B" and liabilities
    "$900M" the charts plot 1.2, 2.5 and 900, and an equity of 0. *)
Theorem extractNumericValue_ignores_suffix :
  extractNumericValue (Some (str "$1.2M")) = Some (ofDecimal false 12 (-1))
  /\ extractNumericValue (Some (str "$1.2M")) <> Some (ofZ 1200000)
  /\ extractNumericValue (Some (str "$3K")) = Some (ofZ 3)
  /\ extractNumericValue (Some (str "2.5B")) = Some (ofDecimal false 25 (-1))
  /\ (forall v l x,
        forallb isLetter l = true ->
        extractNumericValue (Some v) = Some x ->
        extractNumericValue (Some (v ++ l)) = Some x)
  /\ (forall formatCurrency a v l x,
        forallb isLetter l = true ->
        extractNumericValue (Some v) = Some x ->
        KPIs.revenue (Analysis.kpis a) = v ++ l ->
        exists c,
          In c (chartData (generateDashboard formatCurrency a))
          /\ ChartData.title c = str "Financial Overview"
          /\ In (CategoryDatum (str "Revenue") (Some x) (v ++ l))
                (ChartData.data c))
  /\ (forall a v l x,
        forallb isLetter l = true ->
        extractNumericValue (Some v) = Some x ->
        KPIs.netProfit (Analysis.kpis a) = v ++ l ->
        exists i,
          In i (generateInsights a)
          /\ Insight.id i = str "profitability"
          /\ Insight.type i = if gt x zero then positive else negative)
  /\ (forall formatCurrency a s,
        Suffixed.admissible (Analysis.kpis a) s ->
        map Suffixed.chartValues
            (chartData (generateDashboard formatCurrency
                                          (Suffixed.suffixed a s)))
        = map Suffixed.chartValues
              (chartData (generateDashboard formatCurrency a))
        /\ map Suffixed.verdict
               (insights (generateDashboard formatCurrency
                                            (Suffixed.suffixed a s)))
           = map Suffixed.verdict
                 (insights (generateDashboard formatCurrency a)))
  /\ (forall formatCurrency,
        map Suffixed.chartValues
            (chartData (generateDashboard formatCurrency
                                          MoreSamples.abbreviated))
        = [ (str "Financial Overview",
             [ (str "Revenue", Some (ofDecimal false 12 (-1)));
               (str "Expenses", Some (ofZ 800));
               (str "Net Profit", Some (ofZ 400)) ]);
            (str "Balance Sheet Composition",
             [ (str "Assets", Some (ofDecimal false 25 (-1)));
               (str "Liabilities", Some (ofZ 900));
               (str "Equity", Some zero) ]);
            (str "Performance Metrics",
             [ (str "Growth Rate", Some (ofZ 15));
               (str "Profit Margin", Some (ofZ 33));
               (str "ROI", Some (ofZ 12)) ]);
            (str "Risk vs Opportunity Analysis",
             [ (str "Risks Identified", Some (ofZ 1));
               (str "Opportunities Found", Some (ofZ 0));
               (str "Recommendations", Some (ofZ 1)) ]) ]
        /\ map Suffixed.verdict
               (insights (generateDashboard formatCurrency
                                            MoreSamples.abbreviated))
           = [ (str "profitability", positive, high);
               (str "growth", positive, high);
               (str "cashflow", positive, high);
               (str "risks", neutral, medium);
               (str "leverage", positive, medium) ]).
Proof.
  assert (Happ : forall v l x,
             forallb isLetter l = true ->
             extractNumericValue (Some v) = Some x ->
             extractNumericValue (Some (v ++ l)) = Some x).
  { intros v l x Hl Hv. apply extractNumericValue_app_letters; [|exact Hv].
    intros c Hc. rewrite forallb_forall in Hl. apply Hl, Hc. }
  split; [vm_compute; reflexivity|].
  split; [vm_compute; discriminate|].
  split; [vm_compute; reflexivity|].
  split; [vm_compute; reflexivity|].
  split; [exact Happ|].
  split; [|split; [|split]].
  - intros fc a v l x Hl Hv Hr.
    exists (financialOverview (Analysis.kpis a)). split; [|split].
    + unfold generateDashboard. cbn [chartData].
      rewrite generateChartData_eq. left. reflexivity.
    + reflexivity.
    + unfold financialOverview. cbn [ChartData.data]. left.
      rewrite Hr. f_equal. exact (Happ v l x Hl Hv).
  - intros a v l x Hl Hv Hn.
    pose proof (Happ v l x Hl Hv) as He. rewrite <- Hn in He.
    eexists. split; [|split].
    + apply profitability_sub. unfold profitabilityInsight.
      rewrite He. left. reflexivity.
    + reflexivity.
    + reflexivity.
  - intros fc a s Hs. unfold generateDashboard. cbn [chartData insights].
    split.
    + exact (@SuffixFacts.chartValues_suffixed fc a s Hs).
    + exact (@SuffixFacts.verdicts_suffixed a s Hs).
  - intros fc. split; vm_compute; reflexivity.
Qed.

Lemma extractNumericValue_ignores_suffix_witness :
  extractNumericValue (Some (str "(4,500)" ++ str "USD"))
  = Some (ofZ (-4500))
  /\ (map Suffixed.chartValues
          (chartData (generateDashboard Samples.plainCurrency
                        (Suffixed.suffixed MoreSamples.unabbreviated
                                           MoreSamples.magnitudes)))
      = map Suffixed.chartValues
            (chartData (generateDashboard Samples.plainCurrency
                                          MoreSamples.unabbreviated))
      /\ map Suffixed.verdict
             (insights (generateDashboard Samples.plainCurrency
                          (Suffixed.suffixed MoreSamples.unabbreviated
                                             MoreSamples.magnitudes)))
         = map Suffixed.verdict
               (insights (generateDashboard Samples.plainCurrency
                                            MoreSamples.unabbreviated))).
Proof.
  split.
  - apply (proj1 (proj2 (proj2 (proj2 (proj2
             extractNumericValue_ignores_suffix))))).
    + reflexivity.
    + vm_compute. reflexivity.
  - apply (proj1 (proj2 (proj2 (proj2 (proj2 (proj2 (proj2 (proj2
             extractNumericValue_ignores_suffix)))))))).
    unfold Suffixed.admissible, Suffixed.numericSuffix,
      Suffixed.percentSuffix.
    repeat split; try reflexivity;
      first [ left; reflexivity
            | right; vm_compute; discriminate ].
Defined.

(** C7.  The "Balance Sheet Composition" pie chart is emitted exactly
    when totalAssets and totalLiabilities both differ from "N/A" and the
    extracted asset value is a number strictly greater than 0.  When it is
    emitted it is a pie chart whose third entry, Equity, has the value
    [Math.max(0, assets - liabilities)] (a null liability counting as 0):
    the difference when that is positive and 0 when it is not (NaN when
    the difference is NaN).  With totalAssets = "N/A" it is never
    emitted, whatever the other fields. *)
Theorem balanceSheet_chart (formatCurrency : number -> jsstring)
        (a : Analysis.t) :
  let k := Analysis.kpis a in
  let charts := chartData (generateDashboard formatCurrency a) in
  let assets := extractNumericValue (KPIs.totalAssets k) in
  let liabilities := extractNumericValue (KPIs.totalLiabilities k) in
  let equity := sub (toNumber assets) (toNumber liabilities) in
  ((exists c, In c charts
              /\ ChartData.title c = str "Balance Sheet Composition")
   <-> (isNotNA (KPIs.totalAssets k) = true
        /\ isNotNA (KPIs.totalLiabilities k) = true
        /\ exists v, assets = Some v /\ gt v zero = true))
  /\ (forall c,
        In c charts ->
        ChartData.title c = str "Balance Sheet Composition" ->
        ChartData.type c = ChartData.pie
        /\ exists v,
             nth_error (ChartData.data c) 2
             = Some (NameDatum (str "Equity") (Some v)
                       (Some (formatCurrency equity)))
             /\ v = Math_max zero equity
             /\ (gt equity zero = true -> v = equity)
             /\ (isNaN equity = false -> gt equity zero = false ->
                 v = zero))
  /\ (KPIs.totalAssets k = Some (str "N/A") ->
      forall c, In c charts ->
                ChartData.title c <> str "Balance Sheet Composition").
Proof.
  cbv zeta. unfold generateDashboard. cbn [chartData].
  split; [split|split].
  - intros [c [Hin Ht]]. apply balanceSheet_only in Hin; [|exact Ht].
    unfold balanceSheet in Hin.
    destruct (isNotNA (KPIs.totalAssets _)); [|destruct Hin].
    destruct (isNotNA (KPIs.totalLiabilities _)); [|destruct Hin].
    cbn [andb] in Hin.
    destruct (extractNumericValue (KPIs.totalAssets _)) as [v|].
    + cbn [toNumber] in Hin.
      destruct (gt v zero) eqn:Hv; [|destruct Hin].
      repeat split. exists v. split; [reflexivity | exact Hv].
    + cbn [toNumber] in Hin.
      change (gt zero zero) with false in Hin. destruct Hin.
  - intros [Ha [Hl [v [Hv Hpos]]]].
    eexists. split.
    + apply balanceSheet_sub. unfold balanceSheet.
      rewrite Ha, Hl, Hv. cbn [andb toNumber]. rewrite Hpos.
      left. reflexivity.
    + reflexivity.
  - intros c Hin Ht. apply balanceSheet_only in Hin; [|exact Ht].
    unfold balanceSheet in Hin.
    destruct (_ && _); [|destruct Hin].
    destruct (gt _ zero); [|destruct Hin].
    destruct Hin as [<-|[]]. cbn [ChartData.type ChartData.data].
    split; [reflexivity|].
    eexists. split; [reflexivity|].
    split; [reflexivity|].
    split; [apply Math_max_zero_pos | apply Math_max_zero_nonpos].
  - intros Hna c Hin Ht. apply balanceSheet_only in Hin; [|exact Ht].
    unfold balanceSheet in Hin. rewrite Hna in Hin.
    change (isNotNA (Some (str "N/A"))) with false in Hin.
    destruct Hin.
Qed.

Lemma balanceSheet_chart_witness :
  (exists c,
      In c (chartData (generateDashboard Samples.plainCurrency
                         Samples.analysis))
      /\ ChartData.title c = str "Balance Sheet Composition")
  /\ nth_error
       (ChartData.data
          (nth 1 (chartData (generateDashboard Samples.plainCurrency
                               Samples.analysis))
               (financialOverview Samples.kpis))) 2
     = Some (NameDatum (str "Equity") (Some (ofZ 300000))
               (Some (str "$"))).
Proof.
  split.
  - apply (proj1 (balanceSheet_chart Samples.plainCurrency
                    Samples.analysis)).
    split; [reflexivity|]. split; [reflexivity|].
    exists (ofZ 500000). split; vm_compute; reflexivity.
  - vm_compute. reflexivity.
Defined.

(** C8.  The Profitability insight is emitted if and only if the net
    profit KPI extracts to a number; its type is positive when that
    number is strictly greater than 0 and negative otherwise, and its
    importance is high.  netProfit = "$400,000" gives the type positive,
    netProfit = "($100)" the type negative, and netProfit = "N/A" no
    Profitability insight. *)
Theorem profitability_insight :
  (forall formatCurrency a,
      let k := Analysis.kpis a in
      let emitted := insights (generateDashboard formatCurrency a) in
      ((exists i, In i emitted /\ Insight.id i = str "profitability")
       <-> extractNumericValue (Some (KPIs.netProfit k)) <> None)
      /\ (forall i,
            In i emitted -> Insight.id i = str "profitability" ->
            Insight.importance i = high
            /\ exists v,
                 extractNumericValue (Some (KPIs.netProfit k)) = Some v
                 /\ Insight.type i
                    = if gt v zero then positive else negative))
  /\ (forall formatCurrency a,
        KPIs.netProfit (Analysis.kpis a) = str "$400,000" ->
        (exists i, In i (insights (generateDashboard formatCurrency a))
                   /\ Insight.id i = str "profitability")
        /\ forall i, In i (insights (generateDashboard formatCurrency a)) ->
                     Insight.id i = str "profitability" ->
                     Insight.type i = positive)
  /\ (forall formatCurrency a,
        KPIs.netProfit (Analysis.kpis a) = str "($100)" ->
        (exists i, In i (insights (generateDashboard formatCurrency a))
                   /\ Insight.id i = str "profitability")
        /\ forall i, In i (insights (generateDashboard formatCurrency a)) ->
                     Insight.id i = str "profitability" ->
                     Insight.type i = negative)
  /\ (forall formatCurrency a,
        KPIs.netProfit (Analysis.kpis a) = str "N/A" ->
        forall i, In i (insights (generateDashboard formatCurrency a)) ->
                  Insight.id i <> str "profitability").
Proof.
  assert (General : forall a,
    let k := Analysis.kpis a in
    ((exists i, In i (generateInsights a)
                /\ Insight.id i = str "profitability")
     <-> extractNumericValue (Some (KPIs.netProfit k)) <> None)
    /\ (forall i,
          In i (generateInsights a) ->
          Insight.id i = str "profitability" ->
          Insight.importance i = high
          /\ exists v,
               extractNumericValue (Some (KPIs.netProfit k)) = Some v
               /\ Insight.type i = if gt v zero then positive else negative)).
  { intros a. cbv zeta. split; [split|].
    - intros [i [Hin Hid]]. apply profitability_only in Hin; [|exact Hid].
      unfold profitabilityInsight in Hin.
      destruct (extractNumericValue _); [discriminate | destruct Hin].
    - intros Hne.
      destruct (extractNumericValue (Some (KPIs.netProfit (Analysis.kpis a))))
        as [v|] eqn:Hv; [|congruence].
      eexists. split.
      + apply profitability_sub. unfold profitabilityInsight.
        rewrite Hv. left. reflexivity.
      + reflexivity.
    - intros i Hin Hid. apply profitability_only in Hin; [|exact Hid].
      unfold profitabilityInsight in Hin.
      destruct (extractNumericValue _) as [v|]; [|destruct Hin].
      destruct Hin as [<-|[]]. cbn [Insight.importance Insight.type].
      split; [reflexivity|]. exists v. split; reflexivity. }
  assert (Concrete : forall a s v,
    KPIs.netProfit (Analysis.kpis a) = s ->
    extractNumericValue (Some s) = Some v ->
    (exists i, In i (generateInsights a)
               /\ Insight.id i = str "profitability")
    /\ forall i, In i (generateInsights a) ->
                 Insight.id i = str "profitability" ->
                 Insight.type i = if gt v zero then positive else negative).
  { intros a s v Hs Hv. destruct (General a) as [Hiff Hall].
    cbv zeta in Hiff, Hall. rewrite Hs in Hiff, Hall. split.
    - apply Hiff. rewrite Hv. discriminate.
    - intros i Hin Hid. destruct (Hall i Hin Hid) as [_ [w [Hw Ht]]].
      rewrite Hv in Hw. injection Hw as <-. exact Ht. }
  unfold generateDashboard. cbn [insights].
  split; [intros _ a; exact (General a)|].
  split; [|split].
  - intros _ a Hs.
    exact (Concrete a _ (ofZ 400000) Hs ltac:(vm_compute; reflexivity)).
  - intros _ a Hs.
    exact (Concrete a _ (ofZ (-100)) Hs ltac:(vm_compute; reflexivity)).
  - intros _ a Hs i Hin Hid.
    destruct (General a) as [Hiff _]. cbv zeta in Hiff.
    rewrite Hs in Hiff.
    apply (proj1 Hiff); [|reflexivity].
    exists i. split; assumption.
Qed.

Lemma profitability_insight_witness :
  (exists i, In i (insights (generateDashboard Samples.plainCurrency
                               Samples.analysis))
             /\ Insight.id i = str "profitability")
  /\ forall i, In i (insights (generateDashboard Samples.plainCurrency
                                 Samples.analysis)) ->
               Insight.id i = str "profitability" ->
               Insight.type i = positive.
Proof.
  apply (proj1 (proj2 profitability_insight)). reflexivity.
Defined.

(** C9.  generateDashboard is a pure function of the analysis: run on
    any state of the host (whatever the clock, whatever the rate limiter's
    map) it leaves that state as it was and returns the value determined
    by the analysis and the host's compact currency formatter, the only
    thing of the host it calls.  So two invocations on the same analysis,
    one after the other or on different states of the host, return equal
    {chartData, insights}.  generateExportData, of the same class, is not
    such a function: its metadata carry the time of the call. *)
Theorem generateDashboard_pure :
  (forall a h,
      DashboardServiceOnHost.generateDashboard a h
      = (generateDashboard (Host.compactCurrency h) a, h))
  /\ (forall a h,
        let '(first, h1) := DashboardServiceOnHost.generateDashboard a h in
        let '(second, h2) := DashboardServiceOnHost.generateDashboard a h1 in
        first = second /\ h1 = h /\ h2 = h)
  /\ (forall a h1 h2,
        (forall x, Host.compactCurrency h1 x = Host.compactCurrency h2 x) ->
        fst (DashboardServiceOnHost.generateDashboard a h1)
        = fst (DashboardServiceOnHost.generateDashboard a h2))
  /\ (forall a id d h1 h2,
        Host.toISOString h1 (Host.clock h1)
        <> Host.toISOString h2 (Host.clock h2) ->
        fst (DashboardServiceOnHost.generateExportData a id d h1)
        <> fst (DashboardServiceOnHost.generateExportData a id d h2)).
Proof.
  assert (Run : forall a h,
    DashboardServiceOnHost.generateDashboard a h
    = (generateDashboard (Host.compactCurrency h) a, h)).
  { intros a h.
    unfold DashboardServiceOnHost.generateDashboard,
      DashboardServiceOnHost.generateInsights,
      DashboardServiceOnHost.generateChartData,
      DashboardServiceOnHost.formatCurrency,
      Host.Intl_NumberFormat_format, Host.bind, Host.ret.
    unfold generateDashboard, generateChartData, balanceSheet.
    cbv zeta.
    destruct (isNotNA (KPIs.totalAssets (Analysis.kpis a))
              && isNotNA (KPIs.totalLiabilities (Analysis.kpis a)));
      [|reflexivity].
    destruct (gt _ zero); reflexivity. }
  split; [exact Run|]. split; [|split].
  - intros a h. rewrite (Run a h), (Run a h). auto.
  - intros a h1 h2 Hf. rewrite !Run. cbn [fst].
    unfold generateDashboard. f_equal.
    rewrite !generateChartData_eq. f_equal. f_equal.
    unfold balanceSheet.
    destruct (_ && _); [|reflexivity].
    destruct (gt _ zero); [|reflexivity].
    rewrite Hf. reflexivity.
  - intros a id d h1 h2 Hne H. apply Hne.
    unfold DashboardServiceOnHost.generateExportData,
      Host.Date_now_toISOString, Host.bind, Host.ret in H.
    cbn [fst] in H.
    apply (f_equal (fun e => DashboardServiceOnHost.generatedAt
                               (DashboardServiceOnHost.metadata e))) in H.
    exact H.
Qed.

Lemma generateDashboard_pure_witness :
  fst (DashboardServiceOnHost.generateDashboard Samples.analysis
         (MoreSamples.host 1000 []))
  = fst (DashboardServiceOnHost.generateDashboard Samples.analysis
           (snd (Host.checkRateLimit (str "10.0.0.1") 10 60000
                   (MoreSamples.host 86400000 []))))
  /\ fst (DashboardServiceOnHost.generateExportData Samples.analysis
            (str "d-1")
            (generateDashboard Samples.plainCurrency Samples.analysis)
            (MoreSamples.host 1000 []))
     <> fst (DashboardServiceOnHost.generateExportData Samples.analysis
               (str "d-1")
               (generateDashboard Samples.plainCurrency Samples.analysis)
               (MoreSamples.host 86400000 [])).
Proof.
  split.
  - apply (proj1 (proj2 (proj2 generateDashboard_pure))).
    intros x. reflexivity.
  - apply (proj2 (proj2 (proj2 generateDashboard_pure))).
    vm_compute. discriminate.
Defined.

End DashboardSpec.

(* ================================================================== *)
(** * 14. The content validator                                    *)
(* ================================================================== *)

Module ValidatorSpec.

Import GeminiAnalysisService.
Local Open Scope Z_scope.

Lemma emptyTest_blank content :
  trim content = [] ->
  (match content with [] => true | _ => false end)
  || (JS.length (trim content) =? 0) = true.
Proof. intros ->. apply orb_true_r. Qed.

Lemma emptyTest_nonblank content :
  trim content <> [] ->
  (match content with [] => true | _ => false end)
  || (JS.length (trim content) =? 0) = false.
Proof.
  intros H. destruct content as [|c r]; [elim H; reflexivity|].
  cbn [orb]. destruct (trim (c :: r)) as [|d t]; [elim H; reflexivity|].
  unfold JS.length. cbn [List.length]. apply Z.eqb_neq. lia.
Qed.

(** C3, as the code has it.  The validator answers "Content is empty"
    for the empty string and for every string that is white space only,
    whatever its length; for every other string it answers "Content too
    short" below 100 code units, "Content too long" above 100000, and
    accepts the string in between.  In particular 99 times "x" is too
    short, 100 times "x" is accepted and 100001 times "x" is too
    long. *)
Theorem validateContent_spec :
  (forall content,
      trim content = [] ->
      validateContent content
      = {| isValid := false; error := Some EmptyContentError |})
  /\ (forall content,
        trim content <> [] -> JS.length content < 100 ->
        validateContent content
        = {| isValid := false; error := Some ContentTooShortError |})
  /\ (forall content,
        trim content <> [] -> JS.length content > 100000 ->
        validateContent content
        = {| isValid := false; error := Some ContentTooLongError |})
  /\ (forall content,
        trim content <> [] -> 100 <= JS.length content <= 100000 ->
        validateContent content = {| isValid := true; error := None |})
  /\ validateContent []
     = {| isValid := false; error := Some EmptyContentError |}
  /\ validateContent (str "   ")
     = {| isValid := false; error := Some EmptyContentError |}
  /\ validateContent (JS.repeat 120 99)
     = {| isValid := false; error := Some ContentTooShortError |}
  /\ validateContent (JS.repeat 120 100)
     = {| isValid := true; error := None |}
  /\ validateContent (JS.repeat 120 100001)
     = {| isValid := false; error := Some ContentTooLongError |}.
Proof.
  split; [|split; [|split; [|split]]].
  - intros content H. unfold validateContent.
    rewrite (@emptyTest_blank content H). reflexivity.
  - intros content H Hlen. unfold validateContent.
    rewrite (@emptyTest_nonblank content H).
    apply Z.ltb_lt in Hlen. rewrite Hlen. reflexivity.
  - intros content H Hlen. unfold validateContent.
    rewrite (@emptyTest_nonblank content H).
    assert (H1 : (JS.length content <? 100) = false)
      by (apply Z.ltb_ge; lia).
    assert (H2 : (JS.length content >? 100000) = true)
      by (rewrite Z.gtb_ltb; apply Z.ltb_lt; lia).
    rewrite H1, H2. reflexivity.
  - intros content H Hlen. unfold validateContent.
    rewrite (@emptyTest_nonblank content H).
    assert (H1 : (JS.length content <? 100) = false)
      by (apply Z.ltb_ge; lia).
    assert (H2 : (JS.length content >? 100000) = false)
      by (rewrite Z.gtb_ltb; apply Z.ltb_ge; lia).
    rewrite H1, H2. reflexivity.
  - split; [vm_compute; reflexivity|].
    split; [vm_compute; reflexivity|].
    split; [vm_compute; reflexivity|].
    split; vm_compute; reflexivity.
Qed.

Lemma validateContent_spec_witness :
  validateContent (str "   " ++ JS.repeat 120 50)
  = {| isValid := false; error := Some ContentTooShortError |}
  /\ validateContent (JS.repeat 32 7)
     = {| isValid := false; error := Some EmptyContentError |}
  /\ validateContent (JS.repeat 120 100002)
     = {| isValid := false; error := Some ContentTooLongError |}
  /\ validateContent (JS.repeat 120 100000)
     = {| isValid := true; error := None |}.
Proof.
  assert (nonblank : forall s,
             (match trim s with [] => true | _ => false end) = false ->
             trim s <> []).
  { intros s H E. rewrite E in H. discriminate H. }
  split; [|split; [|split]].
  - apply (proj1 (proj2 validateContent_spec)).
    + apply nonblank. vm_compute. reflexivity.
    + vm_compute. reflexivity.
  - apply (proj1 validateContent_spec). vm_compute. reflexivity.
  - apply (proj1 (proj2 (proj2 validateContent_spec))).
    + apply nonblank. vm_compute. reflexivity.
    + vm_compute. reflexivity.
  - apply (proj1 (proj2 (proj2 (proj2 validateContent_spec)))).
    + apply nonblank. vm_compute. reflexivity.
    + vm_compute. split; discriminate.
Defined.

(** A string of 100001 spaces is longer than 100000 code units and is
    rejected as empty, not as too long. *)
Lemma validateContent_long_blank :
  ~ (forall content,
        JS.length content > 100000 ->
        error (validateContent content) = Some ContentTooLongError).
Proof.
  intros H. specialize (H (JS.repeat 32 100001)).
  assert (Hlen : JS.length (JS.repeat 32 100001) > 100000)
    by (vm_compute; reflexivity).
  specialize (H Hlen). vm_compute in H. discriminate H.
Qed.

End ValidatorSpec.

(* ================================================================== *)
(** * 15. The response parser                                      *)
(* ================================================================== *)

Module GeminiFacts.

Import GeminiAnalysisService.
Local Open Scope N_scope.

(** *** The regular expression *)

Lemma dropWhile_skip p pre c r :
  (forall x, In x pre -> p x = true) -> p c = false ->
  dropWhile p (pre ++ c :: r) = c :: r.
Proof.
  intros Hpre Hc. induction pre as [|x pre IH]; simpl.
  - rewrite Hc. reflexivity.
  - rewrite (Hpre x) by (left; reflexivity).
    apply IH. intros y Hy. apply Hpre. right. exact Hy.
Qed.

Lemma dropWhile_split p s c r :
  dropWhile p s = c :: r -> exists pre, s = pre ++ c :: r /\ p c = false.
Proof.
  induction s as [|x s IH]; simpl; [discriminate|].
  destruct (p x) eqn:Hx.
  - intros H. destruct (IH H) as [pre [-> Hc]].
    exists (x :: pre). split; [reflexivity | exact Hc].
  - intros H. injection H as -> ->. exists []. split; [reflexivity | exact Hx].
Qed.

(** The leftmost occurrence is at or before any given one. *)
Lemma dropWhile_first c pre tail :
  exists u, dropWhile (fun x => negb (x =? c)) (pre ++ c :: tail)
            = c :: u ++ tail.
Proof.
  induction pre as [|x pre [u IH]]; simpl.
  - rewrite N.eqb_refl. exists []. reflexivity.
  - destruct (x =? c) eqn:Hx; simpl.
    + apply N.eqb_eq in Hx. subst x.
      exists (pre ++ [c]). rewrite <- app_assoc. reflexivity.
    + exists u. exact IH.
Qed.

Lemma upToLast_nil c s : upToLast c s = [] <-> ~ In c s.
Proof.
  induction s as [|x s IH]; simpl; [tauto|].
  destruct (upToLast c s) as [|y t].
  - destruct (x =? c) eqn:Hx.
    + apply N.eqb_eq in Hx. split; [discriminate | intros H; elim H; auto].
    + apply N.eqb_neq in Hx. split; [|reflexivity].
      intros _ [H|H]; [congruence | apply (proj1 IH); [reflexivity|exact H]].
  - split; [discriminate|]. intros H. exfalso.
    assert (Hs : ~ In c s) by (intros Hin; apply H; right; exact Hin).
    apply IH in Hs. discriminate Hs.
Qed.

Lemma upToLast_app c mid post :
  ~ In c post -> upToLast c (mid ++ c :: post) = mid ++ [c].
Proof.
  intros Hpost. induction mid as [|x mid IH]; simpl.
  - apply upToLast_nil in Hpost. rewrite Hpost, N.eqb_refl. reflexivity.
  - rewrite IH. destruct mid; reflexivity.
Qed.

(** The match on a text whose first opening brace starts an object and
    whose last closing brace ends it. *)
Lemma matchJsonObject_embedded pre mid post :
  ~ In 123 pre -> ~ In 125 post ->
  matchJsonObject (pre ++ str "{" ++ mid ++ str "}" ++ post)
  = Some (str "{" ++ mid ++ str "}").
Proof.
  intros Hpre Hpost. unfold matchJsonObject.
  change (str "{" ++ mid ++ str "}" ++ post) with (123 :: mid ++ 125 :: post).
  rewrite dropWhile_skip.
  - rewrite upToLast_app by exact Hpost.
    change (str "{" ++ mid ++ str "}") with (123 :: mid ++ [125]).
    destruct (mid ++ [125]) eqn:E; [|reflexivity].
    destruct mid; discriminate E.
  - intros x Hx. apply negb_true_iff, N.eqb_neq. intros ->. exact (Hpre Hx).
  - reflexivity.
Qed.

(** No match exactly when no opening brace is followed by a closing one. *)
Lemma matchJsonObject_none text :
  matchJsonObject text = None
  <-> ~ exists pre mid post, text = pre ++ str "{" ++ mid ++ str "}" ++ post.
Proof.
  unfold matchJsonObject. split.
  - intros H [pre [mid [post ->]]].
    change (str "{" ++ mid ++ str "}" ++ post)
      with (123 :: mid ++ 125 :: post) in H.
    destruct (dropWhile_first 123 pre (mid ++ 125 :: post)) as [u Hu].
    rewrite Hu in H.
    destruct (upToLast 125 (u ++ mid ++ 125 :: post)) eqn:E;
      [|discriminate H].
    apply upToLast_nil in E. apply E.
    apply in_or_app. right. apply in_or_app. right. left. reflexivity.
  - intros H.
    destruct (dropWhile _ text) as [|c rest] eqn:E; [reflexivity|].
    destruct (upToLast 125 rest) as [|y t] eqn:Eu; [reflexivity|].
    exfalso. apply H.
    apply dropWhile_split in E. destruct E as [pre [-> Hc]].
    apply negb_false_iff, N.eqb_eq in Hc. subst c.
    assert (Hin : In 125 rest).
    { destruct (in_dec N.eq_dec 125 rest) as [Hin|Hin]; [exact Hin|].
      apply upToLast_nil in Hin. rewrite Hin in Eu. discriminate Eu. }
    apply in_split in Hin. destruct Hin as [mid [post ->]].
    exists pre, mid, post. reflexivity.
Qed.

(** *** Property access and defaulting *)

Lemma getOpt_prop k name : getOpt k name = Ok (prop k name).
Proof. destruct k; reflexivity. Qed.




Lemma structure_cases parsed :
  (structure parsed = Throw TypeError
   /\ (parsed = VUndefined \/ parsed = VNull))
  \/ (structure parsed = Ok (structured parsed)
      /\ parsed <> VUndefined /\ parsed <> VNull).
Proof.
  destruct parsed; try (left; split; [reflexivity | auto]);
    right; (split; [|split; discriminate]);
    unfold structure, kpi, get, bind; rewrite ?getOpt_prop; reflexivity.
Qed.

(** What the regular expression extracts starts with an opening brace. *)
Lemma matchJsonObject_brace text jsonStr :
  matchJsonObject text = Some jsonStr -> exists body, jsonStr = 123 :: body.
Proof.
  unfold matchJsonObject.
  destruct (dropWhile _ text) as [|c rest] eqn:E; [discriminate|].
  apply dropWhile_split in E. destruct E as [pre [_ Hc]].
  apply negb_false_iff, N.eqb_eq in Hc. subst c.
  destruct (upToLast 125 rest); [discriminate|].
  intros H. injection H as <-. eexists. reflexivity.
Qed.

(** So what [JSON.parse] makes of it is an object, and the property
    accesses of the [return] statement never throw. *)
Lemma parsed_is_object text jsonStr parsed :
  matchJsonObject text = Some jsonStr ->
  JSON.parse jsonStr = Some parsed ->
  exists props, parsed = VObj props.
Proof.
  intros Hm Hp. apply matchJsonObject_brace in Hm. destruct Hm as [body ->].
  exact (@JSONFacts.parse_brace_object body parsed Hp).
Qed.

Lemma parseAnalysisResponse_structured text jsonStr parsed :
  matchJsonObject text = Some jsonStr ->
  JSON.parse jsonStr = Some parsed ->
  parseAnalysisResponse text = structured parsed.
Proof.
  intros Hm Hp.
  destruct (@parsed_is_object text jsonStr parsed Hm Hp) as [props ->].
  unfold parseAnalysisResponse, tryParse, jsonParse.
  rewrite Hm. cbn [bind]. rewrite Hp. cbn [bind].
  destruct (structure_cases (VObj props)) as [[_ [H|H]]|[-> _]];
    [discriminate H | discriminate H | reflexivity].
Qed.

(** The only exceptions of the [try] block: no match, or a SyntaxError. *)
Lemma tryParse_throws text e :
  tryParse text = Throw e ->
  (matchJsonObject text = None
   /\ e = Error (str "No JSON found in response"))
  \/ (exists jsonStr,
        matchJsonObject text = Some jsonStr
        /\ JSON.parse jsonStr = None /\ e = SyntaxError).
Proof.
  unfold tryParse, jsonParse.
  destruct (matchJsonObject text) as [jsonStr|] eqn:Hm; cbn [bind].
  - destruct (JSON.parse jsonStr) as [parsed|] eqn:Hp; cbn [bind].
    + destruct (@parsed_is_object text jsonStr parsed Hm Hp) as [props ->].
      destruct (structure_cases (VObj props)) as [[_ [H|H]]|[-> _]];
        discriminate.
    + intros H. injection H as <-. right. exists jsonStr. auto.
  - intros H. injection H as <-. left. auto.
Qed.




End GeminiFacts.

Module GeminiSpec.

Import GeminiAnalysisService GeminiFacts.
Local Open Scope N_scope.

(** C1.  The response parser never propagates an error.  Whenever the
    response holds no opening brace followed by a closing brace, or the
    extracted substring does not parse as JSON, or anything else is thrown
    inside the try block, parseAnalysisResponse returns the fixed fallback
    result: the apology as summary, "N/A" in each of the 10 KPI fields,
    and the one-element advisory list as risks, opportunities and
    recommendations.  On every response the result is that fallback or the
    object structured from the parsed JSON. *)
Theorem parseAnalysisResponse_fallback :
  (forall text,
      (~ exists pre mid post,
           text = pre ++ str "{" ++ mid ++ str "}" ++ post) ->
      parseAnalysisResponse text = fallback)
  /\ (forall text jsonStr,
        matchJsonObject text = Some jsonStr ->
        JSON.parse jsonStr = None ->
        parseAnalysisResponse text = fallback)
  /\ (forall text e,
        tryParse text = Throw e ->
        parseAnalysisResponse text = fallback
        /\ (e = Error (str "No JSON found in response") \/ e = SyntaxError))
  /\ (forall text,
        parseAnalysisResponse text = fallback
        \/ exists r, tryParse text = Ok r /\ parseAnalysisResponse text = r)
  /\ AnalysisResult.summary fallback
     = VStr (str "Unable to generate detailed analysis. Please try again or contact support.")
  /\ AnalysisResult.kpis fallback
     = {| ParsedKPIs.revenue := VStr (str "N/A");
          ParsedKPIs.expenses := VStr (str "N/A");
          ParsedKPIs.netProfit := VStr (str "N/A");
          ParsedKPIs.growthRate := VStr (str "N/A");
          ParsedKPIs.totalAssets := VStr (str "N/A");
          ParsedKPIs.totalLiabilities := VStr (str "N/A");
          ParsedKPIs.cashFlow := VStr (str "N/A");
          ParsedKPIs.debtToEquityRatio := VStr (str "N/A");
          ParsedKPIs.returnOnInvestment := VStr (str "N/A");
          ParsedKPIs.profitMargin := VStr (str "N/A") |}
  /\ AnalysisResult.risks fallback
     = VArr [VStr (str "Analysis unavailable - please review the report manually")]
  /\ AnalysisResult.opportunities fallback
     = VArr [VStr (str "Analysis unavailable - please review the report manually")]
  /\ AnalysisResult.recommendations fallback
     = VArr [VStr (str "Analysis unavailable - please review the report manually")].
Proof.
  split; [|split; [|split; [|split]]].
  - intros text H. apply matchJsonObject_none in H.
    unfold parseAnalysisResponse, tryParse. rewrite H. reflexivity.
  - intros text jsonStr Hm Hp.
    unfold parseAnalysisResponse, tryParse, jsonParse.
    rewrite Hm. cbn [bind]. rewrite Hp. reflexivity.
  - intros text e H. split.
    + unfold parseAnalysisResponse. rewrite H. reflexivity.
    + destruct (tryParse_throws _ H) as [[_ He]|[jsonStr [_ [_ He]]]]; auto.
  - intros text. unfold parseAnalysisResponse.
    destruct (tryParse text) as [r|e]; [right; exists r; auto | left; auto].
  - split; [reflexivity|]. split; [reflexivity|].
    split; [reflexivity|]. split; reflexivity.
Qed.

Lemma parseAnalysisResponse_fallback_witness :
  parseAnalysisResponse (str "I cannot analyse this report.") = fallback
  /\ parseAnalysisResponse (strq "{'summary': 'cut off") = fallback
  /\ parseAnalysisResponse (strq "{'summary': 'S',}") = fallback.
Proof.
  split; [|split].
  - apply (proj1 (proj2 (proj2 parseAnalysisResponse_fallback))
             _ (Error (str "No JSON found in response"))).
    vm_compute. reflexivity.
  - apply (proj1 parseAnalysisResponse_fallback).
    apply matchJsonObject_none. vm_compute. reflexivity.
  - apply (proj1 (proj2 parseAnalysisResponse_fallback)
             _ (strq "{'summary': 'S',}")); vm_compute; reflexivity.
Defined.




(** The supplied KPI values are kept when they are non-empty strings. *)
Lemma supplied_kpi_kept k vals name proj :
  suppliesKPIs k vals ->
  In (name, proj) kpiFields ->
  or (prop k name) NA = proj vals.
Proof.
  intros Hs Hin. destruct (Hs name proj Hin) as [Hp [s [Hv Hne]]].
  rewrite Hp, Hv. destruct s; [congruence | reflexivity].
Qed.

(** The response of [Samples.responseWithBracedNote] embeds the valid
    object [Samples.json], which alone parses to summary "S", and is
    answered with the fallback; an empty KPI string is replaced by
    "N/A". *)
Lemma parseAnalysisResponse_not_round_trip :
  AnalysisResult.summary (parseAnalysisResponse Samples.json)
  = VStr (str "S")
  /\ AnalysisResult.summary
       (parseAnalysisResponse Samples.responseWithBracedNote)
     <> VStr (str "S")
  /\ prop (prop (match JSON.parse Samples.jsonEmptyExpenses with
                 | Some v => v
                 | None => VNull
                 end) (str "kpis")) (str "expenses") = VStr []
  /\ ParsedKPIs.expenses
       (AnalysisResult.kpis
          (parseAnalysisResponse Samples.jsonEmptyExpenses))
     = VStr (str "N/A").
Proof.
  split; [vm_compute; reflexivity|].
  split; [vm_compute; discriminate|].
  split; vm_compute; reflexivity.
Qed.

(** C5, as the code has it.  Round trip: let a response consist of text
    without an opening brace, then a JSON object, then text without a
    closing brace.  If the object parses and holds summary "S", a kpis
    object with a non-empty string under each of the 10 KPI names, risks
    ["a"], opportunities [] and recommendations ["b"], the parser returns
    summary "S", every KPI string verbatim, risks ["a"], opportunities []
    (kept, not defaulted) and recommendations ["b"]. *)
Theorem parseAnalysisResponse_round_trip
        (pre mid post : jsstring) (parsed : value) (vals : ParsedKPIs.t) :
  ~ In (code "{") pre ->
  ~ In (code "}") post ->
  JSON.parse (str "{" ++ mid ++ str "}") = Some parsed ->
  prop parsed (str "summary") = VStr (str "S") ->
  suppliesKPIs (prop parsed (str "kpis")) vals ->
  prop parsed (str "risks") = VArr [VStr (str "a")] ->
  prop parsed (str "opportunities") = VArr [] ->
  prop parsed (str "recommendations") = VArr [VStr (str "b")] ->
  parseAnalysisResponse (pre ++ str "{" ++ mid ++ str "}" ++ post)
  = {| AnalysisResult.summary := VStr (str "S");
       AnalysisResult.kpis := vals;
       AnalysisResult.risks := VArr [VStr (str "a")];
       AnalysisResult.opportunities := VArr [];
       AnalysisResult.recommendations := VArr [VStr (str "b")] |}.
Proof.
  intros Hpre Hpost Hparse Hsum Hk Hr Ho Hrec.
  rewrite (@parseAnalysisResponse_structured _
             (str "{" ++ mid ++ str "}") parsed).
  - unfold structured. cbv zeta. rewrite Hsum, Hr, Ho, Hrec.
    cbn [arrayOrEmpty].
    change (or (VStr (str "S")) (VStr (str "Analysis summary not available")))
      with (VStr (str "S")).
    f_equal.
    assert (Hf : forall name proj,
               In (name, proj) kpiFields ->
               or (prop (prop parsed (str "kpis")) name) NA = proj vals)
      by (intros name proj Hin; exact (supplied_kpi_kept Hk Hin)).
    rewrite (Hf (str "revenue") ParsedKPIs.revenue),
      (Hf (str "expenses") ParsedKPIs.expenses),
      (Hf (str "netProfit") ParsedKPIs.netProfit),
      (Hf (str "growthRate") ParsedKPIs.growthRate),
      (Hf (str "totalAssets") ParsedKPIs.totalAssets),
      (Hf (str "totalLiabilities") ParsedKPIs.totalLiabilities),
      (Hf (str "cashFlow") ParsedKPIs.cashFlow),
      (Hf (str "debtToEquityRatio") ParsedKPIs.debtToEquityRatio),
      (Hf (str "returnOnInvestment") ParsedKPIs.returnOnInvestment),
      (Hf (str "profitMargin") ParsedKPIs.profitMargin)
      by (unfold kpiFields; cbn [In]; tauto).
    destruct vals; reflexivity.
  - apply matchJsonObject_embedded; assumption.
  - exact Hparse.
Qed.

Lemma parseAnalysisResponse_round_trip_witness :
  parseAnalysisResponse Samples.response
  = {| AnalysisResult.summary := VStr (str "S");
       AnalysisResult.kpis := Samples.jsonKPIs;
       AnalysisResult.risks := VArr [VStr (str "a")];
       AnalysisResult.opportunities := VArr [];
       AnalysisResult.recommendations := VArr [VStr (str "b")] |}.
Proof.
  apply (@parseAnalysisResponse_round_trip
           (str "Here is the analysis: ") Samples.jsonBody
           (str " Hope this helps.")
           (match JSON.parse Samples.json with
            | Some v => v
            | None => VNull
            end)).
  - vm_compute. intuition discriminate.
  - vm_compute. intuition discriminate.
  - vm_compute. reflexivity.
  - vm_compute. reflexivity.
  - intros name proj H. unfold kpiFields in H.
    repeat (destruct H as [H|H];
            [injection H as <- <-;
             split; [vm_compute; reflexivity
                    | eexists; split; [reflexivity | discriminate]]|]).
    destruct H.
  - vm_compute. reflexivity.
  - vm_compute. reflexivity.
  - vm_compute. reflexivity.
Defined.

End GeminiSpec.

(* ================================================================== *)
(** * 16. The CSV extractor                                        *)
(* ================================================================== *)

Module FileParsingSpec.

Import FileParsingService.
Local Open Scope nat_scope.

Lemma nonBlankLines_nonblank content :
  Forall (fun line => trim line <> []) (nonBlankLines content).
Proof.
  unfold nonBlankLines. apply Forall_forall. intros line H.
  apply filter_In in H. destruct H as [_ H].
  destruct (trim line); [discriminate H | discriminate].
Qed.

Lemma rowText_nonblank i line :
  trim line <> [] ->
  rowText i line
  = [str "Row " ++ showZ (Z.of_nat i + 1) ++ str ": " ++ trim line ++ [10%N]].
Proof.
  unfold rowText. intros H. destruct (trim line); [congruence | reflexivity].
Qed.

(** On non-blank lines the loop appends one row per line visited. *)
Lemma rowLoop_length i maxRows lines :
  Forall (fun line => trim line <> []) lines ->
  List.length (rowLoop i maxRows lines)
  = Nat.min (maxRows - i) (List.length lines).
Proof.
  intros H. revert i. induction H as [|line rest Hl _ IH]; intros i.
  - simpl. rewrite Nat.min_0_r. reflexivity.
  - cbn [rowLoop]. destruct (i <? maxRows) eqn:E.
    + apply Nat.ltb_lt in E. rewrite (@rowText_nonblank i line Hl).
      cbn [app List.length]. rewrite IH. lia.
    + apply Nat.ltb_ge in E. cbn [List.length].
      replace (maxRows - i) with 0 by lia. reflexivity.
Qed.

(** The extracted text of a file with a header line and N data rows: the
    first row appended is the header line, as "Row 1", and there are
    min(100, N + 1) rows in all; the truncation notice is appended as soon
    as N + 1 exceeds 100. *)
Lemma parseCSV_rows content name header data :
  nonBlankLines content = header :: data ->
  let rows :=
    rowLoop 0 (Nat.min 100 (S (List.length data))) (header :: data) in
  text (parseCSV content name)
  = preamble name (header :: data) ++ List.concat rows
             ++ notice (header :: data)
  /\ List.length rows = Nat.min 100 (S (List.length data))
  /\ hd [] rows = str "Row 1: " ++ trim header ++ [10%N]
  /\ (notice (header :: data) <> [] <-> 100 <= List.length data).
Proof.
  intros Hlines. cbv zeta.
  pose proof (nonBlankLines_nonblank content) as Hnb. rewrite Hlines in Hnb.
  split; [|split; [|split]].
  - unfold parseCSV. cbv zeta. rewrite Hlines. cbn [text List.length].
    rewrite <- app_assoc. reflexivity.
  - rewrite (@rowLoop_length 0 _ _ Hnb). cbn [List.length]. lia.
  - inversion Hnb as [|? ? Hh _]; subst.
    cbn [rowLoop]. change (0 <? Nat.min 100 (S (List.length data))) with true.
    cbv iota. rewrite (@rowText_nonblank 0 header Hh). reflexivity.
  - unfold notice. cbn [List.length].
    destruct (100 <? S (List.length data)) eqn:E.
    + apply Nat.ltb_lt in E. split; [lia | discriminate].
    + apply Nat.ltb_ge in E. split; [congruence | lia].
Qed.

(** C4 on the code.  For a header line and one data row the extracted text
    has two lines that begin "Row k:", the header being the first; for a
    header line and 100 data rows it has 100 such lines, the last one
    holding data row 99, and it carries the truncation notice. *)
Theorem parseCSV_header_counted_as_row :
  rowLines (text (parseCSV Samples.csv (str "report.csv")))
  = [str "Row 1: a,b"; str "Row 2: 1,2"]
  /\ List.length
       (rowLines (text (parseCSV Samples.csv100 (str "report.csv"))))
     = 100
  /\ hd [] (rowLines (text (parseCSV Samples.csv100 (str "report.csv"))))
     = str "Row 1: id"
  /\ last (rowLines (text (parseCSV Samples.csv100 (str "report.csv")))) []
     = str "Row 100: 99"
  /\ In (str "... and 1 more rows")
        (split 10 (text (parseCSV Samples.csv100 (str "report.csv")))).
Proof.
  split; [vm_compute; reflexivity|].
  split; [vm_compute; reflexivity|].
  split; [vm_compute; reflexivity|].
  split; [vm_compute; reflexivity|].
  vm_compute. tauto.
Qed.

End FileParsingSpec.

(* ================================================================== *)
(** * 17. Authentication helpers and the rate limiter                  *)
(* ================================================================== *)

Module AuthFacts.

Import Auth JSFacts.
Local Open Scope Z_scope.

Lemma isPrefix_self_app p t : isPrefix p (p ++ t) = true.
Proof.
  induction p as [|a p IH]; [reflexivity|]. simpl.
  rewrite N.eqb_refl, IH. reflexivity.
Qed.

Lemma skipn_self_app (p t : list N) : skipn (List.length p) (p ++ t) = t.
Proof. induction p as [|a p IH]; [reflexivity | exact IH]. Qed.

Lemma isPrefix_split p s :
  isPrefix p s = true -> s = p ++ skipn (List.length p) s.
Proof.
  revert s. induction p as [|a p IH]; intros [|b s]; simpl;
    try reflexivity; try discriminate.
  rewrite andb_true_iff, N.eqb_eq. intros [-> H].
  f_equal. apply IH, H.
Qed.

Lemma replaceFirst_prefix p rep s :
  isPrefix p s = true ->
  JSStrings.replaceFirst p rep s = rep ++ skipn (List.length p) s.
Proof. intros H. destruct s; simpl; rewrite H; reflexivity. Qed.

(** *** The map *)

Lemma get_set_same k v m : get k (set k v m) = Some v.
Proof.
  induction m as [|[k' v'] m IH]; simpl.
  - rewrite eqb_refl. reflexivity.
  - destruct (JS.eqb k k') eqn:E; simpl.
    + rewrite eqb_refl. reflexivity.
    + rewrite E. exact IH.
Qed.

Lemma get_set_other k k' v m : k' <> k -> get k' (set k v m) = get k' m.
Proof.
  intros Hne. induction m as [|[k0 v0] m IH]; simpl.
  - apply eqb_neq in Hne. rewrite Hne. reflexivity.
  - destruct (JS.eqb k k0) eqn:E; simpl.
    + apply eqb_eq in E. subst k0.
      apply eqb_neq in Hne. rewrite Hne. reflexivity.
    + rewrite IH. reflexivity.
Qed.

Lemma keys_set k v m x :
  In x (map fst (set k v m)) <-> x = k \/ In x (map fst m).
Proof.
  induction m as [|[k0 v0] m IH]; simpl.
  - intuition auto.
  - destruct (JS.eqb k k0) eqn:E; simpl.
    + apply eqb_eq in E. subst k0. intuition auto.
    + rewrite IH. intuition auto.
Qed.

Lemma uniqueKeys_set k v m : uniqueKeys m -> uniqueKeys (set k v m).
Proof.
  unfold uniqueKeys. induction m as [|[k0 v0] m IH]; simpl; intros H.
  - constructor; [intros [] | constructor].
  - inversion H as [|? ? Hnin Hnd]; subst.
    destruct (JS.eqb k k0) eqn:E; simpl.
    + apply eqb_eq in E. subst k0. constructor; assumption.
    + constructor; [|apply IH, Hnd].
      rewrite keys_set. intros [->|Hin]; [|exact (Hnin Hin)].
      rewrite eqb_refl in E. discriminate E.
Qed.

Lemma get_absent k m : ~ In k (map fst m) -> get k m = None.
Proof.
  induction m as [|[k0 v0] m IH]; simpl; intros H; [reflexivity|].
  destruct (JS.eqb k k0) eqn:E.
  - apply eqb_eq in E. subst k0. elim H. left. reflexivity.
  - apply IH. intros Hin. apply H. right. exact Hin.
Qed.

(** *** The cleanup loop *)

Lemma filter_all (A : Type) (f : A -> bool) (l : list A) :
  (forall x, In x l -> f x = true) -> filter f l = l.
Proof.
  induction l as [|x l IH]; intros H; [reflexivity|]. simpl.
  rewrite (H x) by (left; reflexivity). f_equal.
  apply IH. intros y Hy. apply H. right. exact Hy.
Qed.

Lemma filter_twice (A : Type) (f g : A -> bool) (l : list A) :
  filter g (filter f l) = filter (fun x => f x && g x) l.
Proof.
  induction l as [|x l IH]; [reflexivity|]. simpl.
  destruct (f x); simpl; [destruct (g x)|]; rewrite IH; reflexivity.
Qed.

Lemma uniqueKeys_filter f (m : Store) :
  uniqueKeys m -> uniqueKeys (filter f m).
Proof.
  unfold uniqueKeys. induction m as [|[k v] m IH]; simpl; intros H.
  - constructor.
  - inversion H as [|? ? Hnin Hnd]; subst.
    destruct (f (k, v)); simpl; [|apply IH, Hnd].
    constructor; [|apply IH, Hnd].
    intros Hin. apply Hnin. apply in_map_iff in Hin.
    destruct Hin as [kv [E Hin]]. apply filter_In in Hin.
    apply in_map_iff. exists kv. tauto.
Qed.

(** On a map with one entry per key, deleting a key removes the entries
    with that key. *)
Lemma delete_filter k (m : Store) :
  uniqueKeys m ->
  delete k m = filter (fun kv => negb (JS.eqb k (fst kv))) m.
Proof.
  unfold uniqueKeys. induction m as [|[k' v] m IH]; simpl; intros H;
    [reflexivity|].
  inversion H as [|? ? Hnin Hnd]; subst.
  destruct (JS.eqb k k') eqn:E; simpl.
  - apply eqb_eq in E. subst k'. symmetry. apply filter_all.
    intros [k2 v2] Hin. cbn [fst]. apply negb_true_iff, eqb_neq.
    intros ->. apply Hnin. apply in_map_iff. exists (k2, v2). auto.
  - rewrite IH by exact Hnd. reflexivity.
Qed.

(** The loop removes the entries whose key is that of an expired entry
    visited. *)
Lemma cleanup_loop now (entries : Store) :
  forall m,
    uniqueKeys m ->
    fold_left
      (fun m entry =>
         let '(key, record) := entry in
         if now >? RateRecord.resetTime record then delete key m else m)
      entries m
    = filter
        (fun kv =>
           negb (existsb
                   (fun e => (now >? RateRecord.resetTime (snd e))
                             && JS.eqb (fst e) (fst kv))
                   entries))
        m.
Proof.
  induction entries as [|[k r] entries IH]; intros m Hu.
  - cbn. symmetry. apply filter_all. reflexivity.
  - cbn [fold_left existsb fst snd].
    destruct (now >? RateRecord.resetTime r) eqn:E.
    + rewrite IH by (rewrite delete_filter by exact Hu;
                     apply uniqueKeys_filter, Hu).
      rewrite delete_filter by exact Hu. rewrite filter_twice.
      apply filter_ext. intros kv. cbn [andb]. rewrite negb_orb.
      reflexivity.
    + rewrite IH by exact Hu. reflexivity.
Qed.

(** On a map with one entry per key the cleanup keeps exactly the entries
    that have not expired. *)
Lemma cleanup_filter now m :
  uniqueKeys m ->
  cleanupRateLimitRecords now m
  = filter (fun kv => negb (now >? RateRecord.resetTime (snd kv))) m.
Proof.
  intros Hu. unfold cleanupRateLimitRecords.
  rewrite cleanup_loop by exact Hu.
  apply filter_ext_in. intros [k r] Hin. cbn [fst snd]. f_equal.
  destruct (now >? RateRecord.resetTime r) eqn:E.
  - apply existsb_exists. exists (k, r). cbn [fst snd].
    rewrite E, eqb_refl. auto.
  - destruct (existsb _ m) eqn:Ex; [|reflexivity].
    apply existsb_exists in Ex. destruct Ex as [[k' r'] [Hin' H]].
    cbn [fst snd] in H. apply andb_true_iff in H. destruct H as [He Hk].
    apply eqb_eq in Hk. subst k'.
    assert (r' = r); [|subst r'; rewrite E in He; discriminate He].
    clear E He. unfold uniqueKeys in Hu.
    induction m as [|[k0 r0] m IH]; [destruct Hin|].
    inversion Hu as [|? ? Hnin Hnd]; subst. cbn [map fst] in Hnin.
    destruct Hin as [Hin|Hin], Hin' as [Hin'|Hin'].
    + congruence.
    + injection Hin as -> ->. elim Hnin. apply in_map_iff.
      exists (k, r'). auto.
    + injection Hin' as -> ->. elim Hnin. apply in_map_iff.
      exists (k, r). auto.
    + exact (IH Hnd Hin Hin').
Qed.

Lemma uniqueKeys_cleanup now m :
  uniqueKeys m -> uniqueKeys (cleanupRateLimitRecords now m).
Proof.
  intros Hu. rewrite cleanup_filter by exact Hu.
  apply uniqueKeys_filter, Hu.
Qed.

(** Cleaning removes exactly the expired records. *)
Lemma get_cleanup now k m :
  uniqueKeys m ->
  get k (cleanupRateLimitRecords now m)
  = match get k m with
    | Some r => if now >? RateRecord.resetTime r then None else Some r
    | None => None
    end.
Proof.
  intros Hu. rewrite cleanup_filter by exact Hu. revert Hu.
  unfold uniqueKeys. induction m as [|[k0 v0] m IH]; simpl; intros H;
    [reflexivity|].
  inversion H as [|? ? Hnin Hnd]; subst.
  destruct (JS.eqb k k0) eqn:E.
  - apply eqb_eq in E. subst k0.
    destruct (now >? RateRecord.resetTime v0); cbn [negb].
    + apply get_absent. intros Hin. apply Hnin.
      apply in_map_iff in Hin. destruct Hin as [kv [Ek Hin]].
      apply filter_In in Hin. apply in_map_iff. exists kv. tauto.
    + simpl. rewrite eqb_refl. reflexivity.
  - destruct (negb _); simpl; [rewrite E|]; apply IH, Hnd.
Qed.

(** *** One call *)

(** A call leaves the records of the other identifiers alone. *)
Lemma checkRateLimit_frame id max w now m k :
  k <> id -> get k (snd (checkRateLimit id max w now m)) = get k m.
Proof.
  intros Hne. unfold checkRateLimit.
  destruct (get id m) as [r|]; cbv zeta.
  - destruct (now >? _); [apply get_set_other, Hne|].
    destruct (_ >=? max); [reflexivity | apply get_set_other, Hne].
  - apply get_set_other, Hne.
Qed.

(** The answer, and the record left for the identifier, depend on the map
    only through the record found for the identifier, and an expired record
    counts as none. *)
Lemma checkRateLimit_same id max w now m1 m2 :
  get id m1 = get id m2
  \/ (get id m1 = None
      /\ exists r, get id m2 = Some r /\ RateRecord.resetTime r < now) ->
  fst (checkRateLimit id max w now m1) = fst (checkRateLimit id max w now m2)
  /\ get id (snd (checkRateLimit id max w now m1))
     = get id (snd (checkRateLimit id max w now m2)).
Proof.
  unfold checkRateLimit. intros [E|[E [r [E2 Hexp]]]].
  - rewrite E. destruct (get id m2) as [r|] eqn:E2; cbv zeta.
    + destruct (now >? _); cbn [fst snd];
        [rewrite !get_set_same; auto|].
      destruct (_ >=? max); cbn [fst snd];
        [split; congruence | rewrite !get_set_same; auto].
    + cbn [fst snd]. rewrite !get_set_same. auto.
  - rewrite E, E2. cbv zeta.
    assert (Hgt : (now >? RateRecord.resetTime r) = true)
      by (rewrite Z.gtb_ltb; apply Z.ltb_lt; exact Hexp).
    rewrite Hgt. cbn [fst snd]. rewrite !get_set_same. auto.
Qed.

Lemma uniqueKeys_checkRateLimit id max w now m :
  uniqueKeys m -> uniqueKeys (snd (checkRateLimit id max w now m)).
Proof.
  intros H. unfold checkRateLimit.
  destruct (get id m) as [r|]; cbv zeta.
  - destruct (now >? _); [apply uniqueKeys_set, H|].
    destruct (_ >=? max); [exact H | apply uniqueKeys_set, H].
  - apply uniqueKeys_set, H.
Qed.

Lemma fst_serve_cons c rest m :
  fst (serve (c :: rest) m)
  = fst (checkRateLimit (identifier c) (maxRequests c) (windowMs c)
                        (at_time c) m)
    :: fst (serve rest
              (snd (checkRateLimit (identifier c) (maxRequests c)
                                   (windowMs c) (at_time c) m))).
Proof.
  cbn [serve]. destruct (checkRateLimit _ _ _ _ m) as [r m'].
  cbn [fst snd]. destruct (serve rest m') as [rs m'']. reflexivity.
Qed.

(** *** Calls inside one window *)

Lemma serve_window id max w ts :
  forall m c T,
    get id m = Some {| RateRecord.count := c; RateRecord.resetTime := T |} ->
    (forall t, In t ts -> t <= T) ->
    forall j r,
      nth_error (fst (serve (requestsAt id max w ts) m)) j = Some r ->
      RateLimit.allowed r = (c + Z.of_nat j <? max)
      /\ RateLimit.remaining r
         = (if c + Z.of_nat j <? max then max - (c + Z.of_nat j + 1) else 0)
      /\ RateLimit.resetTime r = T.
Proof.
  induction ts as [|t ts IH]; intros m c T Hget Hts j r Hnth.
  - destruct j; discriminate Hnth.
  - unfold requestsAt in Hnth. cbn [map] in Hnth.
    rewrite fst_serve_cons in Hnth.
    cbn [identifier maxRequests windowMs at_time] in Hnth.
    assert (Ht : (t >? T) = false)
      by (rewrite Z.gtb_ltb; apply Z.ltb_ge, Hts; left; reflexivity).
    assert (Hts' : forall t', In t' ts -> t' <= T)
      by (intros t' Hin; apply Hts; right; exact Hin).
    unfold checkRateLimit in Hnth. rewrite Hget in Hnth. cbv zeta in Hnth.
    cbn [RateRecord.resetTime RateRecord.count] in Hnth.
    rewrite Ht in Hnth.
    destruct (c >=? max) eqn:Hc; cbn [fst snd] in Hnth.
    + assert (Hge : max <= c) by (apply Z.geb_le in Hc; lia).
      destruct j as [|j]; cbn [nth_error] in Hnth.
      * injection Hnth as <-. cbn.
        assert (E : (c + 0 <? max) = false) by (apply Z.ltb_ge; lia).
        rewrite E. auto.
      * destruct (IH m c T Hget Hts' j r Hnth) as [Ha [Hr HT]].
        assert (E1 : (c + Z.of_nat j <? max) = false)
          by (apply Z.ltb_ge; lia).
        assert (E2 : (c + Z.of_nat (S j) <? max) = false)
          by (apply Z.ltb_ge; lia).
        rewrite E1 in Ha, Hr. rewrite E2. auto.
    + assert (Hlt : c < max) by (rewrite Z.geb_leb in Hc;
                                  apply Z.leb_gt in Hc; lia).
      destruct j as [|j]; cbn [nth_error] in Hnth.
      * injection Hnth as <-. cbn.
        assert (E : (c + 0 <? max) = true) by (apply Z.ltb_lt; lia).
        rewrite E. repeat split; lia.
      * assert (Hget' :
          get id (set id {| RateRecord.count := c + 1;
                            RateRecord.resetTime := T |} m)
          = Some {| RateRecord.count := c + 1;
                    RateRecord.resetTime := T |})
          by apply get_set_same.
        destruct (IH _ (c + 1) T Hget' Hts' j r Hnth) as [Ha [Hr HT]].
        replace (c + Z.of_nat (S j)) with (c + 1 + Z.of_nat j) by lia.
        auto.
Qed.

Ltac decide_comparisons :=
  repeat match goal with
         | H : context [(?a =? ?b)%Z] |- _ => destruct (Z.eqb_spec a b)
         | H : context [(?a <? ?b)%Z] |- _ => destruct (Z.ltb_spec a b)
         | |- context [(?a =? ?b)%Z] => destruct (Z.eqb_spec a b)
         | |- context [(?a <? ?b)%Z] => destruct (Z.ltb_spec a b)
         end.

(** *** Calls at any times *)

(** With a record [(c, T0)] in place, the window that ends at [T0] has
    room for [max - c] more calls, every later window for [max], and no
    earlier window is written to again. *)
Lemma serve_bound id max w times :
  1 <= max -> 0 <= w ->
  forall m c T0,
    get id m = Some {| RateRecord.count := c; RateRecord.resetTime := T0 |} ->
    1 <= c <= max ->
    forall T,
      Z.of_nat (allowedInWindow T
                  (fst (serve (requestsAt id max w times) m)))
      <= (if T =? T0 then max - c else if T0 <? T then max else 0).
Proof.
  intros Hmax Hw.
  induction times as [|t times IH]; intros m c T0 Hget Hc T.
  - cbn. decide_comparisons; lia.
  - unfold requestsAt. cbn [map]. rewrite fst_serve_cons.
    cbn [identifier maxRequests windowMs at_time].
    unfold checkRateLimit. rewrite Hget. cbv zeta.
    cbn [RateRecord.resetTime RateRecord.count].
    rewrite Z.gtb_ltb, Z.geb_leb.
    destruct (Z.ltb_spec T0 t) as [Ht|Ht]; cbn [fst snd].
    + assert (H1 : 1 <= 1 <= max) by lia.
      pose proof (IH _ 1 (t + w) (get_set_same id _ m) H1 T) as B.
      unfold requestsAt in B.
      unfold allowedInWindow in *.
      cbn [filter RateLimit.allowed RateLimit.resetTime andb].
      destruct (Z.eqb_spec (t + w) T); cbn [List.length];
        decide_comparisons; lia.
    + destruct (Z.leb_spec max c) as [Hge|Hlt]; cbn [fst snd].
      * pose proof (IH m c T0 Hget Hc T) as B.
        unfold requestsAt in B. unfold allowedInWindow in *.
        cbn [filter RateLimit.allowed andb]. exact B.
      * assert (H1 : 1 <= c + 1 <= max) by lia.
        pose proof (IH _ (c + 1) T0 (get_set_same id _ m) H1 T) as B.
        unfold requestsAt in B.
        unfold allowedInWindow in *.
        cbn [filter RateLimit.allowed RateLimit.resetTime andb].
        destruct (Z.eqb_spec T0 T); cbn [List.length];
          decide_comparisons; lia.
Qed.

End AuthFacts.

Module RateLimitSpec.

Import Auth JSFacts AuthFacts.
Local Open Scope Z_scope.

(** X1.  A client that has no record, or whose record has expired, opens a
    window with its first call at [t0]; of the calls it makes until
    [t0 + windowMs] (inclusive), call number [j] (from 0) is allowed exactly
    when it is the first or [j < maxRequests], an allowed call reports
    [maxRequests - (j + 1)] remaining and a refused one 0, and all report
    the reset time [t0 + windowMs].  So the first call is let through
    whatever [maxRequests] is, and a call at the reset time itself still
    counts against the old window. *)
Theorem checkRateLimit_window id max w t0 ts m :
  (get id m = None
   \/ exists r0, get id m = Some r0 /\ RateRecord.resetTime r0 < t0) ->
  (forall t, In t ts -> t <= t0 + w) ->
  forall j r,
    nth_error (fst (serve (requestsAt id max w (t0 :: ts)) m)) j = Some r ->
    RateLimit.allowed r = (Nat.eqb j 0 || (Z.of_nat j <? max))
    /\ RateLimit.remaining r
       = (if RateLimit.allowed r then max - (Z.of_nat j + 1) else 0)
    /\ RateLimit.resetTime r = t0 + w.
Proof.
  intros Hfresh Hts j r Hnth.
  unfold requestsAt in Hnth. cbn [map] in Hnth.
  rewrite fst_serve_cons in Hnth.
  cbn [identifier maxRequests windowMs at_time] in Hnth.
  assert (Hfirst :
    checkRateLimit id max w t0 m
    = ({| RateLimit.allowed := true; RateLimit.remaining := max - 1;
          RateLimit.resetTime := t0 + w |},
       set id {| RateRecord.count := 1; RateRecord.resetTime := t0 + w |}
           m)).
  { unfold checkRateLimit.
    destruct Hfresh as [E|[r0 [E Hexp]]]; rewrite E; cbv zeta;
      [reflexivity|].
    assert (Hgt : (t0 >? RateRecord.resetTime r0) = true)
      by (rewrite Z.gtb_ltb; apply Z.ltb_lt; exact Hexp).
    rewrite Hgt. reflexivity. }
  rewrite Hfirst in Hnth. cbn [fst snd] in Hnth.
  destruct j as [|j]; cbn [nth_error] in Hnth.
  - injection Hnth as <-. cbn. repeat split; lia.
  - assert (Hget :
      get id (set id {| RateRecord.count := 1;
                        RateRecord.resetTime := t0 + w |} m)
      = Some {| RateRecord.count := 1; RateRecord.resetTime := t0 + w |})
      by apply get_set_same.
    destruct (@serve_window id max w ts _ 1 (t0 + w) Hget Hts j r Hnth)
      as [Ha [Hr HT]].
    replace (Z.of_nat (S j)) with (1 + Z.of_nat j) by lia.
    cbn [Nat.eqb orb]. rewrite Hr, Ha.
    destruct (1 + Z.of_nat j <? max); repeat split; try assumption; lia.
Qed.

Lemma checkRateLimit_window_witness :
  nth_error
    (fst (serve (requestsAt (str "10.0.0.1") 2 60000 [1000; 1500; 61000])
                [])) 2
  = Some {| RateLimit.allowed := false; RateLimit.remaining := 0;
            RateLimit.resetTime := 61000 |}
  /\ (RateLimit.allowed
        {| RateLimit.allowed := false; RateLimit.remaining := 0;
           RateLimit.resetTime := 61000 |}
      = (Nat.eqb 2 0 || (Z.of_nat 2 <? 2))
      /\ RateLimit.remaining
           {| RateLimit.allowed := false; RateLimit.remaining := 0;
              RateLimit.resetTime := 61000 |}
         = (if RateLimit.allowed
                 {| RateLimit.allowed := false; RateLimit.remaining := 0;
                    RateLimit.resetTime := 61000 |}
            then 2 - (Z.of_nat 2 + 1) else 0)
      /\ RateLimit.resetTime
           {| RateLimit.allowed := false; RateLimit.remaining := 0;
              RateLimit.resetTime := 61000 |}
         = 1000 + 60000).
Proof.
  split; [vm_compute; reflexivity|].
  apply (@checkRateLimit_window (str "10.0.0.1") 2 60000 1000 [1500; 61000]
                                [] ).
  - left. reflexivity.
  - intros t [<-|[<-|[]]]; lia.
  - vm_compute. reflexivity.
Defined.

(** X2.  Clients are limited independently of one another: in any series
    of calls, the answers a client gets are the answers it would get if the
    calls of all other identifiers had not been made. *)
Theorem checkRateLimit_isolation id calls m :
  answersTo id calls (fst (serve calls m))
  = fst (serve (filter (fun c => JS.eqb (identifier c) id) calls) m).
Proof.
  (* The two runs keep the same record for [id]. *)
  assert (General : forall m1 m2,
    get id m1 = get id m2 ->
    answersTo id calls (fst (serve calls m1))
    = fst (serve (filter (fun c => JS.eqb (identifier c) id) calls) m2)).
  { induction calls as [|c rest IH]; intros m1 m2 E; [reflexivity|].
    rewrite fst_serve_cons. unfold answersTo. cbn [combine filter fst].
    destruct (JS.eqb (identifier c) id) eqn:Hid.
    - apply eqb_eq in Hid. cbn [map snd]. rewrite fst_serve_cons.
      rewrite Hid.
      destruct (@checkRateLimit_same id (maxRequests c) (windowMs c)
                  (at_time c) m1 m2 (or_introl E)) as [Hf Hg].
      rewrite Hf. f_equal. apply IH. exact Hg.
    - apply IH. rewrite <- E. apply checkRateLimit_frame.
      intros ->. rewrite eqb_refl in Hid. discriminate Hid. }
  apply General. reflexivity.
Qed.

(** X3.  The hourly cleanup cannot be observed through the limiter: on a
    map with one entry per identifier (which every call and every cleanup
    preserves), the calls made from the time of a cleanup on get the same
    answers as if the cleanup had not run. *)
Theorem cleanupRateLimitRecords_unobservable now0 calls m :
  uniqueKeys m ->
  (forall c, In c calls -> now0 <= at_time c) ->
  fst (serve calls (cleanupRateLimitRecords now0 m)) = fst (serve calls m).
Proof.
  intros Hu Hc.
  (* A map and its cleaned view give the same answers from [now0] on. *)
  assert (Simulation : forall calls m1 m2,
    cleanedView now0 m1 m2 ->
    (forall c, In c calls -> now0 <= at_time c) ->
    fst (serve calls m1) = fst (serve calls m2)).
  { clear. induction calls as [|c rest IH]; intros m1 m2 Hv Hc;
      [reflexivity|].
    rewrite !fst_serve_cons.
    assert (Hnow : now0 <= at_time c) by (apply Hc; left; reflexivity).
    assert (Hsame :
      get (identifier c) m1 = get (identifier c) m2
      \/ (get (identifier c) m1 = None
          /\ exists r, get (identifier c) m2 = Some r
                       /\ RateRecord.resetTime r < at_time c)).
    { destruct (Hv (identifier c)) as [E|[E [r [E2 Hexp]]]];
        [left; exact E|].
      right. split; [exact E|]. exists r. split; [exact E2 | lia]. }
    destruct (@checkRateLimit_same (identifier c) (maxRequests c)
                (windowMs c) (at_time c) m1 m2 Hsame) as [Hf Hg].
    rewrite Hf. f_equal. apply IH.
    - intros k. destruct (list_eq_dec N.eq_dec k (identifier c)) as [->|Hne].
      + left. exact Hg.
      + rewrite !checkRateLimit_frame by exact Hne. apply Hv.
    - intros c' Hin. apply Hc. right. exact Hin. }
  apply Simulation; [|exact Hc].
  intros k. rewrite (@get_cleanup now0 k m Hu).
  destruct (get k m) as [r|] eqn:E; [|left; reflexivity].
  destruct (now0 >? RateRecord.resetTime r) eqn:Hgt; [|left; reflexivity].
  right. split; [reflexivity|]. exists r. split; [reflexivity|].
  rewrite Z.gtb_ltb in Hgt. apply Z.ltb_lt in Hgt. exact Hgt.
Qed.

Lemma cleanupRateLimitRecords_unobservable_witness :
  fst (serve (skipn 2 AuthSamples.traffic)
         (cleanupRateLimitRecords 65000
            (snd (serve (firstn 2 AuthSamples.traffic) []))))
  = fst (serve (skipn 2 AuthSamples.traffic)
           (snd (serve (firstn 2 AuthSamples.traffic) []))).
Proof.
  apply (@cleanupRateLimitRecords_unobservable 65000
           (skipn 2 AuthSamples.traffic)
           (snd (serve (firstn 2 AuthSamples.traffic) []))).
  - vm_compute. repeat constructor; cbn; intuition discriminate.
  - intros c [<-|[]]. vm_compute. discriminate.
Defined.

(** X4.  The limit holds for calls at any times: from the first call of
    a client on, with a limit of at least 1 and a window length that is not
    negative, no window (identified by its reset time) lets through more
    than [maxRequests] calls, however the calls are spread in time. *)
Theorem checkRateLimit_bound id max w times m T :
  1 <= max -> 0 <= w ->
  get id m = None ->
  Z.of_nat (allowedInWindow T (fst (serve (requestsAt id max w times) m)))
  <= max.
Proof.
  intros Hmax Hw Hnone. destruct times as [|t times].
  - cbn. lia.
  - unfold requestsAt. cbn [map]. rewrite fst_serve_cons.
    cbn [identifier maxRequests windowMs at_time].
    unfold checkRateLimit. rewrite Hnone. cbv zeta. cbn [fst snd].
    assert (H1 : 1 <= 1 <= max) by lia.
    pose proof (@serve_bound id max w times Hmax Hw _ 1 (t + w)
                  (get_set_same id _ m) H1 T) as B.
    unfold requestsAt in B. unfold allowedInWindow in *.
    cbn [filter RateLimit.allowed RateLimit.resetTime andb].
    destruct (Z.eqb_spec (t + w) T); cbn [List.length];
      decide_comparisons; lia.
Qed.

Lemma checkRateLimit_bound_witness :
  Z.of_nat (allowedInWindow 61000
              (fst (serve (requestsAt (str "10.0.0.1") 2 60000
                                      [1000; 1500; 900; 61000; 61001])
                          [])))
  <= 2.
Proof.
  apply (@checkRateLimit_bound (str "10.0.0.1") 2 60000
           [1000; 1500; 900; 61000; 61001] [] 61000); [lia | lia |].
  reflexivity.
Defined.

End RateLimitSpec.

Module AuthSpec.

Import Auth JSFacts AuthFacts.
Local Open Scope Z_scope.

Lemma extractToken_bearer t :
  extractToken (Some (str "Bearer " ++ t)) = Some t.
Proof.
  unfold extractToken.
  rewrite (isPrefix_self_app (str "Bearer ") t).
  rewrite (@replaceFirst_prefix (str "Bearer ") [] (str "Bearer " ++ t)
             (isPrefix_self_app (str "Bearer ") t)).
  rewrite (skipn_self_app (str "Bearer ") t). reflexivity.
Qed.

Lemma extractToken_some h t :
  extractToken h = Some t -> h = Some (str "Bearer " ++ t).
Proof.
  unfold extractToken. destruct h as [h|]; [|discriminate].
  destruct (isPrefix (str "Bearer ") h) eqn:Hp.
  - destruct h as [|c h]; [discriminate Hp|]. cbn [orb negb].
    rewrite (@replaceFirst_prefix (str "Bearer ") [] (c :: h) Hp).
    intros H. injection H as <-. f_equal.
    exact (isPrefix_split _ _ Hp).
  - rewrite orb_true_r. discriminate.
Qed.

Lemma bearer_inj (t t' : list N) :
  Some (str "Bearer " ++ t) = Some (str "Bearer " ++ t') -> t = t'.
Proof. intros H. injection H as H. exact H. Qed.

(** X5.  [extractToken] returns a token exactly for a header that starts
    with "Bearer " (in this spelling), and the token is the rest of the
    header, unchanged: also when the rest is empty or contains "Bearer "
    again. *)
Theorem extractToken_spec h t :
  extractToken h = Some t <-> h = Some (str "Bearer " ++ t).
Proof.
  split.
  - (* a token comes from a Bearer header only *)
    intros H. exact (extractToken_some _ H).
  - (* and a Bearer header always gives its rest *)
    intros ->. unfold extractToken.
    rewrite (isPrefix_self_app (str "Bearer ") t).
    rewrite (@replaceFirst_prefix (str "Bearer ") [] (str "Bearer " ++ t)
               (isPrefix_self_app (str "Bearer ") t)).
    rewrite (skipn_self_app (str "Bearer ") t). reflexivity.
Qed.

(** X6.  [authenticateRequest] succeeds exactly when the header is
    "Bearer " followed by a non-empty token that [verifyToken] accepts, and
    then carries that user and no error.  Otherwise it carries no user, and
    the error is "No authorization token provided" exactly when the header
    is missing, is not a Bearer header or has an empty token, and "Invalid
    or expired token" exactly when the token is refused.  The answer is one
    of these three records, and the header and the verdict on the token
    decide which. *)
Theorem authenticateRequest_spec getUser userProfile h :
  let r := authenticateRequest getUser userProfile h in
  (forall u,
      (success r = true /\ user r = Some u)
      <-> exists t, h = Some (str "Bearer " ++ t) /\ t <> []
                    /\ verifyToken getUser userProfile t = Some u)
  /\ (success r = true -> error r = None)
  /\ (success r = false ->
      user r = None
      /\ ((error r = Some (str "No authorization token provided")
           /\ forall t, h = Some (str "Bearer " ++ t) -> t = [])
          \/ (error r = Some (str "Invalid or expired token")
              /\ exists t, h = Some (str "Bearer " ++ t) /\ t <> []
                           /\ verifyToken getUser userProfile t = None)))
  /\ (success r = true
      <-> exists t u, h = Some (str "Bearer " ++ t) /\ t <> []
                      /\ verifyToken getUser userProfile t = Some u)
  /\ (forall u,
        r = {| success := true; user := Some u; error := None |}
        <-> exists t, h = Some (str "Bearer " ++ t) /\ t <> []
                      /\ verifyToken getUser userProfile t = Some u)
  /\ (r = {| success := false; user := None;
             error := Some (str "No authorization token provided") |}
      <-> forall t, h = Some (str "Bearer " ++ t) -> t = [])
  /\ (r = {| success := false; user := None;
             error := Some (str "Invalid or expired token") |}
      <-> exists t, h = Some (str "Bearer " ++ t) /\ t <> []
                    /\ verifyToken getUser userProfile t = None).
Proof.
  cbv zeta.
  (* The three cases, each with the answer it gives. *)
  assert (Cases :
    ((forall t, h = Some (str "Bearer " ++ t) -> t = [])
     /\ authenticateRequest getUser userProfile h
        = {| success := false; user := None;
             error := Some (str "No authorization token provided") |})
    \/ (exists t u,
          h = Some (str "Bearer " ++ t) /\ t <> []
          /\ verifyToken getUser userProfile t = Some u
          /\ authenticateRequest getUser userProfile h
             = {| success := true; user := Some u; error := None |})
    \/ (exists t,
          h = Some (str "Bearer " ++ t) /\ t <> []
          /\ verifyToken getUser userProfile t = None
          /\ authenticateRequest getUser userProfile h
             = {| success := false; user := None;
                  error := Some (str "Invalid or expired token") |})).
  { unfold authenticateRequest.
    destruct (extractToken h) as [[|c t]|] eqn:E.
    - left. apply extractToken_some in E. subst h.
      split; [|reflexivity].
      intros t Ht. apply bearer_inj in Ht. symmetry. exact Ht.
    - apply extractToken_some in E. subst h.
      destruct (verifyToken getUser userProfile (c :: t)) as [u|] eqn:V.
      + right. left. exists (c :: t), u.
        split; [reflexivity|]. split; [discriminate|].
        split; [exact V | reflexivity].
      + right. right. exists (c :: t).
        split; [reflexivity|]. split; [discriminate|].
        split; [exact V | reflexivity].
    - left. split; [|reflexivity].
      intros t Ht. subst h. rewrite extractToken_bearer in E.
      discriminate E. }
  destruct Cases as [[Hno ->] | [[t [u [-> [Hne [V ->]]]]]
                                | [t [-> [Hne [V ->]]]]]];
    cbn [success user error].
  - (* no token *)
    assert (Hnot : forall P : list N -> Prop,
               ~ exists t, h = Some (str "Bearer " ++ t) /\ t <> [] /\ P t).
    { intros P [t [Ht [Hne _]]]. apply Hne, Hno, Ht. }
    split; [intros u; split; [intros [H _]; discriminate H
                             | intros H; elim (Hnot _ H)]|].
    split; [discriminate|].
    split; [intros _; split; [reflexivity|]; left; split;
            [reflexivity | exact Hno]|].
    split; [split; [discriminate
                   | intros [t [u [Ht [Hne _]]]]; elim (Hne (Hno t Ht))]|].
    split; [intros u; split; [discriminate | intros H; elim (Hnot _ H)]|].
    split; [split; [intros _; exact Hno | reflexivity]|].
    split; [intros H; vm_compute in H; discriminate H
           | intros H; elim (Hnot _ H)].
  - (* a token that is accepted *)
    assert (Hsame : forall t', Some (str "Bearer " ++ t)
                               = Some (str "Bearer " ++ t') -> t' = t)
      by (intros t' Ht; symmetry; exact (bearer_inj Ht)).
    split.
    { intros u'. split.
      - intros [_ H]. injection H as <-. exists t. auto.
      - intros [t' [Ht [_ V']]]. rewrite (Hsame t' Ht), V in V'.
        split; [reflexivity | exact V']. }
    split; [reflexivity|]. split; [discriminate|].
    split; [split; [intros _; exists t, u; auto | reflexivity]|].
    split.
    { intros u'. split.
      - intros H. injection H as <-. exists t. auto.
      - intros [t' [Ht [_ V']]]. rewrite (Hsame t' Ht), V in V'.
        injection V' as <-. reflexivity. }
    split; [split; [discriminate | intros H; elim Hne; apply H; reflexivity]|].
    split; [discriminate|].
    intros [t' [Ht [_ V']]]. rewrite (Hsame t' Ht), V in V'.
    discriminate V'.
  - (* a token that is refused *)
    assert (Hsame : forall t', Some (str "Bearer " ++ t)
                               = Some (str "Bearer " ++ t') -> t' = t)
      by (intros t' Ht; symmetry; exact (bearer_inj Ht)).
    split.
    { intros u'. split; [intros [H _]; discriminate H|].
      intros [t' [Ht [_ V']]]. rewrite (Hsame t' Ht), V in V'.
      discriminate V'. }
    split; [discriminate|].
    split.
    { intros _. split; [reflexivity|]. right. split; [reflexivity|].
      exists t. auto. }
    split.
    { split; [discriminate|].
      intros [t' [u' [Ht [_ V']]]]. rewrite (Hsame t' Ht), V in V'.
      discriminate V'. }
    split.
    { intros u'. split; [discriminate|].
      intros [t' [Ht [_ V']]]. rewrite (Hsame t' Ht), V in V'.
      discriminate V'. }
    split.
    { split; [intros H; vm_compute in H; discriminate H|].
      intros H. elim Hne. apply H. reflexivity. }
    split; [intros _; exists t; auto | reflexivity].
Qed.

Lemma ownKey_spec s t : ownKey s = Some t <-> s = tierName t.
Proof.
  unfold ownKey. split.
  - destruct (JS.eqb s (str "free")) eqn:E1;
      [apply eqb_eq in E1; intros H; injection H as <-; exact E1|].
    destruct (JS.eqb s (str "pro")) eqn:E2;
      [apply eqb_eq in E2; intros H; injection H as <-; exact E2|].
    destruct (JS.eqb s (str "enterprise")) eqn:E3;
      [apply eqb_eq in E3; intros H; injection H as <-; exact E3|].
    discriminate.
  - intros ->. destruct t; reflexivity.
Qed.

(** X7.  [checkSubscriptionTier] holds exactly when the user's row exists,
    its [subscription_tier] is one of free, pro and enterprise, and that
    tier is at least the required one in the order free < pro < enterprise.
    A missing row or any other stored tier fails every check, also the one
    for the free tier. *)
Theorem checkSubscriptionTier_spec userProfile userId requiredTier :
  checkSubscriptionTier userProfile userId requiredTier = true
  <-> exists p t,
        userProfile userId = Some p
        /\ UserProfile.subscription_tier p = tierName t
        /\ match requiredTier, t with
           | Free, _ => True
           | Pro, (Pro | Enterprise) => True
           | Enterprise, Enterprise => True
           | _, _ => False
           end.
Proof.
  unfold checkSubscriptionTier. split.
  - destruct (userProfile userId) as [p|]; [|discriminate].
    destruct (ownKey (UserProfile.subscription_tier p)) as [t|] eqn:E;
      [|discriminate].
    apply ownKey_spec in E. cbn [option_map]. intros H.
    exists p, t. split; [reflexivity|]. split; [exact E|].
    destruct requiredTier, t; try exact I; discriminate H.
  - intros [p [t [-> [E H]]]]. apply ownKey_spec in E. rewrite E.
    destruct requiredTier, t; try reflexivity; elim H.
Qed.

(** X8.  The answer of [checkUploadLimit] is consistent: [canUpload] holds
    exactly when [currentCount] is below the reported [limit].  The limit
    is 3 for a free user, infinite for a pro or enterprise user, 0 when the
    row cannot be read, and no number at all for any other stored tier, for
    which uploads are refused. *)
Theorem checkUploadLimit_spec userProfile userId :
  let r := checkUploadLimit userProfile userId in
  (canUpload r = true
   <-> match limit r with
       | Infinity => True
       | Finite n => currentCount r < n
       | NoEntry => False
       end)
  /\ match userProfile userId with
     | None => limit r = Finite 0 /\ currentCount r = 0
     | Some p =>
         currentCount r = UserProfile.upload_count p
         /\ (limit r = Finite 3
             <-> UserProfile.subscription_tier p = str "free")
         /\ (limit r = Infinity
             <-> UserProfile.subscription_tier p = str "pro"
                 \/ UserProfile.subscription_tier p = str "enterprise")
         /\ (limit r = NoEntry
             <-> forall t, UserProfile.subscription_tier p <> tierName t)
     end.
Proof.
  cbv zeta. unfold checkUploadLimit.
  destruct (userProfile userId) as [p|]; cbn [canUpload limit currentCount].
  2:{ split; [|split; reflexivity]. split; [discriminate | lia]. }
  destruct (ownKey (UserProfile.subscription_tier p)) as [t|] eqn:E;
    cbn [option_map].
  - apply ownKey_spec in E. rewrite E.
    destruct t; cbn [limits tierName Z.eqb orb].
    + split; [apply Z.ltb_lt|]. split; [reflexivity|].
      split; [split; reflexivity|].
      split; [split; [discriminate|intros [H|H]; discriminate H]|].
      split; [discriminate|]. intros H. elim (H Free). reflexivity.
    + cbn. split; [tauto|]. split; [reflexivity|].
      split; [split; discriminate|].
      split; [split; auto|].
      split; [discriminate|]. intros H. elim (H Pro). reflexivity.
    + cbn. split; [tauto|]. split; [reflexivity|].
      split; [split; discriminate|].
      split; [split; auto|].
      split; [discriminate|]. intros H. elim (H Enterprise). reflexivity.
  - assert (Hno : forall t, UserProfile.subscription_tier p <> tierName t).
    { intros t Ht. apply ownKey_spec in Ht. rewrite Ht in E.
      discriminate E. }
    split; [split; [discriminate | tauto]|]. split; [reflexivity|].
    split; [split; [discriminate | intros H; elim (Hno Free H)]|].
    split; [split; [discriminate
                   | intros [H|H];
                     [elim (Hno Pro H) | elim (Hno Enterprise H)]]|].
    split; [intros _; exact Hno | reflexivity].
Qed.

End AuthSpec.

(* ================================================================== *)
(** * 18. The insight rules and the chart list                         *)
(* ================================================================== *)

Module InsightFacts.

Import DashboardService JSFacts DashboardFacts.
Local Open Scope N_scope.

Lemma five_eq : five = S754_finite false 5629499534213120 (-50).
Proof. vm_compute. reflexivity. Qed.

Lemma one_eq : one = S754_finite false 4503599627370496 (-52).
Proof. vm_compute. reflexivity. Qed.

Lemma one_and_a_half_eq :
  one_and_a_half = S754_finite false 6755399441055744 (-52).
Proof. vm_compute. reflexivity. Qed.

(** A number above 5 is above 0. *)
Lemma gt_five_gt_zero g : gt g five = true -> gt g zero = true.
Proof.
  rewrite five_eq. unfold gt, zero, SFltb.
  destruct g as [s|[|]| |[|] m e]; simpl; try discriminate; reflexivity.
Qed.

(** A number below 0 is not above 0. *)
Lemma lt_zero_not_gt g : lt g zero = true -> gt g zero = false.
Proof.
  unfold lt, gt, zero, SFltb.
  destruct g as [s|[|]| |[|] m e]; simpl; try discriminate; reflexivity.
Qed.

(** A number above 1.5 is above 1. *)
Lemma gt_one_and_a_half_gt_one d :
  gt d one_and_a_half = true -> gt d one = true.
Proof.
  rewrite one_eq, one_and_a_half_eq. unfold gt, SFltb, SFcompare.
  destruct d as [s|[|]| |[|] m e]; cbv beta iota; try discriminate;
    try reflexivity.
  destruct (Z.compare (-52) e); try discriminate; try reflexivity.
  change (Pos.compare_cont Eq ?a ?b) with (Pos.compare a b).
  destruct (Pos.compare 6755399441055744 m) eqn:E; try discriminate.
  intros _. apply Pos.compare_lt_iff in E.
  assert (H : (4503599627370496 < m)%positive)
    by (apply (Pos.lt_trans _ 6755399441055744); [reflexivity | exact E]).
  apply Pos.compare_lt_iff in H. rewrite H. reflexivity.
Qed.

(** Every insight comes from the block that bears its id. *)
Lemma insights_by_id a i :
  In i (generateInsights a) ->
  (Insight.id i = str "profitability"
   /\ In i (profitabilityInsight (Analysis.kpis a)))
  \/ (Insight.id i = str "growth"
      /\ In i (growthInsight (Analysis.kpis a)))
  \/ (Insight.id i = str "cashflow"
      /\ In i (cashFlowInsight (Analysis.kpis a)))
  \/ (Insight.id i = str "risks" /\ In i (riskInsight a))
  \/ (Insight.id i = str "opportunities" /\ In i (opportunityInsight a))
  \/ (Insight.id i = str "leverage"
      /\ In i (leverageInsight (Analysis.kpis a))).
Proof.
  rewrite generateInsights_eq. intros Hin.
  repeat (apply in_app_or in Hin; destruct Hin as [Hin|Hin]).
  - left. split; [|exact Hin]. unfold profitabilityInsight in Hin.
    destruct (extractNumericValue _); [|destruct Hin].
    destruct Hin as [<-|[]]. reflexivity.
  - right. left. split; [exact (growthInsight_id _ _ Hin) | exact Hin].
  - do 2 right. left.
    split; [exact (cashFlowInsight_id _ _ Hin) | exact Hin].
  - do 3 right. left. split; [exact (riskInsight_id _ _ Hin) | exact Hin].
  - do 4 right. left.
    split; [exact (opportunityInsight_id _ _ Hin) | exact Hin].
  - do 5 right. split; [exact (leverageInsight_id _ _ Hin) | exact Hin].
Qed.

Lemma block_growth a i :
  In i (generateInsights a) -> Insight.id i = str "growth" ->
  In i (growthInsight (Analysis.kpis a)).
Proof.
  intros Hin Hid. destruct (insights_by_id a i Hin)
    as [[H ?]|[[H ?]|[[H ?]|[[H ?]|[[H ?]|[H ?]]]]]];
    try assumption; rewrite H in Hid; discriminate Hid.
Qed.

Lemma block_leverage a i :
  In i (generateInsights a) -> Insight.id i = str "leverage" ->
  In i (leverageInsight (Analysis.kpis a)).
Proof.
  intros Hin Hid. destruct (insights_by_id a i Hin)
    as [[H ?]|[[H ?]|[[H ?]|[[H ?]|[[H ?]|[H ?]]]]]];
    try assumption; rewrite H in Hid; discriminate Hid.
Qed.

Lemma block_cases a i :
  In i (generateInsights a) ->
  In i (profitabilityInsight (Analysis.kpis a))
  \/ In i (growthInsight (Analysis.kpis a))
  \/ In i (cashFlowInsight (Analysis.kpis a))
  \/ In i (riskInsight a)
  \/ In i (opportunityInsight a)
  \/ In i (leverageInsight (Analysis.kpis a)).
Proof.
  intros Hin. destruct (insights_by_id a i Hin)
    as [[_ H]|[[_ H]|[[_ H]|[[_ H]|[[_ H]|[_ H]]]]]]; tauto.
Qed.




End InsightFacts.

Module InsightSpec.

Import DashboardService JSFacts DashboardFacts InsightFacts.
Local Open Scope N_scope.

(** X9.  The insights come in the fixed order profitability, growth,
    cashflow, risks, opportunities, leverage, at most one of each, so their
    ids are pairwise distinct.  The profitability, cash flow and leverage
    insights are present exactly when the KPI extracts to a number, the
    growth insight when the growth rate extracts to a percentage, the risk
    and opportunity insights when the list is not empty; the tests of the
    cash flow and the leverage against "N/A" change nothing. *)
Theorem generateInsights_ids a :
  let k := Analysis.kpis a in
  let present (value : option number) (id : jsstring) :=
    match value with Some _ => [id] | None => [] end in
  let nonEmpty (items : list jsstring) (id : jsstring) :=
    match items with _ :: _ => [id] | [] => [] end in
  map Insight.id (generateInsights a)
  = present (extractNumericValue (Some (KPIs.netProfit k)))
            (str "profitability")
    ++ present (extractPercentageValue (Some (KPIs.growthRate k)))
               (str "growth")
    ++ present (extractNumericValue (KPIs.cashFlow k)) (str "cashflow")
    ++ nonEmpty (Analysis.risks a) (str "risks")
    ++ nonEmpty (Analysis.opportunities a) (str "opportunities")
    ++ present (extractNumericValue (KPIs.debtToEquityRatio k))
               (str "leverage")
  /\ NoDup (map Insight.id (generateInsights a)).
Proof.
  cbv zeta.
  (* The guard against "N/A" only repeats what the extraction decides. *)
  assert (HNA : forall o, isNotNA o = false -> extractNumericValue o = None).
  { intros [v|]; [|discriminate]. cbn [isNotNA]. intros H.
    apply negb_false_iff, eqb_eq in H. subst v. reflexivity. }
  assert (Hids :
    map Insight.id (generateInsights a)
    = match extractNumericValue (Some (KPIs.netProfit (Analysis.kpis a)))
      with Some _ => [str "profitability"] | None => [] end
      ++ match extractPercentageValue
                 (Some (KPIs.growthRate (Analysis.kpis a)))
         with Some _ => [str "growth"] | None => [] end
      ++ match extractNumericValue (KPIs.cashFlow (Analysis.kpis a))
         with Some _ => [str "cashflow"] | None => [] end
      ++ match Analysis.risks a with _ :: _ => [str "risks"] | [] => [] end
      ++ match Analysis.opportunities a
         with _ :: _ => [str "opportunities"] | [] => [] end
      ++ match extractNumericValue
                 (KPIs.debtToEquityRatio (Analysis.kpis a))
         with Some _ => [str "leverage"] | None => [] end).
  { rewrite generateInsights_eq, !map_app. repeat f_equal.
    - unfold profitabilityInsight.
      destruct (extractNumericValue _); reflexivity.
    - unfold growthInsight.
      destruct (extractPercentageValue _); reflexivity.
    - unfold cashFlowInsight.
      destruct (isNotNA _) eqn:E; [|rewrite (HNA _ E); reflexivity].
      destruct (extractNumericValue _); reflexivity.
    - unfold riskInsight. cbv zeta.
      destruct (Analysis.risks a); reflexivity.
    - unfold opportunityInsight. cbv zeta.
      destruct (Analysis.opportunities a); reflexivity.
    - unfold leverageInsight.
      destruct (isNotNA _) eqn:E; [|rewrite (HNA _ E); reflexivity].
      destruct (extractNumericValue _); reflexivity. }
  split; [exact Hids|]. rewrite Hids.
  destruct (extractNumericValue (Some _));
    destruct (extractPercentageValue _);
    destruct (extractNumericValue (KPIs.cashFlow _));
    destruct (Analysis.risks a);
    destruct (Analysis.opportunities a);
    destruct (extractNumericValue (KPIs.debtToEquityRatio _));
    cbn [app];
    repeat (constructor; [cbn [In]; intuition discriminate|]);
    constructor.
Qed.

(** X10.  The growth insight is typed positive only above 5 and negative
    only below 0, while its text says "Strong growth trajectory" for every
    rate above 0 and "Declining performance" otherwise.  A positive one
    therefore always reads "Strong growth" and a negative one "Declining
    performance", but a neutral one can read either: a rate of 3% is a
    neutral "Strong growth trajectory" and a rate of 0% a neutral
    "Declining performance". *)
Theorem growth_insight :
  (forall a i,
      In i (generateInsights a) -> Insight.id i = str "growth" ->
      exists g,
        extractPercentageValue (Some (KPIs.growthRate (Analysis.kpis a)))
        = Some g
        /\ Insight.type i
           = (if gt g five then positive
              else if lt g zero then negative else neutral)
        /\ Insight.description i
           = (if gt g zero then str "Strong growth trajectory with "
              else str "Declining performance with ")
             ++ KPIs.growthRate (Analysis.kpis a) ++ str " growth rate"
        /\ (Insight.type i = positive -> gt g zero = true)
        /\ (Insight.type i = negative -> gt g zero = false))
  /\ (forall a i,
        KPIs.growthRate (Analysis.kpis a) = str "3%" ->
        In i (generateInsights a) -> Insight.id i = str "growth" ->
        Insight.type i = neutral
        /\ Insight.description i
           = str "Strong growth trajectory with 3% growth rate")
  /\ (forall a i,
        KPIs.growthRate (Analysis.kpis a) = str "0%" ->
        In i (generateInsights a) -> Insight.id i = str "growth" ->
        Insight.type i = neutral
        /\ Insight.description i
           = str "Declining performance with 0% growth rate").
Proof.
  assert (General : forall a i,
    In i (generateInsights a) -> Insight.id i = str "growth" ->
    exists g,
      extractPercentageValue (Some (KPIs.growthRate (Analysis.kpis a)))
      = Some g
      /\ Insight.type i
         = (if gt g five then positive
            else if lt g zero then negative else neutral)
      /\ Insight.description i
         = (if gt g zero then str "Strong growth trajectory with "
            else str "Declining performance with ")
           ++ KPIs.growthRate (Analysis.kpis a) ++ str " growth rate"
      /\ (Insight.type i = positive -> gt g zero = true)
      /\ (Insight.type i = negative -> gt g zero = false)).
  { intros a i Hin Hid. apply block_growth in Hin; [|exact Hid].
    unfold growthInsight in Hin.
    destruct (extractPercentageValue _) as [g|]; [|destruct Hin].
    destruct Hin as [<-|[]]. exists g.
    cbn [Insight.type Insight.description].
    split; [reflexivity|]. split; [reflexivity|].
    split; [destruct (gt g zero); reflexivity|].
    split.
    - destruct (gt g five) eqn:E5; [intros _; exact (gt_five_gt_zero _ E5)|].
      destruct (lt g zero); discriminate.
    - destruct (gt g five) eqn:E5; [discriminate|].
      destruct (lt g zero) eqn:E0; [|discriminate].
      intros _. exact (lt_zero_not_gt _ E0). }
  split; [exact General|]. split.
  - intros a i Hs Hin Hid.
    destruct (General a i Hin Hid) as [g [Hg [Ht [Hd _]]]].
    rewrite Hs in Hg, Hd.
    assert (Eg : extractPercentageValue (Some (str "3%")) = Some (ofZ 3))
      by (vm_compute; reflexivity).
    rewrite Eg in Hg. injection Hg as <-. rewrite Ht, Hd.
    split; vm_compute; reflexivity.
  - intros a i Hs Hin Hid.
    destruct (General a i Hin Hid) as [g [Hg [Ht [Hd _]]]].
    rewrite Hs in Hg, Hd.
    assert (Eg : extractPercentageValue (Some (str "0%")) = Some zero)
      by (vm_compute; reflexivity).
    rewrite Eg in Hg. injection Hg as <-. rewrite Ht, Hd.
    split; vm_compute; reflexivity.
Qed.

Lemma growth_insight_witness :
  Insight.type (nth 1 (generateInsights MoreSamples.cautious)
                      (nth 0 (generateInsights MoreSamples.cautious)
                             (Insight.Build_t [] [] [] neutral low)))
  = neutral
  /\ Insight.description
       (nth 1 (generateInsights MoreSamples.cautious)
              (nth 0 (generateInsights MoreSamples.cautious)
                     (Insight.Build_t [] [] [] neutral low)))
     = str "Strong growth trajectory with 3% growth rate".
Proof.
  apply (proj1 (proj2 growth_insight) MoreSamples.cautious).
  - reflexivity.
  - vm_compute. right. left. reflexivity.
  - vm_compute. reflexivity.
Defined.

(** X11.  The leverage insight is typed negative above a ratio of 1.5,
    neutral above 1 and positive otherwise, and its importance is high
    exactly when its type is negative.  Its text says "High leverage" for
    every ratio above 1 and "Conservative leverage" otherwise, so a positive
    one always reads "Conservative" and a neutral or negative one "High". *)
Theorem leverage_insight a i :
  In i (generateInsights a) -> Insight.id i = str "leverage" ->
  exists ratio d,
    KPIs.debtToEquityRatio (Analysis.kpis a) = Some ratio
    /\ ratio <> str "N/A"
    /\ extractNumericValue (Some ratio) = Some d
    /\ Insight.type i
       = (if gt d one_and_a_half then negative
          else if gt d one then neutral else positive)
    /\ Insight.description i
       = (if gt d one
          then str "High leverage with debt-to-equity ratio of "
          else str "Conservative leverage with debt-to-equity ratio of ")
         ++ ratio
    /\ (Insight.importance i = high <-> Insight.type i = negative)
    /\ (Insight.importance i = medium <-> Insight.type i <> negative)
    /\ (Insight.type i = positive <-> gt d one = false).
Proof.
  intros Hin Hid. apply block_leverage in Hin; [|exact Hid].
  unfold leverageInsight in Hin.
  destruct (KPIs.debtToEquityRatio (Analysis.kpis a)) as [ratio|] eqn:Er;
    [|destruct Hin].
  destruct (isNotNA (Some ratio)) eqn:Ena; [|destruct Hin].
  destruct (extractNumericValue (Some ratio)) as [d|] eqn:Ed;
    [|destruct Hin].
  destruct Hin as [<-|[]]. exists ratio, d.
  cbn [Insight.type Insight.description Insight.importance interpolate].
  split; [reflexivity|].
  split.
  { intros ->. discriminate Ena. }
  split; [exact Ed|]. split; [reflexivity|].
  split; [destruct (gt d one); reflexivity|].
  destruct (gt d one_and_a_half) eqn:E15.
  - rewrite (gt_one_and_a_half_gt_one _ E15).
    repeat split; try reflexivity; try discriminate; congruence.
  - destruct (gt d one);
      repeat split; try reflexivity; try discriminate; congruence.
Qed.

Lemma leverage_insight_witness :
  exists ratio d,
    KPIs.debtToEquityRatio (Analysis.kpis MoreSamples.cautious) = Some ratio
    /\ ratio <> str "N/A"
    /\ extractNumericValue (Some ratio) = Some d
    /\ Insight.type (last (generateInsights MoreSamples.cautious)
                          (Insight.Build_t [] [] [] positive low))
       = (if gt d one_and_a_half then negative
          else if gt d one then neutral else positive)
    /\ Insight.description
         (last (generateInsights MoreSamples.cautious)
               (Insight.Build_t [] [] [] positive low))
       = (if gt d one
          then str "High leverage with debt-to-equity ratio of "
          else str "Conservative leverage with debt-to-equity ratio of ")
         ++ ratio
    /\ (Insight.importance
          (last (generateInsights MoreSamples.cautious)
                (Insight.Build_t [] [] [] positive low)) = high
        <-> Insight.type
              (last (generateInsights MoreSamples.cautious)
                    (Insight.Build_t [] [] [] positive low)) = negative)
    /\ (Insight.importance
          (last (generateInsights MoreSamples.cautious)
                (Insight.Build_t [] [] [] positive low)) = medium
        <-> Insight.type
              (last (generateInsights MoreSamples.cautious)
                    (Insight.Build_t [] [] [] positive low)) <> negative)
    /\ (Insight.type
          (last (generateInsights MoreSamples.cautious)
                (Insight.Build_t [] [] [] positive low)) = positive
        <-> gt d one = false).
Proof.
  apply (@leverage_insight MoreSamples.cautious).
  - vm_compute. do 5 right. left. reflexivity.
  - vm_compute. reflexivity.
Defined.

(** X12.  No insight has the importance low, and every insight typed
    negative has the importance high; the importance medium is given only
    to the risk, opportunity and leverage insights. *)
Theorem insights_importance a i :
  In i (generateInsights a) ->
  Insight.importance i <> low
  /\ (Insight.type i = negative -> Insight.importance i = high)
  /\ (Insight.importance i = medium ->
      Insight.id i = str "risks" \/ Insight.id i = str "opportunities"
      \/ Insight.id i = str "leverage").
Proof.
  intros Hin.
  destruct (block_cases a i Hin) as [H|[H|[H|[H|[H|H]]]]].
  - unfold profitabilityInsight in H.
    destruct (extractNumericValue _); [|destruct H].
    destruct H as [<-|[]]. cbn. repeat split; discriminate.
  - unfold growthInsight in H.
    destruct (extractPercentageValue _); [|destruct H].
    destruct H as [<-|[]]. cbn. repeat split; discriminate.
  - unfold cashFlowInsight in H. destruct (isNotNA _); [|destruct H].
    destruct (extractNumericValue _); [|destruct H].
    destruct H as [<-|[]]. cbn. repeat split; discriminate.
  - unfold riskInsight in H. cbv zeta in H.
    destruct (_ >? 0)%Z; [|destruct H].
    destruct H as [<-|[]]. cbn [Insight.importance Insight.type Insight.id].
    destruct (_ >? 3)%Z; repeat split; try discriminate; auto.
  - unfold opportunityInsight in H. cbv zeta in H.
    destruct (_ >? 0)%Z; [|destruct H].
    destruct H as [<-|[]]. cbn [Insight.importance Insight.type Insight.id].
    repeat split; try discriminate; auto.
  - unfold leverageInsight in H. destruct (isNotNA _); [|destruct H].
    destruct (extractNumericValue _) as [d|]; [|destruct H].
    destruct H as [<-|[]]. cbn [Insight.importance Insight.type Insight.id].
    destruct (gt d one_and_a_half); [repeat split; try discriminate; auto|].
    destruct (gt d one); repeat split; try discriminate; auto.
Qed.

Lemma insights_importance_witness :
  Insight.importance (nth 3 (generateInsights MoreSamples.cautious)
                            (Insight.Build_t [] [] [] positive low))
  <> low
  /\ (Insight.type (nth 3 (generateInsights MoreSamples.cautious)
                          (Insight.Build_t [] [] [] positive low))
      = negative ->
      Insight.importance (nth 3 (generateInsights MoreSamples.cautious)
                                (Insight.Build_t [] [] [] positive low))
      = high)
  /\ (Insight.importance (nth 3 (generateInsights MoreSamples.cautious)
                                (Insight.Build_t [] [] [] positive low))
      = medium ->
      Insight.id (nth 3 (generateInsights MoreSamples.cautious)
                        (Insight.Build_t [] [] [] positive low))
      = str "risks"
      \/ Insight.id (nth 3 (generateInsights MoreSamples.cautious)
                           (Insight.Build_t [] [] [] positive low))
         = str "opportunities"
      \/ Insight.id (nth 3 (generateInsights MoreSamples.cautious)
                           (Insight.Build_t [] [] [] positive low))
         = str "leverage").
Proof.
  apply (@insights_importance MoreSamples.cautious).
  vm_compute. do 3 right. left. reflexivity.
Defined.



End InsightSpec.

Module ChartSpec.

Import DashboardService JSFacts DashboardFacts InsightFacts.
Local Open Scope N_scope.

(** X14.  The chart list always starts with the Financial Overview and ends
    with the Risk vs Opportunity Analysis; between them come the balance
    sheet pie and the performance chart, each at most once and in this
    order, so there are two to four charts with distinct titles.  The
    performance chart is present exactly when one of growth rate, profit
    margin and ROI extracts to a percentage, and then every one of its
    points has a value. *)
Theorem generateChartData_shape formatCurrency a :
  let k := Analysis.kpis a in
  let charts := generateChartData formatCurrency a in
  let titles := map ChartData.title charts in
  hd_error charts = Some (financialOverview k)
  /\ last charts (financialOverview k) = riskOpportunityData a
  /\ titles
     = filter (fun t => existsb (JS.eqb t) titles)
              [ str "Financial Overview"; str "Balance Sheet Composition";
                str "Performance Metrics";
                str "Risk vs Opportunity Analysis" ]
  /\ NoDup titles
  /\ (2 <= List.length charts <= 4)%nat
  /\ (In (performanceMetrics k) charts
      <-> extractPercentageValue (Some (KPIs.growthRate k)) <> None
          \/ extractPercentageValue (KPIs.profitMargin k) <> None
          \/ extractPercentageValue (KPIs.returnOnInvestment k) <> None)
  /\ (forall c, In c charts -> ChartData.type c = ChartData.area ->
                c = performanceMetrics k
                /\ ChartData.data c <> []
                /\ forall d, In d (ChartData.data c) -> hasValue d = true).
Proof.
  cbv zeta. rewrite generateChartData_eq.
  set (k := Analysis.kpis a).
  assert (Hpie : balanceSheet formatCurrency k = []
                 \/ exists c, balanceSheet formatCurrency k = [c]
                              /\ ChartData.title c
                                 = str "Balance Sheet Composition"
                              /\ ChartData.type c = ChartData.pie).
  { unfold balanceSheet. destruct (_ && _); [|left; reflexivity].
    cbv zeta. destruct (gt _ zero); [|left; reflexivity].
    right. eexists. repeat split. }
  assert (Hdata : forall d, In d (ChartData.data (performanceMetrics k)) ->
                            hasValue d = true).
  { intros d Hd. unfold performanceMetrics in Hd. cbn [ChartData.data] in Hd.
    apply filter_In in Hd. tauto. }
  assert (Hlen :
    (0 <? List.length (ChartData.data (performanceMetrics k)))%nat = true
    <-> extractPercentageValue (Some (KPIs.growthRate k)) <> None
        \/ extractPercentageValue (KPIs.profitMargin k) <> None
        \/ extractPercentageValue (KPIs.returnOnInvestment k) <> None).
  { unfold performanceMetrics. cbn [ChartData.data filter hasValue].
    destruct (extractPercentageValue (Some (KPIs.growthRate k)));
      destruct (extractPercentageValue (KPIs.profitMargin k));
      destruct (extractPercentageValue (KPIs.returnOnInvestment k));
      cbn; split; intros H; try reflexivity; try discriminate;
      try (left; discriminate); try (right; left; discriminate);
      try (right; right; discriminate);
      destruct H as [H|[H|H]]; congruence. }
  assert (Hperf : ChartData.title (performanceMetrics k)
                  = str "Performance Metrics") by reflexivity.
  assert (Htype : ChartData.type (performanceMetrics k) = ChartData.area)
    by reflexivity.
  assert (Hnot : forall c,
             c = financialOverview k \/ c = riskOpportunityData a ->
             ChartData.type c <> ChartData.area).
  { intros c [-> | ->]; discriminate. }
  assert (Hne : performanceMetrics k <> financialOverview k
                /\ performanceMetrics k <> riskOpportunityData a).
  { split; intros H; apply (f_equal ChartData.type) in H; discriminate H. }
  destruct Hne as [Hne1 Hne2].
  destruct Hpie as [->|[pie [-> [Hpt Hpy]]]];
    destruct (0 <? List.length (ChartData.data (performanceMetrics k)))%nat
      eqn:E; cbn [app map hd_error last List.length];
    rewrite ?Hpt, ?Hperf;
    (split; [reflexivity|]);
    (split; [reflexivity|]);
    (split; [vm_compute; reflexivity|]);
    (split; [repeat (constructor; [cbn [In]; intuition discriminate|]);
             constructor|]);
    (split; [lia|]);
    (split; [rewrite <- Hlen; cbn [In]; split;
             [intros H; try reflexivity;
              repeat (destruct H as [H|H]; try (symmetry in H; tauto));
              try (apply (f_equal ChartData.type) in H;
                   rewrite Hpy in H; discriminate H);
              try tauto
             |intros H; try discriminate H; tauto]|]);
    intros c Hc Hty; cbn [In] in Hc;
    repeat (destruct Hc as [Hc|Hc]; try subst c);
    try discriminate Hty; try (rewrite Hpy in Hty; discriminate Hty);
    try (destruct Hc);
    (split; [reflexivity|]);
    (split; [|exact Hdata]);
    intros Hnil; rewrite Hnil in E; discriminate E.
Qed.

End ChartSpec.

(* ================================================================== *)
(** * 19. File validation and text extraction                          *)
(* ================================================================== *)

Module FileFacts.

Import FileParsingService GeminiAnalysisService FileParsing JSFacts.
Local Open Scope N_scope.

(** *** Blank strings *)

Lemma dropWhile_nil p (s : list N) :
  dropWhile p s = [] <-> forallb p s = true.
Proof.
  induction s as [|c s IH]; simpl; [tauto|].
  destruct (p c); simpl; [exact IH | split; discriminate].
Qed.

Lemma trimEnd_nil s : trimEnd s = [] <-> forallb isWhiteSpace s = true.
Proof.
  induction s as [|c s IH]; simpl; [tauto|].
  destruct (trimEnd s) as [|x t].
  - destruct (isWhiteSpace c); simpl.
    + split; [intros _; apply IH; reflexivity | reflexivity].
    + split; discriminate.
  - split; [discriminate|]. rewrite andb_true_iff. intros [_ H].
    apply IH in H. discriminate H.
Qed.

Lemma forallb_dropWhile p (s : list N) :
  forallb p (dropWhile p s) = true -> forallb p s = true.
Proof.
  induction s as [|c s IH]; simpl; [reflexivity|].
  destruct (p c) eqn:E; simpl; [exact IH | rewrite E; discriminate].
Qed.

(** A string trims to nothing exactly when it is white space only. *)
Lemma trim_nil s : trim s = [] <-> forallb isWhiteSpace s = true.
Proof.
  unfold trim, trimStart. rewrite trimEnd_nil. split.
  - apply forallb_dropWhile.
  - intros H. apply dropWhile_nil in H. rewrite H. reflexivity.
Qed.

(** A string that starts with a character that is no white space does
    not trim to nothing. *)
Lemma trim_cons c s : isWhiteSpace c = false -> trim (c :: s) <> [].
Proof.
  intros Hc H. apply trim_nil in H. simpl in H. rewrite Hc in H.
  discriminate H.
Qed.

Lemma split_chars sep s l c :
  In l (split sep s) -> In c l -> In c s.
Proof.
  revert l. induction s as [|x s IH]; simpl; intros l Hl Hc.
  - destruct Hl as [<-|[]]. destruct Hc.
  - destruct (x =? sep).
    + destruct Hl as [<-|Hl]; [destruct Hc|]. right. exact (IH _ Hl Hc).
    + destruct (split sep s) as [|p ps] eqn:E.
      * destruct Hl as [<-|[]]. destruct Hc as [<-|[]]. left. reflexivity.
      * destruct Hl as [<-|Hl].
        -- destruct Hc as [<-|Hc]; [left; reflexivity|].
           right. apply (IH p); [left; reflexivity | exact Hc].
        -- right. apply (IH l); [right; exact Hl | exact Hc].
Qed.

(** A blank text has no non-blank line. *)
Lemma nonBlankLines_blank content :
  trim content = [] -> nonBlankLines content = [].
Proof.
  intros H. apply trim_nil in H. rewrite forallb_forall in H.
  unfold nonBlankLines.
  assert (Hall : forall l, In l (split 10 content) ->
                           (match trim l with [] => false | _ => true end)
                           = false).
  { intros l Hl.
    assert (Hb : trim l = []).
    { apply trim_nil. apply forallb_forall. intros c Hc.
      apply H. exact (split_chars _ _ _ _ Hl Hc). }
    rewrite Hb. reflexivity. }
  induction (split 10 content) as [|l ls IH]; [reflexivity|].
  simpl. rewrite (Hall l) by (left; reflexivity).
  apply IH. intros l' Hl'. apply Hall. right. exact Hl'.
Qed.

(** *** Lengths *)

Lemma length_app (a b : list N) :
  JS.length (a ++ b) = (JS.length a + JS.length b)%Z.
Proof. unfold JS.length. rewrite List.length_app. lia. Qed.

Lemma pdfText_length fileName :
  JS.length (pdfText fileName) = (446 + JS.length fileName)%Z.
Proof.
  unfold pdfText. rewrite !length_app.
  repeat match goal with
         | |- context [JS.length (str ?s)] =>
             let n := eval vm_compute in (JS.length (str s)) in
             change (JS.length (str s)) with n
         end.
  change (JS.length [10]) with 1%Z. lia.
Qed.

End FileFacts.

Module FileSpec.

Import FileParsingService GeminiAnalysisService FileParsing JSFacts.
Import FileFacts.
Local Open Scope N_scope.

Lemma getFileType_allowed m :
  existsb (JS.eqb m) allowedTypes = true <-> getFileType m <> None.
Proof.
  unfold allowedTypes, getFileType. cbn [existsb].
  destruct (JS.eqb m (str "application/pdf")); [split; [discriminate|auto]|].
  destruct (JS.eqb m (str "application/vnd.openxmlformats-officedocument.spreadsheetml.sheet"));
    [split; [discriminate|auto]|].
  destruct (JS.eqb m (str "application/vnd.ms-excel"));
    [split; [discriminate|auto]|].
  destruct (JS.eqb m (str "text/csv")); [split; [discriminate|auto]|].
  cbn. split; [discriminate | congruence].
Qed.

(** X15.  [validateFile] accepts exactly the files of at most 10 MiB
    (10485760 bytes) whose MIME type [getFileType] maps to one of the three
    parsers, so an accepted file never reaches the unsupported-type branch
    of [parseFile].  A file that is too large is reported as such, with the
    limit printed as 10MB, whatever its type. *)
Theorem validateFile_spec file :
  (isValid (validateFile file) = true
   <-> (size file <= 10485760)%Z
       /\ exists t, getFileType (type file) = Some t
                    /\ (t = str "pdf" \/ t = str "excel" \/ t = str "csv"))
  /\ (error (validateFile file)
      = Some (str "File too large. Maximum size is 10MB")
      <-> (size file > 10485760)%Z)
  /\ (error (validateFile file)
      = Some (str "Invalid file type. Only PDF, Excel, and CSV files are supported")
      <-> (size file <= 10485760)%Z /\ getFileType (type file) = None)
  /\ (error (validateFile file) = None
      <-> isValid (validateFile file) = true).
Proof.
  assert (Ht : forall m t, getFileType m = Some t ->
                           t = str "pdf" \/ t = str "excel" \/ t = str "csv").
  { intros m t. unfold getFileType.
    destruct (JS.eqb m _); [intros H; injection H as <-; auto|].
    destruct (_ || _); [intros H; injection H as <-; auto|].
    destruct (JS.eqb m _); [intros H; injection H as <-; auto|].
    discriminate. }
  assert (Hlarge : FileTooLargeError
                   = str "File too large. Maximum size is 10MB")
    by (vm_compute; reflexivity).
  unfold validateFile. rewrite Hlarge.
  change maxSize with 10485760%Z.
  destruct (size file >? 10485760)%Z eqn:Es.
  - assert (Hs : (size file > 10485760)%Z)
      by (rewrite Z.gtb_ltb in Es; apply Z.ltb_lt in Es; lia).
    cbn [isValid error].
    split; [split; [discriminate | intros [H _]; lia]|].
    split; [tauto|].
    split; [split; [intros H; vm_compute in H; discriminate H
                   | intros [H _]; lia]|].
    split; discriminate.
  - assert (Hs : (size file <= 10485760)%Z)
      by (rewrite Z.gtb_ltb in Es; apply Z.ltb_ge in Es; exact Es).
    pose proof (getFileType_allowed (type file)) as Hal.
    destruct (existsb (JS.eqb (type file)) allowedTypes) eqn:Ea;
      cbn [negb isValid error].
    + assert (Hsome : getFileType (type file) <> None)
        by (apply Hal; reflexivity).
      destruct (getFileType (type file)) as [t|] eqn:Et; [|congruence].
      split; [split; [intros _; split; [exact Hs|];
                      exists t; split; [reflexivity | exact (Ht _ _ Et)]
                     | reflexivity]|].
      split; [split; [discriminate | lia]|].
      split; [split; [discriminate | intros [_ H]; discriminate H]|].
      tauto.
    + assert (Hnone : getFileType (type file) = None).
      { destruct (getFileType (type file)) eqn:Et; [|reflexivity].
        assert (H : false = true) by (apply Hal; discriminate).
        discriminate H. }
      rewrite Hnone.
      split; [split; [discriminate
                     | intros [_ [t [H _]]]; discriminate H]|].
      split; [split; [intros H; vm_compute in H; discriminate H | lia]|].
      split; [split; [auto | reflexivity]|].
      split; discriminate.
Qed.

Section WithLibraries.

Variable Bytes : Type.
Variable toStringUtf8 : Bytes -> jsstring.
Variable Cell : Type.
Variable cellText : Cell -> jsstring.
Variable XLSX_read : Bytes -> Thrown + Workbook Cell.

(** X16.  [parseFile] fails in two cases only, each time with the cause
    wrapped in "Failed to parse <type> file: ": for a file type other than
    pdf, excel and csv, and for an Excel file the workbook reader rejects.
    A PDF or CSV file is never refused. *)
Theorem parseFile_failures file fileName fileType message :
  parseFile toStringUtf8 cellText XLSX_read file fileName fileType
  = Throws message
  <-> (fileType <> str "pdf" /\ fileType <> str "excel"
       /\ fileType <> str "csv"
       /\ message = str "Failed to parse " ++ fileType ++ str " file: "
                        ++ str "Unsupported file type: " ++ fileType)
      \/ (fileType = str "excel"
          /\ exists e,
               XLSX_read file = inl e
               /\ message
                  = str "Failed to parse excel file: Excel parsing failed: "
                        ++ messageOf e).
Proof.
  unfold parseFile. cbv zeta.
  destruct (JS.eqb fileType (str "pdf")) eqn:E1.
  { apply eqb_eq in E1. subst fileType. cbn. split; [discriminate|].
    intros [[H _]|[H _]]; [elim H; reflexivity | discriminate H]. }
  destruct (JS.eqb fileType (str "excel")) eqn:E2.
  { apply eqb_eq in E2. subst fileType. unfold parseExcel.
    destruct (XLSX_read file) as [e|wb].
    - split.
      + intros H. injection H as <-. right. split; [reflexivity|].
        exists e. split; reflexivity.
      + intros [[_ [H _]]|[_ [e' [He ->]]]]; [elim H; reflexivity|].
        injection He as <-. reflexivity.
    - split; [discriminate|].
      intros [[_ [H _]]|[_ [e' [He _]]]];
        [elim H; reflexivity | discriminate He]. }
  destruct (JS.eqb fileType (str "csv")) eqn:E3.
  { apply eqb_eq in E3. subst fileType. cbn. split; [discriminate|].
    intros [[_ [_ [H _]]]|[H _]]; [elim H; reflexivity | discriminate H]. }
  apply eqb_neq in E1, E2, E3. split.
  - intros H. injection H as <-. left. repeat split; assumption.
  - intros [[_ [_ [_ ->]]]|[H _]]; [reflexivity | contradiction].
Qed.

End WithLibraries.

End FileSpec.

Module ExtractionSpec.

Import FileParsingService GeminiAnalysisService FileParsing JSFacts.
Import FileFacts.
Local Open Scope nat_scope.

(** The loop over non-blank lines, in closed form. *)
Lemma rowLoop_closed lines :
  Forall (fun line => trim line <> []) lines ->
  forall i,
    rowLoop i (Nat.min 100 (i + List.length lines)) lines
    = map (fun il => str "Row " ++ showZ (Z.of_nat (fst il) + 1) ++ str ": "
                         ++ trim (snd il) ++ [10%N])
          (combine (seq i (100 - i)) lines).
Proof.
  induction 1 as [|line rest Hl _ IH]; intros i.
  - cbn [rowLoop]. rewrite combine_nil. reflexivity.
  - cbn [rowLoop List.length].
    destruct (i <? Nat.min 100 (i + S (List.length rest))) eqn:E.
    + apply Nat.ltb_lt in E.
      unfold rowText. destruct (trim line) as [|c t] eqn:Et; [congruence|].
      replace (100 - i) with (S (100 - S i)) by lia.
      cbn [seq combine map fst snd app]. rewrite Et. f_equal.
      replace (i + S (List.length rest)) with (S i + List.length rest)
        by lia.
      apply IH.
    + apply Nat.ltb_ge in E.
      replace (100 - i) with 0 by lia. reflexivity.
Qed.

(** X17.  The text extracted from a CSV file is the three header lines,
    then one line "Row k: <line>" for each of the first 100 non-blank lines
    of the file, trimmed, numbered from 1 in file order with blank lines
    not counted, then the truncation notice.  No non-blank line among the
    first 100 is skipped, and nothing of a later line appears. *)
Theorem parseCSV_text content name :
  let lines := nonBlankLines content in
  text (parseCSV content name)
  = preamble name lines
    ++ List.concat
         (map (fun il => str "Row " ++ showZ (Z.of_nat (fst il) + 1)
                             ++ str ": " ++ trim (snd il) ++ [10%N])
              (combine (seq 0 100) lines))
    ++ notice lines
  /\ Forall (fun line => In line (split 10 content) /\ trim line <> [])
            lines.
Proof.
  cbv zeta. split.
  - unfold parseCSV. cbv zeta. cbn [text].
    pose proof (rowLoop_closed
                  (FileParsingSpec.nonBlankLines_nonblank content) 0) as H.
    change (0 + List.length (nonBlankLines content))
      with (List.length (nonBlankLines content)) in H.
    change (100 - 0) with 100 in H.
    rewrite H, <- app_assoc. reflexivity.
  - apply Forall_forall. intros line H. unfold nonBlankLines in H.
    apply filter_In in H. destruct H as [Hin H]. split; [exact Hin|].
    destruct (trim line); [discriminate H | discriminate].
Qed.

(** X18.  A CSV file that is empty or holds white space only is not
    refused by the parser: the text names no header and reports
    "Total Rows: -1".  The content check then refuses it as too short,
    unless the file name has 63 characters or more, in which case this
    text is accepted for analysis. *)
Theorem parseCSV_blank content name :
  trim content = [] ->
  text (parseCSV content name)
  = str "CSV File: " ++ name ++ [10%N] ++ str "Headers: " ++ [10%N]
        ++ str "Total Rows: -1" ++ [10%N; 10%N]
  /\ (isValid (validateContent (text (parseCSV content name))) = true
      <-> (63 <= JS.length name <= 99963)%Z)
  /\ ((JS.length name < 63)%Z ->
      error (validateContent (text (parseCSV content name)))
      = Some ContentTooShortError).
Proof.
  intros Hb.
  assert (Ht : text (parseCSV content name)
               = str "CSV File: " ++ name ++ [10%N] ++ str "Headers: "
                     ++ [10%N] ++ str "Total Rows: -1" ++ [10%N; 10%N]).
  { unfold parseCSV. cbv zeta. rewrite (nonBlankLines_blank _ Hb).
    cbn [text]. unfold preamble, notice. cbn [List.length headersOf join].
    cbn [rowLoop List.concat Nat.ltb Nat.leb].
    rewrite !app_nil_r. rewrite <- !app_assoc. reflexivity. }
  split; [exact Ht|]. rewrite Ht.
  assert (Hlen : JS.length (str "CSV File: " ++ name ++ [10%N]
                              ++ str "Headers: " ++ [10%N]
                              ++ str "Total Rows: -1" ++ [10%N; 10%N])
                 = (37 + JS.length name)%Z).
  { rewrite !length_app.
    repeat match goal with
           | |- context [JS.length (str ?s)] =>
               let n := eval vm_compute in (JS.length (str s)) in
               change (JS.length (str s)) with n
           end.
    change (JS.length [10%N]) with 1%Z.
    change (JS.length [10%N; 10%N]) with 2%Z. lia. }
  unfold validateContent. rewrite Hlen.
  change (str "CSV File: " ++ name ++ [10%N] ++ str "Headers: " ++ [10%N]
              ++ str "Total Rows: -1" ++ [10%N; 10%N])
    with (67%N :: (skipn 1 (str "CSV File: ") ++ name ++ [10%N]
                     ++ str "Headers: " ++ [10%N]
                     ++ str "Total Rows: -1" ++ [10%N; 10%N])).
  set (rest := skipn 1 (str "CSV File: ") ++ _).
  assert (Htrim : (JS.length (trim (67%N :: rest)) =? 0)%Z = false).
  { apply Z.eqb_neq. unfold JS.length.
    pose proof (@trim_cons 67%N rest eq_refl) as Hne.
    destruct (trim (67%N :: rest)); [congruence | cbn [List.length]; lia]. }
  rewrite Htrim. cbn [orb].
  pose proof (Zle_0_nat (List.length name)) as Hn.
  fold (JS.length name) in Hn.
  destruct (37 + JS.length name <? 100)%Z eqn:E1.
  - apply Z.ltb_lt in E1. cbn [isValid error].
    split; [split; [discriminate | lia]|]. reflexivity.
  - apply Z.ltb_ge in E1.
    destruct (37 + JS.length name >? 100000)%Z eqn:E2; cbn [isValid error].
    + rewrite Z.gtb_ltb in E2. apply Z.ltb_lt in E2.
      split; [split; [discriminate | lia] | lia].
    + rewrite Z.gtb_ltb in E2. apply Z.ltb_ge in E2.
      split; [split; [lia | reflexivity] | lia].
Qed.

Lemma parseCSV_blank_witness :
  text (parseCSV (str " " ++ [10%N; 9%N; 10%N]) (str "empty.csv"))
  = str "CSV File: " ++ str "empty.csv" ++ [10%N] ++ str "Headers: "
        ++ [10%N] ++ str "Total Rows: -1" ++ [10%N; 10%N]
  /\ (isValid (validateContent
                 (text (parseCSV (str " " ++ [10%N; 9%N; 10%N])
                                 (str "empty.csv")))) = true
      <-> (63 <= JS.length (str "empty.csv") <= 99963)%Z)
  /\ ((JS.length (str "empty.csv") < 63)%Z ->
      error (validateContent
               (text (parseCSV (str " " ++ [10%N; 9%N; 10%N])
                               (str "empty.csv"))))
      = Some ContentTooShortError).
Proof.
  apply (@parseCSV_blank (str " " ++ [10%N; 9%N; 10%N]) (str "empty.csv")).
  vm_compute. reflexivity.
Defined.

Section WithLibraries.

Variable Bytes : Type.
Variable toStringUtf8 : Bytes -> jsstring.
Variable Cell : Type.
Variable cellText : Cell -> jsstring.
Variable XLSX_read : Bytes -> Thrown + Workbook Cell.

Lemma excelRows_firstn rows :
  forall i,
    excelRows cellText i rows
    = excelRows cellText i (firstn (50 - i) rows).
Proof.
  induction rows as [|row rest IH]; intros i.
  - rewrite firstn_nil. reflexivity.
  - destruct (i <? 50) eqn:E.
    + apply Nat.ltb_lt in E.
      replace (50 - i) with (S (50 - S i)) by lia.
      cbn [firstn excelRows]. rewrite <- IH. reflexivity.
    + assert (E' := E). apply Nat.ltb_ge in E'.
      replace (50 - i) with 0 by lia.
      cbn [firstn excelRows]. unfold excelRow at 1. rewrite E.
      rewrite (IH (S i)). replace (50 - S i) with 0 by lia.
      reflexivity.
Qed.

(** X19.  Of every sheet of an Excel workbook only the first 50 rows and
    the number of rows enter the extracted text: two workbooks with the
    same sheet names whose sheets agree on both give the same text. *)
Theorem parseExcel_first_50_rows (wb1 wb2 : Workbook Cell) fileName :
  SheetNames wb1 = SheetNames wb2 ->
  (forall s, In s (SheetNames wb1) ->
             firstn 50 (sheetRows wb1 s) = firstn 50 (sheetRows wb2 s)
             /\ List.length (sheetRows wb1 s)
                = List.length (sheetRows wb2 s)) ->
  excelText cellText wb1 fileName = excelText cellText wb2 fileName.
Proof.
  intros Hn Hs. unfold excelText. cbv zeta. rewrite <- Hn.
  assert (Sheets : forall names i,
    (forall s, In s names -> In s (SheetNames wb1)) ->
    excelSheets cellText wb1 i names = excelSheets cellText wb2 i names).
  { induction names as [|s names IH]; intros i Hin; [reflexivity|].
    cbn [excelSheets].
    rewrite IH by (intros s' H'; apply Hin; right; exact H').
    f_equal. unfold excelSheet. cbv zeta.
    destruct (Hs s (Hin s (or_introl eq_refl))) as [Hf Hl].
    rewrite Hl.
    rewrite (excelRows_firstn (sheetRows wb1 s) 0).
    rewrite (excelRows_firstn (sheetRows wb2 s) 0).
    change (50 - 0) with 50. rewrite Hf. reflexivity. }
  rewrite (Sheets (SheetNames wb1) 0 (fun s H => H)). reflexivity.
Qed.

(** X20.  Whatever [parseFile] returns is never refused by the content
    check as empty: the text always starts with the name of the format.
    For a PDF file the text is the placeholder with its sample figures
    whatever the bytes of the file, and the content check accepts it
    exactly when the file name has at most 99554 characters. *)
Theorem parseFile_content file fileName fileType p :
  parseFile toStringUtf8 cellText XLSX_read file fileName fileType
  = Returns p ->
  error (validateContent (text (content p))) <> Some EmptyContentError
  /\ (fileType = str "pdf" ->
      text (content p) = pdfText fileName
      /\ (isValid (validateContent (text (content p))) = true
          <-> (JS.length fileName <= 99554)%Z)).
Proof.
  assert (Hne : forall c rest,
             isWhiteSpace c = false ->
             error (validateContent (c :: rest)) <> Some EmptyContentError).
  { intros c rest Hc. unfold validateContent.
    assert (Htrim : (JS.length (trim (c :: rest)) =? 0)%Z = false).
    { apply Z.eqb_neq. unfold JS.length.
      pose proof (@trim_cons c rest Hc) as Hne.
      destruct (trim (c :: rest)); [congruence | cbn [List.length]; lia]. }
    rewrite Htrim. cbn [orb].
    destruct (_ <? 100)%Z; [intros H; vm_compute in H; discriminate H|].
    destruct (_ >? 100000)%Z; [intros H; vm_compute in H; discriminate H|].
    discriminate. }
  unfold parseFile. cbv zeta.
  destruct (JS.eqb fileType (str "pdf")) eqn:E1.
  { unfold parsePDF. intros H. injection H as <-. cbn [content text].
    split; [exact (Hne 80%N _ eq_refl)|]. intros _.
    split; [reflexivity|].
    unfold validateContent.
    assert (Htrim : (JS.length (trim (pdfText fileName)) =? 0)%Z = false).
    { apply Z.eqb_neq. unfold JS.length.
      pose proof (@trim_cons 80%N
                    (skipn 1 (pdfText fileName)) eq_refl) as Hne'.
      change (80%N :: skipn 1 (pdfText fileName))
        with (pdfText fileName) in Hne'.
      destruct (trim (pdfText fileName));
        [congruence | cbn [List.length]; lia]. }
    rewrite Htrim. rewrite pdfText_length.
    change (match pdfText fileName with [] => true | _ :: _ => false end)
      with false.
    cbn [orb].
    pose proof (Zle_0_nat (List.length fileName)) as Hn.
    fold (JS.length fileName) in Hn.
    assert (E100 : (446 + JS.length fileName <? 100)%Z = false)
      by (apply Z.ltb_ge; lia).
    rewrite E100.
    destruct (446 + JS.length fileName >? 100000)%Z eqn:E2;
      cbn [isValid]; rewrite Z.gtb_ltb in E2.
    - apply Z.ltb_lt in E2. split; [discriminate | lia].
    - apply Z.ltb_ge in E2. split; [lia | reflexivity]. }
  assert (Hnot : fileType <> str "pdf") by (apply eqb_neq; exact E1).
  destruct (JS.eqb fileType (str "excel")).
  { unfold parseExcel. destruct (XLSX_read file) as [e|wb]; [discriminate|].
    intros H. injection H as <-. cbn [content text].
    split; [exact (Hne 69%N _ eq_refl) | contradiction]. }
  destruct (JS.eqb fileType (str "csv")); [|discriminate].
  unfold parseCSVFile. intros H. injection H as <-. cbn [content].
  split; [exact (Hne 67%N _ eq_refl) | contradiction].
Qed.

End WithLibraries.

Lemma parseExcel_first_50_rows_witness :
  excelText (fun c => c) (FileSamples.tallWorkbook (str "51st row"))
            (str "book.xlsx")
  = excelText (fun c => c) (FileSamples.tallWorkbook (str "changed"))
              (str "book.xlsx").
Proof.
  apply parseExcel_first_50_rows.
  - reflexivity.
  - intros s _. split; vm_compute; reflexivity.
Defined.

Lemma parseFile_content_witness :
  error (validateContent (pdfText (str "annual-report.pdf")))
  <> Some EmptyContentError
  /\ (str "pdf" = str "pdf" ->
      pdfText (str "annual-report.pdf") = pdfText (str "annual-report.pdf")
      /\ (isValid (validateContent (pdfText (str "annual-report.pdf")))
          = true
          <-> (JS.length (str "annual-report.pdf") <= 99554)%Z)).
Proof.
  apply (@parseFile_content jsstring (fun b => b) jsstring (fun c => c)
           FileSamples.noWorkbook (str "%PDF-1.7") (str "annual-report.pdf")
           (str "pdf")
           {| content := {| text := pdfText (str "annual-report.pdf");
                            fileName := str "annual-report.pdf";
                            fileType := str "pdf" |};
              pageCount := Some 1%Z; sheetCount := None |}).
  vm_compute. reflexivity.
Defined.

End ExtractionSpec.

(* ================================================================== *)
(** * 20. From an unreadable response to the dashboard                 *)
(* ================================================================== *)

Module PipelineSpec.

Import GeminiAnalysisService DashboardService Stored.
Local Open Scope N_scope.

(** X21.  When the response of the model holds no JSON object, or one that
    does not parse, the analysis record that stores the parsed result gives
    a dashboard of two charts, the Financial Overview with three bars
    without value and the Risk vs Opportunity Analysis, and two insights:
    the advisory string of the fallback is counted as one risk and as one
    growth opportunity. *)
Theorem fallback_dashboard formatCurrency text a :
  (matchJsonObject text = None
   \/ exists jsonStr,
        matchJsonObject text = Some jsonStr /\ JSON.parse jsonStr = None) ->
  resultOf a = parseAnalysisResponse text ->
  let dashboard := generateDashboard formatCurrency a in
  map (fun c => (ChartData.title c, map hasValue (ChartData.data c)))
      (chartData dashboard)
  = [ (str "Financial Overview", [false; false; false]);
      (str "Risk vs Opportunity Analysis", [true; true; true]) ]
  /\ map (fun i => (Insight.id i, Insight.description i))
         (insights dashboard)
     = [ (str "risks",
          str "1 potential risks identified that require management attention");
         (str "opportunities",
          str "1 growth opportunities identified for business expansion") ]
  /\ map (fun i => (Insight.type i, Insight.importance i))
         (insights dashboard)
     = [ (neutral, medium); (positive, medium) ].
Proof.
  intros Hbad Hstored.
  assert (Hfb : parseAnalysisResponse text = fallback).
  { unfold parseAnalysisResponse, tryParse, jsonParse.
    destruct Hbad as [Hm|[jsonStr [Hm Hp]]]; rewrite Hm; cbn [bind];
      [reflexivity|]. rewrite Hp. reflexivity. }
  rewrite Hfb in Hstored. clear Hfb Hbad text.
  destruct a as [id fileId summary k risks opportunities recommendations].
  destruct k as [revenue expenses netProfit growthRate totalAssets
                 totalLiabilities cashFlow debtToEquityRatio
                 returnOnInvestment profitMargin].
  unfold resultOf, fallback, NA, advisory in Hstored.
  cbn [Analysis.kpis Analysis.summary Analysis.risks Analysis.opportunities
       Analysis.recommendations KPIs.revenue KPIs.expenses KPIs.netProfit
       KPIs.growthRate KPIs.totalAssets KPIs.totalLiabilities KPIs.cashFlow
       KPIs.debtToEquityRatio KPIs.returnOnInvestment KPIs.profitMargin]
    in Hstored.
  injection Hstored as Hsum Hrev Hexp Hnet Hgro Hta Htl Hcf Hde Hroi Hpm
                       Hrisks Hopps Hrecs.
  assert (Hopt : forall o s, ofOptional o = VStr s -> o = Some s).
  { intros [x|] s H; [injection H as ->; reflexivity | discriminate H]. }
  assert (Hone : forall l s, map VStr l = [VStr s] -> l = [s]).
  { intros [|x [|y l]] s H; try discriminate H.
    injection H as ->. reflexivity. }
  apply Hopt in Hta, Htl, Hcf, Hde, Hroi, Hpm.
  apply Hone in Hrisks, Hopps, Hrecs.
  subst. cbv zeta.
  split; [vm_compute; reflexivity|].
  split; vm_compute; reflexivity.
Qed.

Lemma fallback_dashboard_witness :
  let dashboard :=
    generateDashboard Samples.plainCurrency MoreSamples.unreadable in
  map (fun c => (ChartData.title c, map hasValue (ChartData.data c)))
      (chartData dashboard)
  = [ (str "Financial Overview", [false; false; false]);
      (str "Risk vs Opportunity Analysis", [true; true; true]) ]
  /\ map (fun i => (Insight.id i, Insight.description i))
         (insights dashboard)
     = [ (str "risks",
          str "1 potential risks identified that require management attention");
         (str "opportunities",
          str "1 growth opportunities identified for business expansion") ]
  /\ map (fun i => (Insight.type i, Insight.importance i))
         (insights dashboard)
     = [ (neutral, medium); (positive, medium) ].
Proof.
  apply (@fallback_dashboard Samples.plainCurrency
           (str "I am sorry, I cannot read this report.")
           MoreSamples.unreadable).
  - left. vm_compute. reflexivity.
  - vm_compute. reflexivity.
Defined.

End PipelineSpec.
